(** * alle-ai-node: request validation and error classification

    A shallow embedding of the SDK's validators (modules chat, Image, Audio,
    Video), of its HTTP error classifier (core/AlleAI.ts, core/errors.ts),
    of its file helper (utils.ts) and of [authenticate], followed by the
    properties of the specification that they satisfy or break, and by
    further properties of the code. *)

From Stdlib Require Import String Ascii List ZArith QArith Bool Lia.
From Stdlib Require Import DecimalString.
Import ListNotations.

Set Warnings "-register-all".

Close Scope Q_scope.
Open Scope list_scope.
Open Scope string_scope.

(* ================================================================== *)
(** ** JavaScript values *)
(* ================================================================== *)

Module Js.

(** An IEEE double as far as the validators look at it: every finite
    double is a rational, and the code only compares numbers with
    constants and asks whether they are integers. *)
Inductive JsNumber : Type :=
| NaN
| Infinity (negative : bool)
| Finite (q : Q).

(** The values a caller can put in a request or a server in a JSON body.
    The property list of [JObj] is the object's own enumerable string
    keys in property order, each key once. *)
Inductive JsValue : Type :=
| JUndefined
| JNull
| JBool (b : bool)
| JNum (n : JsNumber)
| JStr (s : string)
| JArr (elems : list JsValue)
| JObj (props : list (string * JsValue)).

Definition JsObject : Type := list (string * JsValue).

Definition ofZ (z : Z) : JsValue := JNum (Finite (inject_Z z)).

(** [typeof v] *)
Definition typeof (v : JsValue) : string :=
  match v with
  | JUndefined => "undefined"
  | JNull => "object"
  | JBool _ => "boolean"
  | JNum _ => "number"
  | JStr _ => "string"
  | JArr _ => "object"
  | JObj _ => "object"
  end.

(** ToBoolean: what [!v] and [if (v)] look at. *)
Definition truthy (v : JsValue) : bool :=
  match v with
  | JUndefined | JNull => false
  | JBool b => b
  | JNum NaN => false
  | JNum (Infinity _) => true
  | JNum (Finite q) => negb (Qnum q =? 0)%Z
  | JStr s => negb (s =? EmptyString)
  | JArr _ | JObj _ => true
  end.

(** [v] is null or undefined: a property access on it throws. *)
Definition isNullish (v : JsValue) : bool :=
  match v with JUndefined | JNull => true | _ => false end.

Definition isArray (v : JsValue) : bool :=
  match v with JArr _ => true | _ => false end.

Fixpoint lookup (k : string) (o : JsObject) : option JsValue :=
  match o with
  | [] => None
  | (k', v) :: o' => if k' =? k then Some v else lookup k o'
  end.

(** [k in o] for a key that no prototype defines. *)
Definition hasKey (k : string) (o : JsObject) : bool :=
  match lookup k o with Some _ => true | None => false end.

(** [o.k] on an object, and what destructuring [{k}] binds. *)
Definition field (k : string) (o : JsObject) : JsValue :=
  match lookup k o with Some v => v | None => JUndefined end.

(** [v.k] on a value that is neither null nor undefined, for a key that
    is no index, not [length] and on no prototype: only objects have it. *)
Definition getProp (v : JsValue) (k : string) : JsValue :=
  match v with
  | JObj o => field k o
  | _ => JUndefined
  end.

(** [Object.values(o)] *)
Definition values (o : JsObject) : list JsValue := map snd o.

(** *** Strings *)

(** A string is held as the UTF-8 bytes of its text, which is what a
    string literal of this file denotes.  On well-formed text, searching
    and splitting by bytes is searching and splitting by characters. *)

(** [hay.includes(needle)] *)
Fixpoint includes (needle hay : string) : bool :=
  if prefix needle hay then true
  else match hay with
       | EmptyString => false
       | String _ hay' => includes needle hay'
       end.

(** The UTF-8 bytes of a code point below U+10000. *)
Definition utf8 (codePoint : N) : string :=
  if (codePoint <? 128)%N then
    String (ascii_of_N codePoint) EmptyString
  else if (codePoint <? 2048)%N then
    String (ascii_of_N (192 + codePoint / 64))
      (String (ascii_of_N (128 + codePoint mod 64)) EmptyString)
  else
    String (ascii_of_N (224 + codePoint / 4096))
      (String (ascii_of_N (128 + (codePoint / 64) mod 64))
         (String (ascii_of_N (128 + codePoint mod 64)) EmptyString)).

(** The characters [trim] removes, WhiteSpace and LineTerminator of
    ECMAScript: TAB, LF, VT, FF, CR, SP, U+00A0, U+1680, U+2000 to U+200A,
    U+2028, U+2029, U+202F, U+205F, U+3000 and U+FEFF. *)
Definition whiteSpaceCodePoints : list N :=
  [9; 10; 11; 12; 13; 32; 160; 5760;
   8192; 8193; 8194; 8195; 8196; 8197; 8198; 8199; 8200; 8201; 8202;
   8232; 8233; 8239; 8287; 12288; 65279]%N.

Definition whiteSpaces : list string :=
  Eval cbv in map utf8 whiteSpaceCodePoints.

(** [s] without the prefix [p], if it has it. *)
Fixpoint dropPrefix (p s : string) : option string :=
  match p, s with
  | EmptyString, _ => Some s
  | String a p', String b s' =>
      if Ascii.eqb a b then dropPrefix p' s' else None
  | String _ _, EmptyString => None
  end.

(** [s] without the white-space character at its head, if there is one. *)
Definition dropWhiteSpace (s : string) : option string :=
  fold_right (fun w later =>
                match dropPrefix w s with
                | Some rest => Some rest
                | None => later
                end)
    None whiteSpaces.

Fixpoint trimStartFrom (steps : nat) (s : string) : string :=
  match steps with
  | O => s
  | S steps' =>
      match dropWhiteSpace s with
      | Some rest => trimStartFrom steps' rest
      | None => s
      end
  end.

(** [s.trimStart()]: a string has no more characters than bytes. *)
Definition trimStart (s : string) : string :=
  trimStartFrom (String.length s) s.

(** [s.trim()] is the empty string: true exactly when every character is
    white space, which is what the validators ask of [trim]. *)
Definition trimIsEmpty (s : string) : bool := trimStart s =? EmptyString.

(** [s.trimEnd()]: the string up to the point from which only white space
    follows. *)
Fixpoint trimEnd (s : string) : string :=
  match s with
  | EmptyString => EmptyString
  | String c s' =>
      if trimIsEmpty s then EmptyString else String c (trimEnd s')
  end.

(** [s.trim()] *)
Definition trim (s : string) : string := trimEnd (trimStart s).

(** [s.split(sep)] for a one-character separator. *)
Fixpoint split (sep : ascii) (s : string) : list string :=
  match s with
  | EmptyString => [EmptyString]
  | String c s' =>
      if Ascii.eqb c sep then EmptyString :: split sep s'
      else match split sep s' with
           | [] => [String c EmptyString]
           | piece :: pieces => String c piece :: pieces
           end
  end.

(** Decimal digits of an integer, as a template literal prints it. *)
Definition decimal (z : Z) : string := NilZero.string_of_int (Z.to_int z).

End Js.
Export Js.

(* ================================================================== *)
(** ** What the runtime and the libraries provide *)
(* ================================================================== *)

(** [FormData] of the form-data package: the fields appended so far. *)
Inductive FormValue : Type :=
| FormField (value : JsValue)
| FormFile (buffer : list Byte.byte) (filename : string).

Definition FormData : Type := list (string * FormValue).

(** What a conversion to a string comes to: the string, or the message of
    the TypeError it throws. *)
Inductive Converted : Type :=
| AsString (s : string)
| ConversionFails (typeErrorMessage : string).

(** Functions of the JavaScript runtime and of the packages the SDK calls;
    none of them is code of the SDK. *)
Record Runtime : Type := mkRuntime {
  (** [JSON.parse]; [None] when it throws *)
  JSON_parse : string -> option JsValue;
  (** [JSON.stringify] on a value that has a JSON text *)
  JSON_stringify : JsValue -> string;
  (** [String(v)] for a [v] that is not a string; it throws a TypeError on
      an object that cannot be made a primitive, such as a parsed body
      with a property [toString] of its own *)
  ToString : JsValue -> Converted;
  (** [isNaN(Number(s))] *)
  numberIsNaN : string -> bool;
  (** [formData.getHeaders()] *)
  getHeaders : FormData -> list (string * string)
}.

(** [String(v)], also the coercion of the [Error] constructor and of
    template literals. *)
Definition toStr (rt : Runtime) (v : JsValue) : Converted :=
  match v with
  | JStr s => AsString s
  | _ => ToString rt v
  end.

(* ================================================================== *)
(** ** core/errors.ts *)
(* ================================================================== *)

(** The class of an error object: the base class and its seven subclasses.
    Every one of them satisfies [instanceof AlleAIError]. *)
Inductive ErrorClass : Type :=
| CAlleAIError
| CValidationError
| CAuthenticationError
| CInvalidRequestError
| CRateLimitError
| CServiceUnavailableError
| CConnectionError
| CAPIError.

Record AlleAIError : Type := mkError {
  class : ErrorClass;
  message : string;
  code : string;
  status : option Z;
  details : JsValue
}.

(** [this.name], set by each constructor. *)
Definition name (e : AlleAIError) : string :=
  match class e with
  | CAlleAIError => "AlleAIError"
  | CValidationError => "ValidationError"
  | CAuthenticationError => "AuthenticationError"
  | CInvalidRequestError => "InvalidRequestError"
  | CRateLimitError => "RateLimitError"
  | CServiceUnavailableError => "ServiceUnavailableError"
  | CConnectionError => "ConnectionError"
  | CAPIError => "APIError"
  end.

(** The constructors with every argument given. *)
Definition ValidationError' (message code : string) (details : JsValue) :=
  mkError CValidationError message code None details.

Definition AuthenticationError (message code : string) (details : JsValue) :=
  mkError CAuthenticationError message code (Some 401%Z) details.

Definition InvalidRequestError (message code : string) (details : JsValue) :=
  mkError CInvalidRequestError message code (Some 400%Z) details.

Definition RateLimitError (message code : string) (details : JsValue) :=
  mkError CRateLimitError message code (Some 429%Z) details.

Definition ServiceUnavailableError (message code : string) (details : JsValue) :=
  mkError CServiceUnavailableError message code (Some 503%Z) details.

Definition ConnectionError (message code : string) (details : JsValue) :=
  mkError CConnectionError message code None details.

Definition APIError (message code : string) (status : option Z)
    (details : JsValue) :=
  mkError CAPIError message code status details.

(** [new ValidationError(message)]: the code defaults to
    [VALIDATION_ERROR], the details stay undefined. *)
Definition ValidationError (message : string) : AlleAIError :=
  ValidationError' message "VALIDATION_ERROR" JUndefined.

(** What a [throw] can carry. *)
Inductive Exn : Type :=
| Typed (e : AlleAIError)
    (** an instance of [AlleAIError] *)
| NativeError (isTypeError : bool) (msg : string)
    (** any other [Error]; the flag is [instanceof TypeError] *)
| ThrownValue (v : JsValue)
    (** a value that is no [Error] *).

(** The completion of a call: a value, or a [throw]. *)
Inductive Completion (A : Type) : Type :=
| Return (a : A)
| Throw (e : Exn).
Arguments Return {A} a.
Arguments Throw {A} e.

Definition bindC {A B} (c : Completion A) (k : A -> Completion B)
    : Completion B :=
  match c with
  | Return a => k a
  | Throw e => Throw e
  end.

Definition throwValidation {A} (message : string) : Completion A :=
  Throw (Typed (ValidationError message)).

Declare Scope completion_scope.
Delimit Scope completion_scope with completion.
Notation "x <- c ;; k" := (bindC c (fun x => k))
  (at level 61, c at next level, right associativity) : completion_scope.
Notation "c ;; k" := (bindC c (fun _ => k))
  (at level 61, right associativity) : completion_scope.

(** [if (cond) throw new ValidationError(message)] *)
Definition rejectIf (cond : bool) (message : string) : Completion unit :=
  if cond then throwValidation message else Return tt.

(** [xs.forEach((x, i) => f(x, i))] with a callback that may throw; [i]
    is the index of the head of [xs]. *)
Fixpoint forEachFrom {A} (f : A -> nat -> Completion unit) (i : nat)
    (xs : list A) : Completion unit :=
  match xs with
  | [] => Return tt
  | x :: xs' => bindC (f x i) (fun _ => forEachFrom f (S i) xs')
  end.

Definition forEach {A} (f : A -> nat -> Completion unit) (xs : list A)
    : Completion unit :=
  forEachFrom f 0 xs.

(* ================================================================== *)
(** ** core/AlleAI.ts: the error classifier and the two request methods *)
(* ================================================================== *)

Module Response.

(** A response of node-fetch, as far as the SDK reads it. *)
Record t : Type := make {
  status : Z;
  (** what [response.text()] resolves to; [None] when reading the body
      fails *)
  text : option string
}.

(** [response.ok] *)
Definition ok (r : t) : bool := ((200 <=? status r) && (status r <=? 299))%Z.

(** [response.json()]: the body, read and parsed; [None] when it throws. *)
Definition json (rt : Runtime) (r : t) : option JsValue :=
  match text r with
  | Some body => JSON_parse rt body
  | None => None
  end.

End Response.

Inductive Payload : Type :=
| JsonText (s : string)
| Multipart (formData : FormData).

Record RequestInit : Type := mkInit {
  method : string;
  headers : list (string * string);
  body : Payload
}.

(** [fetch(url, init)] of node-fetch: a response, or an exception. *)
Definition Fetch : Type := string -> RequestInit -> Completion Response.t.

Record AlleAIConfig : Type := mkConfig {
  config_apiKey : string;
  config_baseUrl : option string
}.

Record AlleAIClient : Type := mkClient {
  apiKey : string;
  baseUrl : string
}.

(** The constructor, up to the module instances. *)
Definition newAlleAIClient (config : AlleAIConfig) : Completion AlleAIClient :=
  if config_apiKey config =? EmptyString then
    Throw (Typed (ValidationError' "API key is required" "MISSING_API_KEY"
                    JUndefined))
  else
    Return (mkClient (config_apiKey config)
              (match config_baseUrl config with
               | Some url => if url =? EmptyString
                             then "https://api.alle-ai.com/api/v1"
                             else url
               | None => "https://api.alle-ai.com/api/v1"
               end)).

Definition unknownFormat : string :=
  "Server responded with unknown format. Please try again later.".

(** [raw.includes(needle)]; [None] when [raw] has no method [includes] and
    the call throws a TypeError. *)
Definition callIncludes (raw : JsValue) (needle : string) : option bool :=
  match raw with
  | JStr s => Some (includes needle s)
  | JArr xs =>
      Some (existsb (fun x => match x with
                              | JStr s => s =? needle
                              | _ => false
                              end) xs)
  | _ => None
  end.

(** [errorJson.details?.raw] for an [errorJson] that is neither null nor
    undefined. *)
Definition detailsRaw (errorJson : JsValue) : JsValue :=
  match getProp errorJson "details" with
  | JUndefined | JNull => JUndefined
  | details => getProp details "raw"
  end.

(** The [else if] chain on [errorJson.message] and [errorJson.error];
    [errorMessage] is the message before it. *)
Definition messageOrError (rt : Runtime) (errorMessage errorJson : JsValue)
    : JsValue :=
  if truthy (getProp errorJson "message") then
    getProp errorJson "message"
  else if truthy (getProp errorJson "error") then
    if typeof (getProp errorJson "error") =? "string"
    then getProp errorJson "error"
    else JStr (JSON_stringify rt (getProp errorJson "error"))
  else errorMessage.

(** The body of the inner [try] once [JSON.parse] has returned [errorJson].
    [None] when an exception is thrown in it: by [errorJson.details] on
    null, or by the call of [includes] on a value that has no such
    method. *)
Definition messageOfJson (rt : Runtime) (errorMessage errorJson : JsValue)
    : option JsValue :=
  if isNullish errorJson then None
  else if truthy (detailsRaw errorJson) then
    match callIncludes (detailsRaw errorJson) "<!DOCTYPE html>" with
    | None => None
    | Some true => Some (JStr unknownFormat)
    | Some false =>
        match callIncludes (detailsRaw errorJson) "<html" with
        | None => None
        | Some true => Some (JStr unknownFormat)
        | Some false => Some (messageOrError rt errorMessage errorJson)
        end
    end
  else Some (messageOrError rt errorMessage errorJson).

(** The first half of [handleErrorResponse]: the value of [errorMessage]
    when the [switch] is reached. *)
Definition deriveErrorMessage (rt : Runtime) (response : Response.t)
    : JsValue :=
  let errorMessage :=
    JStr ("Request failed with status: " ++ decimal (Response.status response))
  in
  match Response.text response with
  | None => JStr unknownFormat
  | Some errorBody =>
      if includes "<!DOCTYPE html>" errorBody || includes "<html" errorBody
      then JStr unknownFormat
      else
        match JSON_parse rt errorBody with
        | None => JStr unknownFormat
        | Some errorJson =>
            match messageOfJson rt errorMessage errorJson with
            | None => JStr unknownFormat
            | Some m => m
            end
        end
  end.

(** The [switch] of [handleErrorResponse]: the error of a status, made
    with a message that is a string. *)
Definition errorOfStatus (status : Z) (message : string)
    (errorResponse : JsValue) : AlleAIError :=
  if (status =? 400)%Z then
    InvalidRequestError message "INVALID_REQUEST" errorResponse
  else if (status =? 401)%Z then
    AuthenticationError message "AUTH_ERROR" errorResponse
  else if (status =? 403)%Z then
    AuthenticationError message "PERMISSION_DENIED" errorResponse
  else if (status =? 404)%Z then
    APIError message "RESOURCE_NOT_FOUND" (Some status) errorResponse
  else if (status =? 429)%Z then
    RateLimitError message "RATE_LIMIT" errorResponse
  else if ((status =? 500) || (status =? 502) || (status =? 503)
           || (status =? 504))%Z then
    ServiceUnavailableError message "SERVICE_ERROR" errorResponse
  else
    APIError message ("API_ERROR_" ++ decimal status) (Some status)
      errorResponse.

(** [handleErrorResponse] always throws; this is what it throws.  Every
    case of the [switch] hands [errorMessage] to a constructor of
    errors.ts, whose [super(message)] converts it to a string before the
    error exists: when that conversion throws, its TypeError is what
    leaves the function. *)
Definition handleErrorResponse (rt : Runtime) (response : Response.t) : Exn :=
  let status := Response.status response in
  let errorMessage := deriveErrorMessage rt response in
  let errorResponse :=
    JObj [("message", errorMessage); ("status", ofZ status)] in
  match toStr rt errorMessage with
  | AsString message => Typed (errorOfStatus status message errorResponse)
  | ConversionFails reason => NativeError true reason
  end.

(** The [try] block of both request methods after [fetch] has returned. *)
Definition readResponse (rt : Runtime) (response : Response.t)
    : Completion JsValue :=
  if negb (Response.ok response) then
    Throw (handleErrorResponse rt response)
  else
    match Response.json rt response with
    | Some data => Return data
    | None =>
        Throw (Typed (APIError "Server returned invalid JSON response"
                        "INVALID_RESPONSE" (Some (Response.status response))
                        (JObj [("message", JStr "Invalid JSON response")])))
    end.

Definition couldNotConnect : string :=
  "Could not connect to the API. Please check your internet connection.".

Definition unexpectedError (errorMessage : string) : AlleAIError :=
  APIError ("An unexpected error occurred: " ++ errorMessage)
    "UNEXPECTED_ERROR" None (JObj [("originalError", JStr errorMessage)]).

(** The [catch] block of both request methods: what it throws.  For a
    thrown value that is no [Error] it calls [String(error)], whose
    TypeError, if it throws one, leaves the block as it is. *)
Definition catchRequest (rt : Runtime) (error : Exn) : Exn :=
  match error with
  | Typed e => Typed e
  | NativeError isTypeError msg =>
      if isTypeError && includes "fetch" msg then
        Typed (ConnectionError couldNotConnect "CONNECTION_ERROR"
                 (JObj [("originalError", JStr msg)]))
      else Typed (unexpectedError msg)
  | ThrownValue v =>
      match toStr rt v with
      | AsString text => Typed (unexpectedError text)
      | ConversionFails reason => NativeError true reason
      end
  end.

Definition tryRequest (rt : Runtime) (c : Completion JsValue)
    : Completion JsValue :=
  match c with
  | Return data => Return data
  | Throw error => Throw (catchRequest rt error)
  end.

Definition makeRequest (rt : Runtime) (fetch : Fetch) (client : AlleAIClient)
    (endpoint : string) (body : JsValue) : Completion JsValue :=
  tryRequest rt
    (bindC
       (fetch (baseUrl client ++ endpoint)
          (mkInit "POST"
             [("X-API-KEY", apiKey client);
              ("Authorization", "Bearer " ++ apiKey client);
              ("Content-Type", "application/json")]
             (JsonText (JSON_stringify rt body))))
       (readResponse rt)).

Definition makeFormDataRequest (rt : Runtime) (fetch : Fetch)
    (client : AlleAIClient) (endpoint : string) (formData : FormData)
    : Completion JsValue :=
  tryRequest rt
    (bindC
       (fetch (baseUrl client ++ endpoint)
          (mkInit "POST"
             (("X-API-KEY", apiKey client)
              :: ("Authorization", "Bearer " ++ apiKey client)
              :: getHeaders rt formData)
             (Multipart formData)))
       (readResponse rt)).

(* ================================================================== *)
(** ** The modules and their collaborators *)
(* ================================================================== *)

(** What [processFile] of utils.ts resolves to: the bytes and the name. *)
Record ProcessedFile : Type := mkFile {
  buffer : list Byte.byte;
  filename : string
}.

(** What a module is constructed with or imports: the two request
    functions and [processFile].  Each is given by its outcome. *)
Record Collaborators : Type := mkCollaborators {
  co_makeRequest : string -> JsValue -> Completion JsValue;
  co_makeFormDataRequest : string -> FormData -> Completion JsValue;
  co_processFile : JsValue -> string -> Completion ProcessedFile
}.

Inductive TransportCall : Type :=
| JsonCall (endpoint : string) (body : JsValue)
| FormCall (endpoint : string) (formData : FormData).

(** The part of the heap a method can touch, and the record a transport
    spy keeps: the caller's request object, and the calls of the two
    request functions, oldest first. *)
Record World : Type := mkWorld {
  callerRequest : JsObject;
  transportCalls : list TransportCall
}.

Definition Op (A : Type) : Type := World -> Completion A * World.

Definition ret {A} (a : A) : Op A := fun w => (Return a, w).

Definition bind {A B} (m : Op A) (k : A -> Op B) : Op B :=
  fun w =>
    match m w with
    | (Return a, w') => k a w'
    | (Throw e, w') => (Throw e, w')
    end.

Definition lift {A} (c : Completion A) : Op A := fun w => (c, w).

Definition tryCatch {A} (m : Op A) (handler : Exn -> Op A) : Op A :=
  fun w =>
    match m w with
    | (Return a, w') => (Return a, w')
    | (Throw e, w') => handler e w'
    end.

(** Reading the request object the caller passed. *)
Definition getRequest : Op JsObject :=
  fun w => (Return (callerRequest w), w).

(** [this.makeRequest(endpoint, body)] *)
Definition callMakeRequest (co : Collaborators) (endpoint : string)
    (body : JsValue) : Op JsValue :=
  fun w =>
    (co_makeRequest co endpoint body,
     mkWorld (callerRequest w)
       (transportCalls w ++ [JsonCall endpoint body])%list).

(** [this.makeFormDataRequest(endpoint, formData)] *)
Definition callMakeFormDataRequest (co : Collaborators) (endpoint : string)
    (formData : FormData) : Op JsValue :=
  fun w =>
    (co_makeFormDataRequest co endpoint formData,
     mkWorld (callerRequest w)
       (transportCalls w ++ [FormCall endpoint formData])%list).

Declare Scope op_scope.
Delimit Scope op_scope with op.
Notation "x <- c ;; k" := (bind c (fun x => k))
  (at level 61, c at next level, right associativity) : op_scope.
Notation "c ;; k" := (bind c (fun _ => k))
  (at level 61, right associativity) : op_scope.

(** *** Checks that every module repeats *)

Definition elements (v : JsValue) : list JsValue :=
  match v with JArr xs => xs | _ => [] end.

Definition modelsMessage : string :=
  "models must be a non-empty array of strings".

Definition notAllStrings : string := "all elements in models must be strings".

(** The two [if]s on [models] at the head of every validator. *)
Definition checkModels (models : JsValue) : Completion unit :=
  (rejectIf (negb (truthy models) || negb (isArray models)
             || (length (elements models) =? 0)%nat)
     modelsMessage ;;
   rejectIf (negb (forallb (fun model => typeof model =? "string")
                     (elements models)))
     notAllStrings)%completion.

(** [!v || typeof v !== "string" || v.trim() === E] with [E] the empty
    string. *)
Definition notNonEmptyString (v : JsValue) : bool :=
  negb (truthy v) || negb (typeof v =? "string")
  || match v with JStr s => trimIsEmpty s | _ => false end.

(** [withDefault v d]: a destructured parameter [v = d]. *)
Definition withDefault (v d : JsValue) : JsValue :=
  match v with JUndefined => d | _ => v end.

(** [Number.isInteger(v)] *)
Definition isInteger (v : JsValue) : bool :=
  match v with
  | JNum (Finite q) => (Qnum q mod Zpos (Qden q) =? 0)%Z
  | _ => false
  end.

(** [v < z] and [v <= z] for a number [v]. *)
Definition ltZ (v : JsValue) (z : Z) : bool :=
  match v with
  | JNum (Finite q) => negb (Qle_bool (inject_Z z) q)
  | JNum (Infinity negative) => negative
  | _ => false
  end.

Definition leZ (v : JsValue) (z : Z) : bool :=
  match v with
  | JNum (Finite q) => Qle_bool q (inject_Z z)
  | JNum (Infinity negative) => negative
  | _ => false
  end.

Definition isUndefined (v : JsValue) : bool :=
  match v with JUndefined => true | _ => false end.

Definition isNull (v : JsValue) : bool :=
  match v with JNull => true | _ => false end.

(** [error instanceof Error ? error.message : String(error)] *)
Definition errorText (rt : Runtime) (error : Exn) : Converted :=
  match error with
  | Typed e => AsString (message e)
  | NativeError _ msg => AsString msg
  | ThrownValue v => toStr rt v
  end.

(** [throw new ValidationError(prefix + (error instanceof Error ?
    error.message : String(error)))] in a [catch] block; when the
    conversion throws, its TypeError leaves the block. *)
Definition rethrowAsValidation {A} (rt : Runtime) (prefix : string)
    (error : Exn) : Completion A :=
  match errorText rt error with
  | AsString text => throwValidation (prefix ++ text)
  | ConversionFails reason => Throw (NativeError true reason)
  end.

(** [models.forEach((model, index) => formData.append(`models[${index}]`,
    model))] *)
Fixpoint appendModels (index : nat) (models : list JsValue)
    : list (string * FormValue) :=
  match models with
  | [] => []
  | model :: rest =>
      ("models[" ++ decimal (Z.of_nat index) ++ "]", FormField model)
      :: appendModels (S index) rest
  end.

(* ------------------------------------------------------------------ *)
(** *** modules/chat *)
(* ------------------------------------------------------------------ *)

Module Chat.

Definition validTypes : list string :=
  ["text"; "audio_url"; "image_url"; "video_url"].

(** [k in v] for [v] an object or an array. *)
Definition inValue (k : string) (v : JsValue) : bool :=
  match v with JObj o => hasKey k o | _ => false end.

(** [validTypes.includes(v)] *)
Definition isValidType (v : JsValue) : bool :=
  match v with
  | JStr s => existsb (String.eqb s) validTypes
  | _ => false
  end.

Definition validateContentObject (content : JsValue) (path : string)
    : Completion unit :=
  (rejectIf (negb (truthy content) || negb (typeof content =? "object")
             || negb (inValue "type" content))
     (path ++ " must be an object with a 'type' property") ;;
   rejectIf (negb (isValidType (getProp content "type")))
     (path ++ ".type must be one of: " ++ String.concat ", " validTypes)
  )%completion.

(** One turn of the loop over [["system", "user"]]. *)
Definition validateRole (key : string) (msg : JsValue) : Completion unit :=
  if inValue key msg && truthy (getProp msg key) then
    (rejectIf (negb (isArray (getProp msg key)))
       (key ++ " must be an array of content objects") ;;
     forEach (fun content i =>
                validateContentObject content
                  (key ++ "[" ++ decimal (Z.of_nat i) ++ "]"))
       (elements (getProp msg key)))%completion
  else Return tt.

Definition validateAssistants (msg : JsValue) : Completion unit :=
  if inValue "assistants" msg && truthy (getProp msg "assistants") then
    (rejectIf (negb (typeof (getProp msg "assistants") =? "object")
               || isArray (getProp msg "assistants"))
       "assistants must be an object mapping models to content arrays" ;;
     forEach (fun contents i =>
                (rejectIf (negb (isArray contents))
                   ("assistants value at index " ++ decimal (Z.of_nat i)
                    ++ " must be an array") ;;
                 forEach (fun content j =>
                            validateContentObject content
                              ("assistants value[" ++ decimal (Z.of_nat j)
                               ++ "]"))
                   (elements contents))%completion)
       (match getProp msg "assistants" with
        | JObj o => values o
        | _ => []
        end))%completion
  else Return tt.

Definition validateMessageContent (msg : JsValue) (index : nat)
    : Completion unit :=
  (validateRole "system" msg ;;
   validateRole "user" msg ;;
   validateAssistants msg)%completion.

(** The callback of [messages.forEach]. *)
Definition validateMessage (msg : JsValue) (index : nat) : Completion unit :=
  (rejectIf (negb (truthy msg) || negb (typeof msg =? "object"))
     ("messages[" ++ decimal (Z.of_nat index) ++ "] must be an object") ;;
   rejectIf (negb (inValue "system" msg || inValue "user" msg
                   || inValue "assistants" msg))
     ("messages[" ++ decimal (Z.of_nat index)
      ++ "] must have at least one of: system, user, assistants") ;;
   validateMessageContent msg index)%completion.

Definition validateRequestParameters (request : JsObject) : Completion unit :=
  let models := field "models" request in
  let messages := field "messages" request in
  (checkModels models ;;
   rejectIf (negb (truthy messages) || negb (isArray messages)
             || (length (elements messages) =? 0)%nat)
     "messages must be a non-empty array" ;;
   forEach validateMessage (elements messages))%completion.

Definition completions (co : Collaborators) : Op JsValue :=
  (request <- getRequest ;;
   lift (validateRequestParameters request) ;;
   callMakeRequest co "/chat/completions" (JObj request))%op.

Definition combination (co : Collaborators) : Op JsValue :=
  (request <- getRequest ;;
   lift (validateRequestParameters request) ;;
   callMakeRequest co "/chat/combination" (JObj request))%op.

(** The call of [validateRequestParameters] is commented out here. *)
Definition comparison (co : Collaborators) : Op JsValue :=
  (request <- getRequest ;;
   callMakeRequest co "/chat/comparison" (JObj request))%op.

Definition search (co : Collaborators) : Op JsValue :=
  (request <- getRequest ;;
   lift (validateRequestParameters request) ;;
   callMakeRequest co "/ai/web-search" (JObj request))%op.

End Chat.

(* ------------------------------------------------------------------ *)
(** *** modules/Image *)
(* ------------------------------------------------------------------ *)

Module Image.

(** The checks of [generate], on the destructured parameters with their
    defaults. *)
Definition validateGenerate (request : JsObject) : Completion unit :=
  let models := field "models" request in
  let prompt := field "prompt" request in
  let width := withDefault (field "width" request) (ofZ 1024) in
  let height := withDefault (field "height" request) (ofZ 1024) in
  let n := withDefault (field "n" request) (ofZ 1) in
  let style_preset := withDefault (field "style_preset" request) JNull in
  let seed := withDefault (field "seed" request) JNull in
  let model_specific_params :=
    withDefault (field "model_specific_params" request) (JObj []) in
  (checkModels models ;;
   rejectIf (notNonEmptyString prompt) "prompt must be a non-empty string" ;;
   rejectIf (negb (isUndefined width)
             && (negb (typeof width =? "number") || negb (isInteger width)
                 || ltZ width 64))
     "width must be an integer >= 64" ;;
   rejectIf (negb (isUndefined height)
             && (negb (typeof height =? "number") || negb (isInteger height)
                 || ltZ height 64))
     "height must be an integer >= 64" ;;
   rejectIf (negb (isUndefined n)
             && (negb (typeof n =? "number") || negb (isInteger n)
                 || ltZ n 1))
     "n must be an integer >= 1" ;;
   rejectIf (negb (isNull seed) && negb (isUndefined seed)
             && (negb (typeof seed =? "number") || negb (isInteger seed)))
     "seed must be an integer or null" ;;
   rejectIf (negb (isNull style_preset) && negb (isUndefined style_preset)
             && negb (typeof style_preset =? "string"))
     "style_preset must be a string or null" ;;
   rejectIf (negb (isUndefined model_specific_params)
             && (negb (typeof model_specific_params =? "object")
                 || isNull model_specific_params))
     "model_specific_params must be an object")%completion.

Definition generate (co : Collaborators) : Op JsValue :=
  (request <- getRequest ;;
   lift (validateGenerate request) ;;
   callMakeRequest co "/image/generate"
     (JObj
        [("models", field "models" request);
         ("prompt", field "prompt" request);
         ("width", withDefault (field "width" request) (ofZ 1024));
         ("height", withDefault (field "height" request) (ofZ 1024));
         ("n", withDefault (field "n" request) (ofZ 1));
         ("style_preset", withDefault (field "style_preset" request) JNull);
         ("seed", withDefault (field "seed" request) JNull);
         ("model_specific_params",
          withDefault (field "model_specific_params" request) (JObj []))])
  )%op.

(** The checks of [edit] before its [try]. *)
Definition validateEdit (request : JsObject) : Completion unit :=
  let models := field "models" request in
  let prompt := field "prompt" request in
  let image_file := field "image_file" request in
  (checkModels models ;;
   rejectIf (notNonEmptyString prompt) "prompt must be a non-empty string" ;;
   rejectIf (notNonEmptyString image_file)
     "image_file must be a non-empty string")%completion.

Definition edit (rt : Runtime) (co : Collaborators) : Op JsValue :=
  (request <- getRequest ;;
   lift (validateEdit request) ;;
   tryCatch
     (file <- lift (co_processFile co (field "image_file" request) "image") ;;
      callMakeFormDataRequest co "/image/edit"
        (appendModels 0 (elements (field "models" request))
         ++ [("image_file", FormFile (buffer file) (filename file));
             ("prompt", FormField (field "prompt" request))])%list)
     (fun error =>
        lift (rethrowAsValidation rt "Failed to process image file: "
                error)))%op.

End Image.

(* ------------------------------------------------------------------ *)
(** *** modules/Audio *)
(* ------------------------------------------------------------------ *)

Module Audio.

Definition validateGenerate (request : JsObject) : Completion unit :=
  let models := field "models" request in
  let prompt := field "prompt" request in
  let model_specific_params :=
    withDefault (field "model_specific_params" request) (JObj []) in
  (checkModels models ;;
   rejectIf (notNonEmptyString prompt) "prompt must be a non-empty string" ;;
   rejectIf (negb (isUndefined model_specific_params)
             && negb (typeof model_specific_params =? "object"))
     "model_specific_params must be an object")%completion.

Definition generate (co : Collaborators) : Op JsValue :=
  (request <- getRequest ;;
   lift (validateGenerate request) ;;
   callMakeRequest co "/audio/generate"
     (JObj
        [("models", field "models" request);
         ("prompt", field "prompt" request);
         ("model_specific_params",
          withDefault (field "model_specific_params" request) (JObj []))])
  )%op.

Definition ttsSingleModelMessage : string :=
  "Only one model is supported for text-to-speech processing at this time".

Definition validateTts (request : JsObject) : Completion unit :=
  let models := field "models" request in
  let prompt := field "prompt" request in
  let voice := withDefault (field "voice" request) (JStr "nova") in
  let model_specific_params :=
    withDefault (field "model_specific_params" request) (JObj []) in
  (checkModels models ;;
   rejectIf (1 <? length (elements models))%nat ttsSingleModelMessage ;;
   rejectIf (notNonEmptyString prompt) "prompt must be a non-empty string" ;;
   rejectIf (truthy voice && negb (typeof voice =? "string"))
     "voice must be a string" ;;
   rejectIf (negb (isUndefined model_specific_params)
             && negb (typeof model_specific_params =? "object"))
     "model_specific_params must be an object")%completion.

Definition tts (co : Collaborators) : Op JsValue :=
  (request <- getRequest ;;
   lift (validateTts request) ;;
   callMakeRequest co "/audio/tts"
     (JObj
        [("models", field "models" request);
         ("prompt", field "prompt" request);
         ("voice", withDefault (field "voice" request) (JStr "nova"));
         ("model_specific_params",
          withDefault (field "model_specific_params" request) (JObj []))])
  )%op.

Definition sttSingleModelMessage : string :=
  "Only one model is supported for speech-to-text processing at this time".

Definition validateStt (request : JsObject) : Completion unit :=
  let models := field "models" request in
  let audio_file := field "audio_file" request in
  let model_specific_params :=
    withDefault (field "model_specific_params" request) (JObj []) in
  (checkModels models ;;
   rejectIf (1 <? length (elements models))%nat sttSingleModelMessage ;;
   rejectIf (notNonEmptyString audio_file)
     "audio_file must be a non-empty string" ;;
   rejectIf (negb (isUndefined model_specific_params)
             && negb (typeof model_specific_params =? "object"))
     "model_specific_params must be an object")%completion.

(** [Object.keys(v).length] for a [v] whose [typeof] is ["object"]; on
    [null] the call throws a TypeError. *)
Definition keysLength (v : JsValue) : Completion nat :=
  match v with
  | JObj o => Return (length o)
  | JArr xs => Return (length xs)
  | _ => Throw (NativeError true "Cannot convert undefined or null to object")
  end.

Definition stt (rt : Runtime) (co : Collaborators) : Op JsValue :=
  (request <- getRequest ;;
   lift (validateStt request) ;;
   let model_specific_params :=
     withDefault (field "model_specific_params" request) (JObj []) in
   tryCatch
     (file <- lift (co_processFile co (field "audio_file" request) "audio") ;;
      count <- lift (keysLength model_specific_params) ;;
      callMakeFormDataRequest co "/audio/stt"
        (appendModels 0 (elements (field "models" request))
         ++ [("audio_file", FormFile (buffer file) (filename file))]
         ++ (if (0 <? count)%nat then
               [("model_specific_params",
                 FormField (JStr (JSON_stringify rt model_specific_params)))]
             else []))%list)
     (fun error => lift (rethrowAsValidation rt " " error)))%op.

End Audio.

(* ------------------------------------------------------------------ *)
(** *** modules/Video *)
(* ------------------------------------------------------------------ *)

Module Video.

(** [v.split(sep)] as the runtime evaluates it on any value: strings have
    the method; on every other value the call throws a TypeError. *)
Definition callSplit (v : JsValue) (sep : ascii) : Completion (list string) :=
  match v with
  | JStr s => Return (split sep s)
  | JUndefined | JNull =>
      Throw (NativeError true "Cannot read properties of null or undefined")
  | _ => Throw (NativeError true "split is not a function")
  end.

(** [const [width, height] = v.split(sep); if (!width || !height ||
    isNaN(Number(width)) || isNaN(Number(height))) throw ...] *)
Definition checkPair (rt : Runtime) (v : JsValue) (sep : ascii)
    (message : string) : Completion unit :=
  (parts <- callSplit v sep ;;
   let width := nth 0 parts EmptyString in
   let height := nth 1 parts EmptyString in
   rejectIf ((width =? EmptyString) || (height =? EmptyString)
             || numberIsNaN rt width
             || numberIsNaN rt height)
     message)%completion.

(** The checks of [generate], on the destructured parameters with their
    defaults. *)
Definition validateGenerate (rt : Runtime) (request : JsObject)
    : Completion unit :=
  let models := field "models" request in
  let prompt := field "prompt" request in
  let duration := withDefault (field "duration" request) (ofZ 6) in
  let loop := withDefault (field "loop" request) (JBool false) in
  let aspect_ratio :=
    withDefault (field "aspect_ratio" request) (JStr "16:9") in
  let fps := withDefault (field "fps" request) (ofZ 24) in
  let dimension := field "dimension" request in
  let seed := field "seed" request in
  let model_specific_params :=
    withDefault (field "model_specific_params" request) (JObj []) in
  (checkModels models ;;
   rejectIf (notNonEmptyString prompt) "prompt must be a non-empty string" ;;
   rejectIf (negb (isUndefined duration)
             && (negb (typeof duration =? "number") || leZ duration 0))
     "duration must be a positive number" ;;
   rejectIf (negb (isUndefined loop) && negb (typeof loop =? "boolean"))
     "loop must be a boolean" ;;
   (if negb (isUndefined aspect_ratio) then
      checkPair rt aspect_ratio ":"
        "aspect_ratio must be in the format 'width:height' (e.g., '16:9')"
    else Return tt) ;;
   rejectIf (negb (isUndefined fps)
             && (negb (typeof fps =? "number") || leZ fps 0))
     "fps must be a positive number" ;;
   (if negb (isUndefined dimension) then
      checkPair rt dimension "x"
        "dimension must be in the format 'widthxheight' (e.g., '1280x720')"
    else Return tt) ;;
   rejectIf (negb (isUndefined seed)
             && (negb (typeof seed =? "number") || negb (isInteger seed)))
     "seed must be an integer" ;;
   rejectIf (negb (isUndefined model_specific_params)
             && negb (typeof model_specific_params =? "object"))
     "model_specific_params must be an object")%completion.

Definition generate (rt : Runtime) (co : Collaborators) : Op JsValue :=
  (request <- getRequest ;;
   lift (validateGenerate rt request) ;;
   callMakeRequest co "/video/generate"
     (JObj
        [("models", field "models" request);
         ("prompt", field "prompt" request);
         ("duration", withDefault (field "duration" request) (ofZ 6));
         ("loop", withDefault (field "loop" request) (JBool false));
         ("aspect_ratio",
          withDefault (field "aspect_ratio" request) (JStr "16:9"));
         ("fps", withDefault (field "fps" request) (ofZ 24));
         ("dimension", field "dimension" request);
         ("resolution", field "resolution" request);
         ("seed", field "seed" request);
         ("model_specific_params",
          withDefault (field "model_specific_params" request) (JObj []))])
  )%op.

Definition get_video_status (requestId : JsValue) : Completion JsValue :=
  (rejectIf (notNonEmptyString requestId)
     "request_id must be a non-empty string" ;;
   Return (JObj [("status", JStr "not available");
                 ("message", JStr "This feature is not available yet")])
  )%completion.

End Video.

(** The two request functions of a client, as the collaborators its
    modules are constructed with. *)
Definition clientCollaborators (rt : Runtime) (fetch : Fetch)
    (client : AlleAIClient)
    (processFile : JsValue -> string -> Completion ProcessedFile)
    : Collaborators :=
  mkCollaborators (makeRequest rt fetch client)
    (makeFormDataRequest rt fetch client) processFile.

(* ================================================================== *)
(** ** The operations of the client, and the statements to be settled *)
(* ================================================================== *)

Inductive Operation : Type :=
| ChatCompletions
| ChatCombination
| ChatComparison
| ChatSearch
| ImageGenerate
| ImageEdit
| AudioGenerate
| AudioTts
| AudioStt
| VideoGenerate.

Definition perform (rt : Runtime) (co : Collaborators) (op : Operation)
    : Op JsValue :=
  match op with
  | ChatCompletions => Chat.completions co
  | ChatCombination => Chat.combination co
  | ChatComparison => Chat.comparison co
  | ChatSearch => Chat.search co
  | ImageGenerate => Image.generate co
  | ImageEdit => Image.edit rt co
  | AudioGenerate => Audio.generate co
  | AudioTts => Audio.tts co
  | AudioStt => Audio.stt rt co
  | VideoGenerate => Video.generate rt co
  end.

(** The checks an operation runs before it turns to its collaborators;
    [comparison] runs none. *)
Definition validatorOf (rt : Runtime) (op : Operation)
    : JsObject -> Completion unit :=
  match op with
  | ChatCompletions | ChatCombination | ChatSearch =>
      Chat.validateRequestParameters
  | ChatComparison => fun _ => Return tt
  | ImageGenerate => Image.validateGenerate
  | ImageEdit => Image.validateEdit
  | AudioGenerate => Audio.validateGenerate
  | AudioTts => Audio.validateTts
  | AudioStt => Audio.validateStt
  | VideoGenerate => Video.validateGenerate rt
  end.

(** The [models] field is missing, not an array, or an empty array. *)
Definition badModels (request : JsObject) : Prop :=
  match lookup "models" request with
  | None => True
  | Some (JArr []) => True
  | Some (JArr (_ :: _)) => False
  | Some _ => True
  end.

(** The [messages] field is missing, not an array, or an empty array. *)
Definition badMessages (request : JsObject) : Prop :=
  match lookup "messages" request with
  | None => True
  | Some (JArr []) => True
  | Some (JArr (_ :: _)) => False
  | Some _ => True
  end.

(** The operation fails validation with [message] and the transport is
    not called: the record of calls is as it was. *)
Definition rejectsUnsent (m : Op JsValue) (message : string)
    (request : JsObject) : Prop :=
  forall calls,
    m (mkWorld request calls) = (throwValidation message, mkWorld request calls).

(** *** The status table of the specification *)

Definition statusTable : list (Z * (ErrorClass * string)) :=
  [(400, (CInvalidRequestError, "INVALID_REQUEST"));
   (401, (CAuthenticationError, "AUTH_ERROR"));
   (403, (CAuthenticationError, "PERMISSION_DENIED"));
   (404, (CAPIError, "RESOURCE_NOT_FOUND"));
   (429, (CRateLimitError, "RATE_LIMIT"));
   (500, (CServiceUnavailableError, "SERVICE_ERROR"));
   (502, (CServiceUnavailableError, "SERVICE_ERROR"));
   (503, (CServiceUnavailableError, "SERVICE_ERROR"));
   (504, (CServiceUnavailableError, "SERVICE_ERROR"))]%Z.

Definition tableEntry (status : Z) : ErrorClass * string :=
  match find (fun row => (fst row =? status)%Z) statusTable with
  | Some (_, entry) => entry
  | None => (CAPIError, "API_ERROR_" ++ decimal status)
  end.

(** The error the specification describes for a response: kind and code
    from the table, the derived message as the string [message], the
    status of the response, and the details [{message, status}]. *)
Definition tableError (rt : Runtime) (response : Response.t)
    (message : string) : AlleAIError :=
  let status := Response.status response in
  mkError (fst (tableEntry status))
    message
    (snd (tableEntry status))
    (Some status)
    (JObj [("message", deriveErrorMessage rt response);
           ("status", ofZ status)]).

(** The status each class of errors.ts writes into its instances; the
    generic API error takes the one it is given. *)
Definition classStatus (c : ErrorClass) (given : Z) : option Z :=
  match c with
  | CInvalidRequestError => Some 400
  | CAuthenticationError => Some 401
  | CRateLimitError => Some 429
  | CServiceUnavailableError => Some 503
  | CAPIError => Some given
  | CAlleAIError => Some given
  | CValidationError | CConnectionError => None
  end%Z.

(** The error of the table with the status its class writes. *)
Definition classifiedError (rt : Runtime) (response : Response.t)
    (message : string) : AlleAIError :=
  let status := Response.status response in
  mkError (fst (tableEntry status))
    message
    (snd (tableEntry status))
    (classStatus (fst (tableEntry status)) status)
    (JObj [("message", deriveErrorMessage rt response);
           ("status", ofZ status)]).

(** What a request method throws when the derived message cannot be made
    a string: its [catch] block gets the TypeError of the conversion. *)
Definition conversionFailure (reason : string) : AlleAIError :=
  if includes "fetch" reason then
    ConnectionError couldNotConnect "CONNECTION_ERROR"
      (JObj [("originalError", JStr reason)])
  else
    APIError ("An unexpected error occurred: " ++ reason) "UNEXPECTED_ERROR"
      None (JObj [("originalError", JStr reason)]).

(** *** The message of the specification *)

(** The text holds a doctype or an html tag. *)
Definition looksLikeHtml (s : string) : bool :=
  includes "<!DOCTYPE html>" s || includes "<html" s.

(** The message as the specification derives it from a body: the fallback
    for HTML, in the text or in [details.raw] of the parsed body; else the
    [message] or [error] field of the parsed body; else the fallback. *)
Definition specMessage (rt : Runtime) (errorBody : string) : JsValue :=
  if looksLikeHtml errorBody then JStr unknownFormat
  else
    match JSON_parse rt errorBody with
    | Some (JObj o) =>
        if match getProp (field "details" o) "raw" with
           | JStr raw => looksLikeHtml raw
           | _ => false
           end
        then JStr unknownFormat
        else
          match lookup "message" o, lookup "error" o with
          | Some m, _ => m
          | None, Some (JStr e) => JStr e
          | None, Some e => JStr (JSON_stringify rt e)
          | None, None => JStr unknownFormat
          end
    | _ => JStr unknownFormat
    end.

(** *** Every violation of a chat request, in the order of the
    specification: [models] before [messages], the entries in sequence,
    and in an entry [system] before [user] before [assistants]. *)

Fixpoint collectFrom {A} (f : A -> nat -> list string) (i : nat)
    (xs : list A) : list string :=
  match xs with
  | [] => []
  | x :: xs' => (f x i ++ collectFrom f (S i) xs')%list
  end.

Definition contentViolations (content : JsValue) (path : string)
    : list string :=
  match content with
  | JObj o =>
      match lookup "type" o with
      | None => [path ++ " must be an object with a 'type' property"]
      | Some t =>
          if Chat.isValidType t then []
          else [path
                ++ ".type must be one of: text, audio_url, image_url, video_url"]
      end
  | _ => [path ++ " must be an object with a 'type' property"]
  end.

Definition roleViolations (key : string) (entry : JsObject) : list string :=
  match lookup key entry with
  | None => []
  | Some (JArr contents) =>
      collectFrom (fun content i =>
                     contentViolations content
                       (key ++ "[" ++ decimal (Z.of_nat i) ++ "]"))
        0 contents
  | Some v =>
      if truthy v then [key ++ " must be an array of content objects"]
      else []
  end.

Definition assistantsViolations (entry : JsObject) : list string :=
  match lookup "assistants" entry with
  | None => []
  | Some (JObj o) =>
      collectFrom (fun contents i =>
                     match contents with
                     | JArr cs =>
                         collectFrom (fun content j =>
                                        contentViolations content
                                          ("assistants value["
                                           ++ decimal (Z.of_nat j) ++ "]"))
                           0 cs
                     | _ => ["assistants value at index "
                             ++ decimal (Z.of_nat i) ++ " must be an array"]
                     end)
        0 (values o)
  | Some v =>
      if truthy v
      then ["assistants must be an object mapping models to content arrays"]
      else []
  end.

Definition entryViolations (msg : JsValue) (index : nat) : list string :=
  match msg with
  | JObj entry =>
      if hasKey "system" entry || hasKey "user" entry
         || hasKey "assistants" entry
      then (roleViolations "system" entry ++ roleViolations "user" entry
            ++ assistantsViolations entry)%list
      else ["messages[" ++ decimal (Z.of_nat index)
            ++ "] must have at least one of: system, user, assistants"]
  | JArr _ =>
      ["messages[" ++ decimal (Z.of_nat index)
       ++ "] must have at least one of: system, user, assistants"]
  | _ => ["messages[" ++ decimal (Z.of_nat index) ++ "] must be an object"]
  end.

Definition modelsViolations (request : JsObject) : list string :=
  match lookup "models" request with
  | Some (JArr (m :: ms)) =>
      if forallb (fun model => match model with
                               | JStr _ => true
                               | _ => false
                               end) (m :: ms)
      then []
      else ["all elements in models must be strings"]
  | _ => [modelsMessage]
  end.

Definition messagesViolations (request : JsObject) : list string :=
  match lookup "messages" request with
  | Some (JArr (m :: ms)) => collectFrom entryViolations 0 (m :: ms)
  | _ => ["messages must be a non-empty array"]
  end.

Definition violations (request : JsObject) : list string :=
  (modelsViolations request ++ messagesViolations request)%list.

(** Failing with the first of a list of violations, if there is one. *)
Definition firstOf (vs : list string) : Completion unit :=
  match vs with
  | [] => Return tt
  | v :: _ => throwValidation v
  end.

(** *** The message, rule by rule *)

(** [details.raw] of the parsed body does not stand in the way: it is
    falsy, or a string or an array without the two HTML markers. *)
Definition rawClean (errorJson : JsValue) : Prop :=
  truthy (detailsRaw errorJson) = false
  \/ (exists s, detailsRaw errorJson = JStr s /\ looksLikeHtml s = false)
  \/ (exists xs, detailsRaw errorJson = JArr xs
                 /\ ~ In (JStr "<!DOCTYPE html>") xs /\ ~ In (JStr "<html") xs).

(** [Derives rt status errorBody m]: [m] is the message of a response with
    this status and body.  The fallback comes from HTML in the text or in
    [details.raw], from a body that does not parse or parses to null, and
    from a truthy [details.raw] without a method [includes]; the fields
    [message] and [error] count when they are truthy; a parsed body
    without either keeps the message made from the status. *)
Inductive Derives (rt : Runtime) (status : Z) (errorBody : string)
    : JsValue -> Prop :=
| DerivesHtml :
    looksLikeHtml errorBody = true ->
    Derives rt status errorBody (JStr unknownFormat)
| DerivesUnparsable :
    looksLikeHtml errorBody = false ->
    JSON_parse rt errorBody = None ->
    Derives rt status errorBody (JStr unknownFormat)
| DerivesNull errorJson :
    looksLikeHtml errorBody = false ->
    JSON_parse rt errorBody = Some errorJson ->
    isNullish errorJson = true ->
    Derives rt status errorBody (JStr unknownFormat)
| DerivesRawHtml errorJson raw :
    looksLikeHtml errorBody = false ->
    JSON_parse rt errorBody = Some errorJson ->
    isNullish errorJson = false ->
    detailsRaw errorJson = JStr raw ->
    looksLikeHtml raw = true ->
    Derives rt status errorBody (JStr unknownFormat)
| DerivesRawList errorJson xs :
    looksLikeHtml errorBody = false ->
    JSON_parse rt errorBody = Some errorJson ->
    isNullish errorJson = false ->
    detailsRaw errorJson = JArr xs ->
    In (JStr "<!DOCTYPE html>") xs \/ In (JStr "<html") xs ->
    Derives rt status errorBody (JStr unknownFormat)
| DerivesRawOther errorJson :
    looksLikeHtml errorBody = false ->
    JSON_parse rt errorBody = Some errorJson ->
    isNullish errorJson = false ->
    truthy (detailsRaw errorJson) = true ->
    typeof (detailsRaw errorJson) <> "string" ->
    isArray (detailsRaw errorJson) = false ->
    Derives rt status errorBody (JStr unknownFormat)
| DerivesMessage errorJson :
    looksLikeHtml errorBody = false ->
    JSON_parse rt errorBody = Some errorJson ->
    isNullish errorJson = false ->
    rawClean errorJson ->
    truthy (getProp errorJson "message") = true ->
    Derives rt status errorBody (getProp errorJson "message")
| DerivesErrorString errorJson e :
    looksLikeHtml errorBody = false ->
    JSON_parse rt errorBody = Some errorJson ->
    isNullish errorJson = false ->
    rawClean errorJson ->
    truthy (getProp errorJson "message") = false ->
    getProp errorJson "error" = JStr e ->
    e <> EmptyString ->
    Derives rt status errorBody (JStr e)
| DerivesErrorOther errorJson :
    looksLikeHtml errorBody = false ->
    JSON_parse rt errorBody = Some errorJson ->
    isNullish errorJson = false ->
    rawClean errorJson ->
    truthy (getProp errorJson "message") = false ->
    truthy (getProp errorJson "error") = true ->
    typeof (getProp errorJson "error") <> "string" ->
    Derives rt status errorBody
      (JStr (JSON_stringify rt (getProp errorJson "error")))
| DerivesStatus errorJson :
    looksLikeHtml errorBody = false ->
    JSON_parse rt errorBody = Some errorJson ->
    isNullish errorJson = false ->
    rawClean errorJson ->
    truthy (getProp errorJson "message") = false ->
    truthy (getProp errorJson "error") = false ->
    Derives rt status errorBody
      (JStr ("Request failed with status: " ++ decimal status)).

(* ------------------------------------------------------------------ *)
(** *** What the validators let through *)

(** A non-empty array of strings. *)
Definition ModelList (v : JsValue) : Prop :=
  exists m ms,
    v = JArr (m :: ms) /\ Forall (fun x => exists s, x = JStr s) (m :: ms).

(** A string made of white-space characters only. *)
Inductive Blank : string -> Prop :=
| BlankEmpty : Blank EmptyString
| BlankMore w s : In w whiteSpaces -> Blank s -> Blank (w ++ s).

(** A string with a character that is no white space. *)
Definition NonBlank (v : JsValue) : Prop := exists s, v = JStr s /\ ~ Blank s.

(** A finite number that is an integer. *)
Definition IsInteger (v : JsValue) : Prop :=
  exists q z, v = JNum (Finite q) /\ (q == inject_Z z)%Q.

(** A finite number that is an integer not below [k]. *)
Definition IntegerFrom (k : Z) (v : JsValue) : Prop :=
  exists q z, v = JNum (Finite q) /\ (q == inject_Z z)%Q /\ (k <= z)%Z.

(** A number that is not [<= 0]: a positive finite number, plus infinity,
    or NaN. *)
Definition NotBelowZero (v : JsValue) : Prop :=
  v = JNum NaN \/ v = JNum (Infinity false)
  \/ exists q, v = JNum (Finite q) /\ (0 < q)%Q.

(** A value whose [typeof] is ["object"]: null, an array or an object. *)
Definition ObjectTyped (v : JsValue) : Prop :=
  v = JNull \/ (exists xs, v = JArr xs) \/ (exists o, v = JObj o).

Definition IsString (v : JsValue) : Prop := exists s, v = JStr s.

(** Exactly one model, a string. *)
Definition SingleModel (v : JsValue) : Prop := exists m, v = JArr [JStr m].

(** A string whose first two pieces between the separators are not empty
    and are numbers to the runtime; further pieces are not looked at. *)
Definition PairText (rt : Runtime) (sep : ascii) (v : JsValue) : Prop :=
  exists s,
    v = JStr s
    /\ nth 0 (split sep s) EmptyString <> EmptyString
    /\ nth 1 (split sep s) EmptyString <> EmptyString
    /\ numberIsNaN rt (nth 0 (split sep s) EmptyString) = false
    /\ numberIsNaN rt (nth 1 (split sep s) EmptyString) = false.

(** A validator's outcome that is success or a validation error made by
    [new ValidationError(message)]. *)
Definition OnlyValidation (c : Completion unit) : Prop :=
  c = Return tt \/ exists m, c = throwValidation m.

(** A content object the chat validator lets through: an object whose
    [type] is one of the four kinds. *)
Definition ValidContent (content : JsValue) : Prop :=
  exists o t,
    content = JObj o /\ lookup "type" o = Some (JStr t)
    /\ In t Chat.validTypes.

(** A [system] or [user] value the chat validator lets through: absent or
    falsy, or an array of valid content objects. *)
Definition ValidRole (key : string) (entry : JsObject) : Prop :=
  truthy (field key entry) = false
  \/ exists contents,
       field key entry = JArr contents /\ Forall ValidContent contents.

(** An [assistants] value the chat validator lets through: absent or
    falsy, or an object whose values are arrays of valid content
    objects. *)
Definition ValidAssistants (entry : JsObject) : Prop :=
  truthy (field "assistants" entry) = false
  \/ exists o,
       field "assistants" entry = JObj o
       /\ Forall (fun contents =>
                    exists cs, contents = JArr cs /\ Forall ValidContent cs)
            (values o).

(** A message entry the chat validator lets through. *)
Definition ValidEntry (msg : JsValue) : Prop :=
  exists entry,
    msg = JObj entry
    /\ (hasKey "system" entry = true \/ hasKey "user" entry = true
        \/ hasKey "assistants" entry = true)
    /\ ValidRole "system" entry /\ ValidRole "user" entry
    /\ ValidAssistants entry.

(** The answer of [get_video_status]. *)
Definition notAvailable : JsValue :=
  JObj [("status", JStr "not available");
        ("message", JStr "This feature is not available yet")].

(** *** What the request methods hand to [fetch] *)

Definition requestUrl (client : AlleAIClient) (endpoint : string) : string :=
  baseUrl client ++ endpoint.

Definition jsonInit (rt : Runtime) (client : AlleAIClient) (body : JsValue)
    : RequestInit :=
  mkInit "POST"
    [("X-API-KEY", apiKey client);
     ("Authorization", "Bearer " ++ apiKey client);
     ("Content-Type", "application/json")]
    (JsonText (JSON_stringify rt body)).

Definition formInit (rt : Runtime) (client : AlleAIClient)
    (formData : FormData) : RequestInit :=
  mkInit "POST"
    (("X-API-KEY", apiKey client)
     :: ("Authorization", "Bearer " ++ apiKey client)
     :: getHeaders rt formData)
    (Multipart formData).

(** The error for a success status whose body is no JSON. *)
Definition invalidResponse (status : Z) : AlleAIError :=
  APIError "Server returned invalid JSON response" "INVALID_RESPONSE"
    (Some status) (JObj [("message", JStr "Invalid JSON response")]).

(** The endpoint of each operation. *)
Definition endpointOf (op : Operation) : string :=
  match op with
  | ChatCompletions => "/chat/completions"
  | ChatCombination => "/chat/combination"
  | ChatComparison => "/chat/comparison"
  | ChatSearch => "/ai/web-search"
  | ImageGenerate => "/image/generate"
  | ImageEdit => "/image/edit"
  | AudioGenerate => "/audio/generate"
  | AudioTts => "/audio/tts"
  | AudioStt => "/audio/stt"
  | VideoGenerate => "/video/generate"
  end.

(** The form [edit] builds. *)
Definition editForm (request : JsObject) (file : ProcessedFile) : FormData :=
  (appendModels 0 (elements (field "models" request))
   ++ [("image_file", FormFile (buffer file) (filename file));
       ("prompt", FormField (field "prompt" request))])%list.

(** The keys a request for [image.generate] may leave out. *)
Definition imageOptionalKeys : list string :=
  ["width"; "height"; "n"; "style_preset"; "seed"; "model_specific_params"].

(** The keys a request for [video.generate] may leave out. *)
Definition videoOptionalKeys : list string :=
  ["duration"; "loop"; "aspect_ratio"; "fps"; "dimension"; "resolution";
   "seed"; "model_specific_params"].

(** The form [stt] builds from an object or an array of parameters. *)
Definition sttForm (rt : Runtime) (request : JsObject) (file : ProcessedFile)
    (count : nat) : FormData :=
  (appendModels 0 (elements (field "models" request))
   ++ [("audio_file", FormFile (buffer file) (filename file))]
   ++ (if (0 <? count)%nat then
         [("model_specific_params",
           FormField
             (JStr (JSON_stringify rt
                      (withDefault (field "model_specific_params" request)
                         (JObj [])))))]
       else []))%list.

(** What [edit] and [stt] make of an error in their [try] block. *)
Definition editFailure (rt : Runtime) (error : Exn) : Completion JsValue :=
  match errorText rt error with
  | AsString text => throwValidation ("Failed to process image file: " ++ text)
  | ConversionFails reason => Throw (NativeError true reason)
  end.

Definition sttFailure (rt : Runtime) (error : Exn) : Completion JsValue :=
  match errorText rt error with
  | AsString text => throwValidation (" " ++ text)
  | ConversionFails reason => Throw (NativeError true reason)
  end.

(* ================================================================== *)
(** ** The chat validator on the heap *)
(* ================================================================== *)

(** The request of a caller is an object of the heap, which the validator
    reaches through a reference and could write to.  This is
    [validateRequestParameters] of the chat module once more, with every
    access to the request as a read of the heap. *)
Module Heap.

Definition Ref : Type := nat.

(** What a variable or a property holds: a primitive, or the reference of
    an array or of an object. *)
Inductive Value : Type :=
| VUndefined
| VNull
| VBool (b : bool)
| VNum (n : JsNumber)
| VStr (s : string)
| VRef (r : Ref).

(** What lives at a reference; the properties of an object are its own
    enumerable string keys in property order. *)
Inductive Cell : Type :=
| Array (elems : list Value)
| Object (props : list (string * Value)).

Definition Heap : Type := Ref -> Cell.

(** A computation on the heap: its completion and the heap it leaves. *)
Definition M (A : Type) : Type := Heap -> Completion A * Heap.

Definition ret {A} (a : A) : M A := fun h => (Return a, h).

Definition bind {A B} (m : M A) (k : A -> M B) : M B :=
  fun h =>
    match m h with
    | (Return a, h') => k a h'
    | (Throw e, h') => (Throw e, h')
    end.

Declare Scope heap_scope.
Delimit Scope heap_scope with heap.
Notation "x <- c ;; k" := (bind c (fun x => k))
  (at level 61, c at next level, right associativity) : heap_scope.
Notation "c ;; k" := (bind c (fun _ => k))
  (at level 61, right associativity) : heap_scope.

(** Reading what a reference points to. *)
Definition load (r : Ref) : M Cell := fun h => (Return (h r), h).

(** Writing to an object or an array, as an assignment to a property
    does; the validator has no such statement. *)
Definition store (r : Ref) (cell : Cell) : M unit :=
  fun h => (Return tt, fun r' => if (r' =? r)%nat then cell else h r').

(** ToBoolean; a reference is truthy. *)
Definition truthy (v : Value) : bool :=
  match v with
  | VUndefined => Js.truthy JUndefined
  | VNull => Js.truthy JNull
  | VBool b => Js.truthy (JBool b)
  | VNum n => Js.truthy (JNum n)
  | VStr s => Js.truthy (JStr s)
  | VRef _ => true
  end.

(** [typeof v] *)
Definition typeof (v : Value) : string :=
  match v with
  | VUndefined => "undefined"
  | VNull => "object"
  | VBool _ => "boolean"
  | VNum _ => "number"
  | VStr _ => "string"
  | VRef _ => "object"
  end.

(** [Array.isArray(v)] *)
Definition isArray (v : Value) : M bool :=
  match v with
  | VRef r =>
      (cell <- load r ;;
       ret (match cell with Array _ => true | Object _ => false end))%heap
  | _ => ret false
  end.

(** The elements of an array, as [length], [every] and [forEach] see
    them. *)
Definition elements (v : Value) : M (list Value) :=
  match v with
  | VRef r =>
      (cell <- load r ;;
       ret (match cell with Array vs => vs | Object _ => [] end))%heap
  | _ => ret []
  end.

Fixpoint lookup (k : string) (props : list (string * Value)) : option Value :=
  match props with
  | [] => None
  | (k', v) :: props' => if k' =? k then Some v else lookup k props'
  end.

(** [k in v] for [v] an object or an array, and a key that no prototype
    defines. *)
Definition has (k : string) (v : Value) : M bool :=
  match v with
  | VRef r =>
      (cell <- load r ;;
       ret (match cell with
            | Object props =>
                match lookup k props with Some _ => true | None => false end
            | Array _ => false
            end))%heap
  | _ => ret false
  end.

(** [v[k]] and [v.k] for such a key, on a value that is neither null nor
    undefined, and what destructuring binds. *)
Definition get (v : Value) (k : string) : M Value :=
  match v with
  | VRef r =>
      (cell <- load r ;;
       ret (match cell with
            | Object props =>
                match lookup k props with Some x => x | None => VUndefined end
            | Array _ => VUndefined
            end))%heap
  | _ => ret VUndefined
  end.

(** [Object.values(v)] for an object. *)
Definition values (v : Value) : M (list Value) :=
  match v with
  | VRef r =>
      (cell <- load r ;;
       ret (match cell with
            | Object props => map snd props
            | Array _ => []
            end))%heap
  | _ => ret []
  end.

(** [if (cond) throw new ValidationError(message)] *)
Definition rejectIf (cond : bool) (message : string) : M unit :=
  fun h => (rejectIf cond message, h).

Fixpoint forEachFrom {A} (f : A -> nat -> M unit) (i : nat) (xs : list A)
    : M unit :=
  match xs with
  | [] => ret tt
  | x :: xs' => bind (f x i) (fun _ => forEachFrom f (S i) xs')
  end.

Definition forEach {A} (f : A -> nat -> M unit) (xs : list A) : M unit :=
  forEachFrom f 0 xs.

(** [!v || !Array.isArray(v) || v.length === 0], left to right. *)
Definition notNonEmptyArray (v : Value) : M bool :=
  if negb (truthy v) then ret true
  else
    (isArr <- isArray v ;;
     if negb isArr then ret true
     else (xs <- elements v ;; ret (length xs =? 0)%nat))%heap.

Definition checkModels (models : Value) : M unit :=
  (bad <- notNonEmptyArray models ;;
   rejectIf bad modelsMessage ;;
   xs <- elements models ;;
   rejectIf (negb (forallb (fun model => typeof model =? "string") xs))
     notAllStrings)%heap.

(** [validTypes.includes(v)]: no reference is one of the four strings. *)
Definition isValidType (v : Value) : bool :=
  match v with
  | VStr s => existsb (String.eqb s) Chat.validTypes
  | _ => false
  end.

Definition validateContentObject (content : Value) (path : string) : M unit :=
  (bad <- (if negb (truthy content) || negb (typeof content =? "object")
           then ret true
           else (hasType <- has "type" content ;; ret (negb hasType))) ;;
   rejectIf bad (path ++ " must be an object with a 'type' property") ;;
   type <- get content "type" ;;
   rejectIf (negb (isValidType type))
     (path ++ ".type must be one of: " ++ String.concat ", " Chat.validTypes)
  )%heap.

(** [key in msg && msg[key]], left to right. *)
Definition presentAndTruthy (key : string) (msg : Value) : M bool :=
  (present <- has key msg ;;
   if present then (value <- get msg key ;; ret (truthy value))
   else ret false)%heap.

(** One turn of the loop over [["system", "user"]]. *)
Definition validateRole (key : string) (msg : Value) : M unit :=
  (given <- presentAndTruthy key msg ;;
   if given then
     (value <- get msg key ;;
      isArr <- isArray value ;;
      rejectIf (negb isArr) (key ++ " must be an array of content objects") ;;
      contents <- get msg key ;;
      contents <- elements contents ;;
      forEach (fun content i =>
                 validateContentObject content
                   (key ++ "[" ++ decimal (Z.of_nat i) ++ "]"))
        contents)
   else ret tt)%heap.

Definition validateAssistants (msg : Value) : M unit :=
  (given <- presentAndTruthy "assistants" msg ;;
   if given then
     (value <- get msg "assistants" ;;
      bad <- (if negb (typeof value =? "object") then ret true
              else (value <- get msg "assistants" ;; isArray value)) ;;
      rejectIf bad
        "assistants must be an object mapping models to content arrays" ;;
      value <- get msg "assistants" ;;
      all <- values value ;;
      forEach (fun contents i =>
                 (isArr <- isArray contents ;;
                  rejectIf (negb isArr)
                    ("assistants value at index " ++ decimal (Z.of_nat i)
                     ++ " must be an array") ;;
                  cs <- elements contents ;;
                  forEach (fun content j =>
                             validateContentObject content
                               ("assistants value[" ++ decimal (Z.of_nat j)
                                ++ "]"))
                    cs))
        all)
   else ret tt)%heap.

Definition validateMessageContent (msg : Value) (index : nat) : M unit :=
  (validateRole "system" msg ;;
   validateRole "user" msg ;;
   validateAssistants msg)%heap.

(** [hasValidKey], left to right. *)
Definition hasValidKey (msg : Value) : M bool :=
  (system <- has "system" msg ;;
   if system then ret true
   else (user <- has "user" msg ;;
         if user then ret true else has "assistants" msg))%heap.

(** The callback of [messages.forEach]. *)
Definition validateMessage (msg : Value) (index : nat) : M unit :=
  (rejectIf (negb (truthy msg) || negb (typeof msg =? "object"))
     ("messages[" ++ decimal (Z.of_nat index) ++ "] must be an object") ;;
   valid <- hasValidKey msg ;;
   rejectIf (negb valid)
     ("messages[" ++ decimal (Z.of_nat index)
      ++ "] must have at least one of: system, user, assistants") ;;
   validateMessageContent msg index)%heap.

(** [validateRequestParameters(request)] for the reference of the
    caller's object. *)
Definition validateRequestParameters (request : Ref) : M unit :=
  (models <- get (VRef request) "models" ;;
   messages <- get (VRef request) "messages" ;;
   checkModels models ;;
   bad <- notNonEmptyArray messages ;;
   rejectIf bad "messages must be a non-empty array" ;;
   msgs <- elements messages ;;
   forEach validateMessage msgs)%heap.

(** A computation that leaves every heap as it finds it. *)
Definition ReadOnly {A} (m : M A) : Prop := forall h, snd (m h) = h.


End Heap.

(* ================================================================== *)
(** ** utils.ts: [processFile] *)
(* ================================================================== *)

Module Utils.

Definition MAX_FILE_SIZE : Z := 20 * 1024 * 1024.

Inductive FileType : Type :=
| image
| audio
| video
| pdf.

(** The key of a type in [SUPPORTED_EXTENSIONS], as the messages print
    it. *)
Definition typeName (type : FileType) : string :=
  match type with
  | image => "image"
  | audio => "audio"
  | video => "video"
  | pdf => "pdf"
  end.

(** The sets of [SUPPORTED_EXTENSIONS], each in insertion order. *)
Definition SUPPORTED_EXTENSIONS (type : FileType) : list string :=
  match type with
  | image => [".jpg"; ".jpeg"; ".png"; ".gif"; ".bmp"]
  | audio => [".mp3"; ".wav"; ".ogg"; ".m4a"; ".aac"]
  | video => [".mp4"; ".mov"; ".avi"; ".webm"]
  | pdf => [".pdf"]
  end.

(** [SUPPORTED_EXTENSIONS[type].has(fileExt)] *)
Definition supports (type : FileType) (fileExt : string) : bool :=
  existsb (String.eqb fileExt) (SUPPORTED_EXTENSIONS type).

(** [s.toLowerCase()] on the letters A to Z.  JavaScript also changes
    letters beyond U+007F; none of them becomes a letter of a supported
    extension, so [supports] decides alike on every extension. *)
Definition lowerChar (c : ascii) : ascii :=
  let n := nat_of_ascii c in
  if ((65 <=? n) && (n <=? 90))%nat then ascii_of_nat (n + 32) else c.

Fixpoint toLowerCase (s : string) : string :=
  match s with
  | EmptyString => EmptyString
  | String c s' => String (lowerChar c) (toLowerCase s')
  end.

(** An error of the host or of [processFile] itself: whether it is a
    TypeError, its [code] if it has one, and its message. *)
Record HostError : Type := mkHostError {
  isTypeError : bool;
  errorCode : option string;
  errorMessage : string
}.

(** [new Error(message)] *)
Definition plainError (message : string) : HostError :=
  mkHostError false None message.

Inductive Result (A : Type) : Type :=
| Done (a : A)
| Failed (e : HostError).
Arguments Done {A} a.
Arguments Failed {A} e.

(** What [fs.stat] resolves to, as far as it is read. *)
Record Stats : Type := mkStats {
  size : Z;
  isFile : bool
}.

(** A parsed URL: [url.pathname] and [url.toString()]. *)
Record Url : Type := mkUrl {
  pathname : string;
  href : string
}.

(** The calls that reach the file system or the network. *)
Inductive HostCall : Type :=
| Mkdir (dir : string)
| Download (url dest : string)
| Stat (path : string)
| ReadFile (path : string)
| Unlink (path : string).

(** Node as [processFile] uses it.  The functions of [url] and [path] and
    the clock are given; each effect is given by its outcome, which may
    depend on the calls made before it.  [download] is [downloadFile] of
    utils.ts, whose body is callbacks on streams. *)
Record Host : Type := mkHost {
  (** [new URL(s)]; [None] when it throws its TypeError *)
  newURL : string -> option Url;
  extname : string -> string;
  basename : string -> string;
  join : string -> string -> string;
  resolve : string -> string -> string;
  cwd : string;
  (** [Date.now()] *)
  now : list HostCall -> Z;
  (** [(size / 1024 / 1024).toFixed(2)] *)
  megabytes : Z -> string;
  mkdir : list HostCall -> string -> Result unit;
  download : list HostCall -> string -> string -> Result unit;
  stat : list HostCall -> string -> Result Stats;
  readFile : list HostCall -> string -> Result (list Byte.byte);
  unlink : list HostCall -> string -> Result unit
}.

(** A computation that records its calls of the host, oldest first. *)
Definition IO (A : Type) : Type :=
  list HostCall -> Result A * list HostCall.

Definition ret {A} (a : A) : IO A := fun t => (Done a, t).

Definition fail {A} (e : HostError) : IO A := fun t => (Failed e, t).

Definition bind {A B} (m : IO A) (k : A -> IO B) : IO B :=
  fun t =>
    match m t with
    | (Done a, t') => k a t'
    | (Failed e, t') => (Failed e, t')
    end.

Definition catch {A} (m : IO A) (handler : HostError -> IO A) : IO A :=
  fun t =>
    match m t with
    | (Done a, t') => (Done a, t')
    | (Failed e, t') => handler e t'
    end.

(** A call of the host: its outcome on the calls so far, and its record. *)
Definition call {A} (answer : list HostCall -> Result A) (c : HostCall)
    : IO A :=
  fun t => (answer t, (t ++ [c])%list).

(** Reading the clock leaves no record. *)
Definition clock (h : Host) : IO Z := fun t => (Done (now h t), t).

Declare Scope io_scope.
Delimit Scope io_scope with io.
Notation "x <- c ;; k" := (bind c (fun x => k))
  (at level 61, c at next level, right associativity) : io_scope.
Notation "c ;; k" := (bind c (fun _ => k))
  (at level 61, right associativity) : io_scope.

Record File : Type := mkFile {
  buffer : list Byte.byte;
  filename : string;
  filepath : string
}.

Definition unsupportedMessage (what fileExt : string) (type : FileType)
    : string :=
  what ++ " '" ++ fileExt ++ "' not supported for " ++ typeName type
  ++ ". Supported types: " ++ String.concat ", " (SUPPORTED_EXTENSIONS type).

Definition tooLargeMessage (h : Host) (stats : Stats) : string :=
  "File size (" ++ megabytes h (size stats) ++ "MB) exceeds max limit (20MB)".

(** The [try] block of [processFile] once [new URL] has returned. *)
Definition fromUrl (h : Host) (url : Url) (type : FileType) : IO File :=
  let fileExt := toLowerCase (extname h (pathname url)) in
  if negb (supports type fileExt) then
    fail (plainError (unsupportedMessage "URL file type" fileExt type))
  else
    let tempDir := join h (cwd h) "temp" in
    (call (fun t => mkdir h t tempDir) (Mkdir tempDir) ;;
     let filename := basename h (pathname url) in
     time <- clock h ;;
     let tempPath := join h tempDir (decimal time ++ "-" ++ filename) in
     call (fun t => download h t (href url) tempPath)
       (Download (href url) tempPath) ;;
     stats <- call (fun t => stat h t tempPath) (Stat tempPath) ;;
     if (MAX_FILE_SIZE <? size stats)%Z then
       (call (fun t => unlink h t tempPath) (Unlink tempPath) ;;
        fail (plainError (tooLargeMessage h stats)))
     else
       (buffer <- call (fun t => readFile h t tempPath) (ReadFile tempPath) ;;
        call (fun t => unlink h t tempPath) (Unlink tempPath) ;;
        ret (mkFile buffer filename tempPath)))%io.

(** The handling of a local file: the inner [try] and its [catch]. *)
Definition fromLocal (h : Host) (filePath : string) (type : FileType)
    : IO File :=
  catch
    (let absolutePath := resolve h (cwd h) (trim filePath) in
     (stats <- call (fun t => stat h t absolutePath) (Stat absolutePath) ;;
      if negb (isFile stats) then
        fail (plainError ("Not a file: " ++ filePath))
      else if (MAX_FILE_SIZE <? size stats)%Z then
        fail (plainError (tooLargeMessage h stats))
      else
        let fileExt := toLowerCase (extname h absolutePath) in
        if negb (supports type fileExt) then
          fail (plainError (unsupportedMessage "File type" fileExt type))
        else
          (buffer <- call (fun t => readFile h t absolutePath)
                       (ReadFile absolutePath) ;;
           ret (mkFile buffer (basename h absolutePath) absolutePath)))%io)
    (fun error =>
       match errorCode error with
       | Some code =>
           if code =? "ENOENT"
           then fail (plainError ("File not found: " ++ filePath))
           else fail error
       | None => fail error
       end).

Definition processFile (h : Host) (filePath : string) (type : FileType)
    : IO File :=
  catch
    (match newURL h filePath with
     | None => fail (mkHostError true (Some "ERR_INVALID_URL") "Invalid URL")
     | Some url => fromUrl h url type
     end)
    (fun e =>
       if negb (isTypeError e) then fail e
       else fromLocal h filePath type).

End Utils.

(** [processFile] as the modules import it, on a host that has seen the
    calls [before]: the modules pass a string they have validated and
    ["image"] or ["audio"], and read the buffer and the file name.  Other
    arguments do not reach it from the modules; they are answered with a
    TypeError. *)
Definition importedProcessFile (h : Utils.Host) (before : list Utils.HostCall)
    (filePath : JsValue) (type : string) : Completion ProcessedFile :=
  match filePath,
        (if type =? "image" then Some Utils.image
         else if type =? "audio" then Some Utils.audio else None) with
  | JStr path, Some fileType =>
      match fst (Utils.processFile h path fileType before) with
      | Utils.Done file =>
          Return (mkFile (Utils.buffer file) (Utils.filename file))
      | Utils.Failed e =>
          Throw (NativeError (Utils.isTypeError e) (Utils.errorMessage e))
      end
  | _, _ => Throw (NativeError true "processFile: unexpected argument")
  end.

(** The temporary path of a download: [tempDir] and [tempPath] of
    [processFile] when the directory has been made after the calls
    [before]. *)
Definition tempDirOf (h : Utils.Host) : string :=
  Utils.join h (Utils.cwd h) "temp".

Definition tempPathOf (h : Utils.Host) (before : list Utils.HostCall)
    (url : Utils.Url) : string :=
  Utils.join h (tempDirOf h)
    (decimal (Utils.now h (before ++ [Utils.Mkdir (tempDirOf h)])%list)
     ++ "-" ++ Utils.basename h (Utils.pathname url)).

(** The calls of a download that went through: make the directory,
    download, stat, read, unlink. *)
Definition downloadCalls (h : Utils.Host) (before : list Utils.HostCall)
    (url : Utils.Url) : list Utils.HostCall :=
  [Utils.Mkdir (tempDirOf h);
   Utils.Download (Utils.href url) (tempPathOf h before url);
   Utils.Stat (tempPathOf h before url);
   Utils.ReadFile (tempPathOf h before url);
   Utils.Unlink (tempPathOf h before url)].

(** What [processFile] has checked of a file it returns: the size that
    [fs.stat] reported for its path is within the limit, its bytes are what
    [fs.readFile] gave for that path, and the extension of the URL's path
    (for a download) or of the resolved path (for a local file) is in the
    list of the type. *)
Definition Checked (h : Utils.Host) (type : Utils.FileType)
    (filePath : string) (file : Utils.File) : Prop :=
  (exists before stats,
      Utils.stat h before (Utils.filepath file) = Utils.Done stats
      /\ (Utils.size stats <= Utils.MAX_FILE_SIZE)%Z)
  /\ (exists before,
         Utils.readFile h before (Utils.filepath file)
         = Utils.Done (Utils.buffer file))
  /\ ((exists url,
          Utils.newURL h filePath = Some url
          /\ Utils.supports type
               (Utils.toLowerCase (Utils.extname h (Utils.pathname url)))
             = true
          /\ Utils.filename file = Utils.basename h (Utils.pathname url))
      \/ (Utils.filepath file
          = Utils.resolve h (Utils.cwd h) (trim filePath)
          /\ Utils.supports type
               (Utils.toLowerCase (Utils.extname h (Utils.filepath file)))
             = true
          /\ Utils.filename file = Utils.basename h (Utils.filepath file))).

(* ================================================================== *)
(** ** core/Authentication.ts *)
(* ================================================================== *)

Module Authentication.

(** The second argument of [fetch]. *)
Definition authInit (rt : Runtime) (apiKey : string) : RequestInit :=
  mkInit "POST" [("Content-Type", "application/json")]
    (JsonText (JSON_stringify rt (JObj [("apiKey", JStr apiKey)]))).

(** [authenticate(apiKey, baseUrl)] on two strings, as its signature has
    them.  Its errors are plain [Error]s; [jsonError] is what
    [response.json()] rejects with when the body is no JSON, and reading
    [token] of [null] throws the TypeError of the runtime. *)
Definition authenticate (rt : Runtime) (fetch : Fetch)
    (jsonError : Response.t -> Exn) (apiKey baseUrl : string)
    : Completion JsValue :=
  if apiKey =? EmptyString then
    Throw (NativeError false "API key is required")
  else if baseUrl =? EmptyString then
    Throw (NativeError false "Base URL is required")
  else
    (response <- fetch (baseUrl ++ "/auth") (authInit rt apiKey) ;;
     if negb (Response.ok response) then
       Throw (NativeError false
                ("Authentication failed: "
                 ++ decimal (Response.status response)))
     else
       match Response.json rt response with
       | None => Throw (jsonError response)
       | Some data =>
           if isNullish data then
             Throw (NativeError true
                      "Cannot read properties of null (reading 'token')")
           else if negb (truthy (getProp data "token")) then
             Throw (NativeError false
                      "No token received from authentication endpoint")
           else Return data
       end)%completion.

End Authentication.

(** *** Sample data *)

Definition quote : string := String (ascii_of_nat 34) EmptyString.

(** [{"message":"bad field"}] *)
Definition badFieldBody : string :=
  "{" ++ quote ++ "message" ++ quote ++ ":" ++ quote ++ "bad field" ++ quote
  ++ "}".

(** [{"error":"Rate limit exceeded"}] *)
Definition rateLimitBody : string :=
  "{" ++ quote ++ "error" ++ quote ++ ":" ++ quote ++ "Rate limit exceeded"
  ++ quote ++ "}".

(** [{"message":{"toString":1}}] *)
Definition unprintableBody : string :=
  "{" ++ quote ++ "message" ++ quote ++ ":{" ++ quote ++ "toString" ++ quote
  ++ ":1}}".

(** A runtime for the examples.  Its [JSON.parse] is that of JavaScript on
    the four bodies the examples use, [{}], [badFieldBody],
    [rateLimitBody] and [unprintableBody], and its [String] is that of
    JavaScript on objects; the examples reach no other text and none of
    the other functions on a value where these stand-ins matter. *)
Definition exampleRuntime : Runtime :=
  mkRuntime
    (fun s =>
       if s =? "{}" then Some (JObj [])
       else if s =? badFieldBody
            then Some (JObj [("message", JStr "bad field")])
            else if s =? rateLimitBody
                 then Some (JObj [("error", JStr "Rate limit exceeded")])
                 else if s =? unprintableBody
                      then Some (JObj [("message",
                                        JObj [("toString", ofZ 1)])])
                      else None)
    (fun _ => "null")
    (fun v =>
       match v with
       | JObj o =>
           if hasKey "toString" o
           then ConversionFails "Cannot convert object to primitive value"
           else AsString "[object Object]"
       | _ => AsString "[object Object]"
       end)
    (fun s => negb (forallb (fun c => (48 <=? nat_of_ascii c)%nat
                                      && (nat_of_ascii c <=? 57)%nat)
                      (list_ascii_of_string s)))
    (fun _ => [("content-type", "multipart/form-data")]).

Definition exampleClient : AlleAIClient :=
  mkClient "key" "https://api.alle-ai.com/api/v1".

Definition exampleFile : ProcessedFile := mkFile [] "input.jpg".

(** A transport spy with a canned answer, and a [processFile] that finds
    its file. *)
Definition spy : Collaborators :=
  mkCollaborators (fun _ _ => Return (JObj []))
    (fun _ _ => Return (JObj []))
    (fun _ _ => Return exampleFile).

Definition textContent (s : string) : JsValue :=
  JObj [("type", JStr "text"); ("text", JStr s)].

(** The collaborators of a client whose server answers every request with
    [response], and a [processFile] that finds its file. *)
Definition answering (response : Response.t) : Collaborators :=
  clientCollaborators exampleRuntime (fun _ _ => Return response)
    exampleClient (fun _ _ => Return exampleFile).

Definition forbidden : Response.t :=
  Response.make 403 (Some "<html><body>403 Forbidden</body></html>").

(** The message node-fetch gives a refused connection, and the FetchError
    that carries it: an [Error] that is no TypeError. *)
Definition refusedMessage : string :=
  "request to https://api.alle-ai.com/api/v1/chat/completions failed, reason: connect ECONNREFUSED 127.0.0.1:443".

Definition connectionRefused : Exn := NativeError false refusedMessage.

Definition tooManyRequests : Response.t :=
  Response.make 429 (Some rateLimitBody).

Definition editRequest : JsObject :=
  [("models", JArr [JStr "dall-e-3"]);
   ("prompt", JStr "Add a sunset background");
   ("image_file", JStr "./input.jpg")].

Definition sttRequest : JsObject :=
  [("models", JArr [JStr "gpt-4o-transcribe"]);
   ("audio_file", JStr "./audio.mp3")].

(** A request for [video.generate] with one optional field. *)
Definition videoRequest (key : string) (value : JsValue) : JsObject :=
  [("models", JArr [JStr "veo-2"]); ("prompt", JStr "A video about nature");
   (key, value)].

(** A request every chat validator accepts. *)
Definition chatRequest : JsObject :=
  [("models", JArr [JStr "gpt-4o"; JStr "yi-large"]);
   ("messages",
    JArr [JObj [("system", JArr [textContent "You are a helpful assistant."])];
          JObj [("user", JArr [textContent "What is photosynthesis?"])]])].

(** *** A host for the examples *)

Definition catUrl : Utils.Url :=
  Utils.mkUrl "/cat.png" "https://example.com/cat.png".

Definition notFound : Utils.HostError :=
  Utils.mkHostError false (Some "ENOENT") "ENOENT: no such file or directory".

(** A host with two local files, [/srv/app/photo.png] of 2048 bytes and
    [/srv/app/speech.mp3] of 4096 bytes, and one URL it can download,
    [https://example.com/cat.png], whose temporary copy has [tempSize]
    bytes and can be read if [tempReadable].  Its functions of [path] are
    those of Node on the absolute paths the examples use, and its
    [megabytes] is that of the oversize copy of the examples, 30MB. *)
Definition exampleHostWith (tempSize : Z) (tempReadable : bool) : Utils.Host :=
  Utils.mkHost
    (fun s => if s =? "https://example.com/cat.png" then Some catUrl else None)
    (fun p => if (p =? "/cat.png") || (p =? "/srv/app/photo.png")
              then ".png"
              else if p =? "/srv/app/speech.mp3" then ".mp3"
                   else EmptyString)
    (fun p => if p =? "/cat.png" then "cat.png"
              else if p =? "/srv/app/photo.png" then "photo.png"
                   else if p =? "/srv/app/speech.mp3" then "speech.mp3"
                        else p)
    (fun a b => a ++ "/" ++ b)
    (fun base p => p)
    "/srv/app"
    (fun _ => 1750000000000%Z)
    (fun _ => "30.00")
    (fun _ _ => Utils.Done tt)
    (fun _ _ _ => Utils.Done tt)
    (fun _ p =>
       if p =? "/srv/app/photo.png" then Utils.Done (Utils.mkStats 2048 true)
       else if p =? "/srv/app/speech.mp3"
            then Utils.Done (Utils.mkStats 4096 true)
            else if p =? "/srv/app/temp/1750000000000-cat.png"
                 then Utils.Done (Utils.mkStats tempSize true)
                 else Utils.Failed notFound)
    (fun _ p =>
       if (p =? "/srv/app/photo.png") || (p =? "/srv/app/speech.mp3")
       then Utils.Done []
       else if (p =? "/srv/app/temp/1750000000000-cat.png") && tempReadable
            then Utils.Done []
            else Utils.Failed notFound)
    (fun _ _ => Utils.Done tt).

Definition exampleHost : Utils.Host := exampleHostWith 512 true.

(** Collaborators whose [processFile] is that of utils.ts on the example
    host, with the canned transport of [spy]. *)
Definition hostSpy : Collaborators :=
  mkCollaborators (fun _ _ => Return (JObj []))
    (fun _ _ => Return (JObj []))
    (importedProcessFile exampleHost []).

Definition okEmpty : Response.t := Response.make 200 (Some "{}").

(** A request with the required fields of [image.generate] and
    [video.generate] only. *)
Definition minimalRequest : JsObject :=
  [("models", JArr [JStr "dall-e-3"]);
   ("prompt", JStr "A beautiful landscape at sunset")].

Definition localEditRequest : JsObject :=
  [("models", JArr [JStr "dall-e-3"]);
   ("prompt", JStr "Add a sunset background");
   ("image_file", JStr "/srv/app/photo.png")].

Definition localSttRequest : JsObject :=
  [("models", JArr [JStr "gpt-4o-transcribe"]);
   ("audio_file", JStr "/srv/app/speech.mp3")].

(** [stt] with [model_specific_params: null]. *)
Definition nullParamsRequest : JsObject :=
  [("models", JArr [JStr "gpt-4o-transcribe"]);
   ("audio_file", JStr "./audio.mp3");
   ("model_specific_params", JNull)].

(** The chat request of the examples on a heap: the request object at
    reference 0, its two arrays, the two messages, their content arrays
    and content objects. *)
Definition chatHeap : Heap.Heap :=
  fun r =>
    nth r
      [Heap.Object [("models", Heap.VRef 1); ("messages", Heap.VRef 2)];
       Heap.Array [Heap.VStr "gpt-4o"; Heap.VStr "yi-large"];
       Heap.Array [Heap.VRef 3; Heap.VRef 4];
       Heap.Object [("system", Heap.VRef 5)];
       Heap.Object [("user", Heap.VRef 6)];
       Heap.Array [Heap.VRef 7];
       Heap.Array [Heap.VRef 8];
       Heap.Object [("type", Heap.VStr "text");
                    ("text", Heap.VStr "You are a helpful assistant.")];
       Heap.Object [("type", Heap.VStr "text");
                    ("text", Heap.VStr "What is photosynthesis?")]]
      (Heap.Object []).

(* ================================================================== *)
(** ** Properties *)
(* ================================================================== *)

(** *** The model-list check *)

Lemma checkModels_bad (request : JsObject) :
  badModels request ->
  checkModels (field "models" request) = throwValidation modelsMessage.
Proof.
  unfold badModels, field.
  destruct (lookup "models" request) as [[| | b | n | s | [| x xs] | o] |];
    intros H; try reflexivity; try contradiction.
  - destruct b; reflexivity.
  - destruct n as [| neg | q]; try reflexivity.
    unfold checkModels; cbn. destruct (Qnum q =? 0)%Z; reflexivity.
  - unfold checkModels; cbn. destruct (s =? EmptyString); reflexivity.
Qed.

Lemma checkModels_strings (ms : list JsValue) :
  ms <> [] ->
  checkModels (JArr ms) =
  rejectIf (negb (forallb (fun model => typeof model =? "string") ms))
    "all elements in models must be strings".
Proof.
  destruct ms as [| m ms]; [congruence |]. intros _.
  unfold checkModels. cbn [truthy isArray elements length negb orb Nat.eqb].
  cbn [rejectIf bindC]. reflexivity.
Qed.

Ltac run_op :=
  unfold bind, getRequest, lift, tryCatch; cbn [callerRequest transportCalls].

Ltac reject_models H :=
  cbv zeta; rewrite (checkModels_bad _ H); reflexivity.

(** Every validator starts with the model-list check. *)
Lemma validators_reject_bad_models (rt : Runtime) (request : JsObject) :
  badModels request ->
  Chat.validateRequestParameters request = throwValidation modelsMessage
  /\ Image.validateGenerate request = throwValidation modelsMessage
  /\ Image.validateEdit request = throwValidation modelsMessage
  /\ Audio.validateGenerate request = throwValidation modelsMessage
  /\ Audio.validateTts request = throwValidation modelsMessage
  /\ Audio.validateStt request = throwValidation modelsMessage
  /\ Video.validateGenerate rt request = throwValidation modelsMessage.
Proof.
  intros H.
  unfold Chat.validateRequestParameters, Image.validateGenerate,
    Image.validateEdit, Audio.validateGenerate, Audio.validateTts,
    Audio.validateStt, Video.validateGenerate.
  repeat split; reject_models H.
Qed.

(** Apart from [comparison], every operation rejects a request without a
    usable [models] list and leaves the transport alone. *)
Lemma bad_models_rejected_unsent (rt : Runtime) (co : Collaborators)
    (op : Operation) (request : JsObject) :
  op <> ChatComparison ->
  badModels request ->
  rejectsUnsent (perform rt co op) modelsMessage request.
Proof.
  intros Hop H calls.
  destruct (validators_reject_bad_models rt request H)
    as (Hc & Hig & Hie & Hag & Hat & Has & Hvg).
  destruct op; try congruence; cbn [perform];
    unfold Chat.completions, Chat.combination, Chat.search, Image.generate,
      Image.edit, Audio.generate, Audio.tts, Audio.stt, Video.generate;
    run_op;
    rewrite ?Hc, ?Hig, ?Hie, ?Hag, ?Hat, ?Has, ?Hvg; reflexivity.
Qed.

(** [comparison] hands every request to the transport as it is. *)
Lemma comparison_always_sends (co : Collaborators) (w : World) :
  Chat.comparison co w =
  (co_makeRequest co "/chat/comparison" (JObj (callerRequest w)),
   mkWorld (callerRequest w)
     (transportCalls w
      ++ [JsonCall "/chat/comparison" (JObj (callerRequest w))])%list).
Proof. reflexivity. Qed.

(** C1.  A request without [models] given to [comparison]: no validation
    error is raised and the transport is called once, where the
    specification wants the message of the model-list check and no call.
    The other nine operations do as it says
    ([bad_models_rejected_unsent]). *)
Theorem comparison_sends_request_without_models :
  let request := [("messages", JArr [JObj [("user", JArr [textContent "hi"])]])]
  in
  badModels request
  /\ perform exampleRuntime spy ChatComparison (mkWorld request [])
     = (Return (JObj []),
        mkWorld request [JsonCall "/chat/comparison" (JObj request)])
  /\ ~ rejectsUnsent (perform exampleRuntime spy ChatComparison)
         modelsMessage request.
Proof.
  cbv zeta. split; [exact I |]. split; [reflexivity |].
  intros H. specialize (H []). cbn in H. discriminate H.
Qed.

(** *** The error classifier *)

Lemma errorOfStatus_classified (rt : Runtime) (r : Response.t)
    (message : string) :
  errorOfStatus (Response.status r) message
    (JObj [("message", deriveErrorMessage rt r);
           ("status", ofZ (Response.status r))])
  = classifiedError rt r message.
Proof.
  destruct r as [s body].
  unfold errorOfStatus, classifiedError, tableEntry, statusTable.
  cbn [Response.status find fst snd].
  rewrite !(Z.eqb_sym _ s).
  repeat match goal with
         | |- context [(s =? ?k)%Z] =>
             destruct (Z.eqb_spec s k) as [-> | _]; [reflexivity |]
         end.
  reflexivity.
Qed.

Lemma handleErrorResponse_classified (rt : Runtime) (r : Response.t) :
  handleErrorResponse rt r
  = match toStr rt (deriveErrorMessage rt r) with
    | AsString message => Typed (classifiedError rt r message)
    | ConversionFails reason => NativeError true reason
    end.
Proof.
  unfold handleErrorResponse. cbv zeta.
  destruct (toStr rt (deriveErrorMessage rt r)); [| reflexivity].
  rewrite errorOfStatus_classified. reflexivity.
Qed.

(** A typed error thrown inside the [try] of a request method leaves it
    as it is. *)
Lemma tryRequest_typed (rt : Runtime) (e : AlleAIError) :
  tryRequest rt (Throw (Typed e)) = Throw (Typed e).
Proof. reflexivity. Qed.

Lemma request_methods_on_response (rt : Runtime) (fetch : Fetch)
    (client : AlleAIClient) (endpoint : string) (body : JsValue)
    (formData : FormData) (c : Completion Response.t) :
  (forall url init, fetch url init = c) ->
  makeRequest rt fetch client endpoint body
  = tryRequest rt (bindC c (readResponse rt))
  /\ makeFormDataRequest rt fetch client endpoint formData
     = tryRequest rt (bindC c (readResponse rt)).
Proof.
  intros H. unfold makeRequest, makeFormDataRequest.
  rewrite !H. split; reflexivity.
Qed.

(** C2, as the code has it.  A response whose status is not 2xx makes both
    request methods throw the error of the status table: kind and code by
    the table, the derived message, the details [{message, status}] with
    the status of the response.  The [status] field is the one the class
    of the error fixes (400, 401, 429, 503), and the status of the
    response only for the generic API error.  This is so when the derived
    message is a string or can be made one; when its conversion throws,
    the constructor of the error throws with it, and the request methods
    make of that TypeError what they make of any: the generic API error
    with code [UNEXPECTED_ERROR], or the connection error should its
    message hold [fetch]. *)
Theorem http_status_classification (rt : Runtime) (fetch : Fetch)
    (client : AlleAIClient) (endpoint : string) (body : JsValue)
    (formData : FormData) (r : Response.t) :
  (forall url init, fetch url init = Return r) ->
  Response.ok r = false ->
  (forall message,
      toStr rt (deriveErrorMessage rt r) = AsString message ->
      makeRequest rt fetch client endpoint body
      = Throw (Typed (classifiedError rt r message))
      /\ makeFormDataRequest rt fetch client endpoint formData
         = Throw (Typed (classifiedError rt r message)))
  /\ (forall reason,
         toStr rt (deriveErrorMessage rt r) = ConversionFails reason ->
         makeRequest rt fetch client endpoint body
         = Throw (Typed (conversionFailure reason))
         /\ makeFormDataRequest rt fetch client endpoint formData
            = Throw (Typed (conversionFailure reason))).
Proof.
  intros Hfetch Hok.
  destruct (request_methods_on_response rt fetch client endpoint body
              formData (Return r) Hfetch) as [-> ->].
  cbn [bindC]. unfold readResponse. rewrite Hok. cbn [negb].
  rewrite handleErrorResponse_classified.
  split.
  - intros message ->. split; reflexivity.
  - intros reason ->. cbn [tryRequest catchRequest andb].
    unfold conversionFailure, unexpectedError.
    destruct (includes "fetch" reason); split; reflexivity.
Qed.

(** C2 at a 403 with an HTML body. *)
Lemma http_status_classification_witness :
  (forall (url : string) (init : RequestInit),
      (fun _ _ => Return forbidden) url init = Return forbidden)
  /\ Response.ok forbidden = false
  /\ toStr exampleRuntime (deriveErrorMessage exampleRuntime forbidden)
     = AsString unknownFormat
  /\ makeRequest exampleRuntime (fun _ _ => Return forbidden) exampleClient
       "/chat/completions" (JObj chatRequest)
     = Throw (Typed (AuthenticationError unknownFormat "PERMISSION_DENIED"
                       (JObj [("message", JStr unknownFormat);
                              ("status", ofZ 403)]))).
Proof.
  split; [reflexivity |]. split; [reflexivity |]. split; [reflexivity |].
  apply (proj1 (http_status_classification exampleRuntime
                  (fun _ _ => Return forbidden) exampleClient
                  "/chat/completions" (JObj chatRequest) [] forbidden
                  (fun _ _ => eq_refl) eq_refl) unknownFormat eq_refl).
Defined.

(** C2, as stated, fails: for a 403 the error thrown is not the one that
    carries the status of the response; its [status] is 401. *)
Lemma forbidden_reports_status_401 :
  Response.ok forbidden = false
  /\ readResponse exampleRuntime forbidden
     <> Throw (Typed (tableError exampleRuntime forbidden unknownFormat))
  /\ status (tableError exampleRuntime forbidden unknownFormat) = Some 403%Z
  /\ readResponse exampleRuntime forbidden
     = Throw (Typed (classifiedError exampleRuntime forbidden unknownFormat))
  /\ status (classifiedError exampleRuntime forbidden unknownFormat)
     = Some 401%Z.
Proof.
  split; [reflexivity |]. split; [| repeat split; reflexivity].
  cbv. intros H. discriminate H.
Qed.

(** A 400 whose [message] is an object with a [toString] of its own: the
    constructor of the error throws, and the request method reports an
    unexpected error without a status. *)
Example unprintable_message_is_unexpected_error :
  makeRequest exampleRuntime
    (fun _ _ => Return (Response.make 400 (Some unprintableBody)))
    exampleClient "/chat/completions" (JObj chatRequest)
  = Throw (Typed (APIError
                    "An unexpected error occurred: Cannot convert object to primitive value"
                    "UNEXPECTED_ERROR" None
                    (JObj [("originalError",
                            JStr "Cannot convert object to primitive value")]))).
Proof. reflexivity. Qed.

(** *** The derived message *)

Lemma typeof_string (v : JsValue) :
  (typeof v =? "string") = true -> exists s, v = JStr s.
Proof.
  destruct v; cbn; try discriminate. intros _. eexists; reflexivity.
Qed.

Lemma includes_in_array (needle : string) (xs : list JsValue) :
  existsb (fun x => match x with
                    | JStr s => s =? needle
                    | _ => false
                    end) xs = true
  <-> In (JStr needle) xs.
Proof.
  rewrite existsb_exists. split.
  - intros (x & Hin & Hx). destruct x; try discriminate.
    apply String.eqb_eq in Hx. subst. exact Hin.
  - intros Hin. exists (JStr needle). split; [exact Hin |].
    apply String.eqb_refl.
Qed.

Lemma messageOrError_derives (rt : Runtime) (status : Z) (errorBody : string)
    (errorJson : JsValue) :
  looksLikeHtml errorBody = false ->
  JSON_parse rt errorBody = Some errorJson ->
  isNullish errorJson = false ->
  rawClean errorJson ->
  Derives rt status errorBody
    (messageOrError rt
       (JStr ("Request failed with status: " ++ decimal status)) errorJson).
Proof.
  intros Hhtml Hparse Hnull Hclean. unfold messageOrError.
  destruct (truthy (getProp errorJson "message")) eqn:Hm.
  - now apply DerivesMessage.
  - destruct (truthy (getProp errorJson "error")) eqn:He.
    + destruct (typeof (getProp errorJson "error") =? "string") eqn:Ht.
      * destruct (typeof_string _ Ht) as [e Heq]. rewrite Heq.
        apply (DerivesErrorString rt status errorBody errorJson e); auto.
        intros ->. rewrite Heq in He. discriminate He.
      * apply (DerivesErrorOther rt status errorBody errorJson); auto.
        intros Heq. rewrite Heq in Ht. discriminate Ht.
    + now apply (DerivesStatus rt status errorBody errorJson).
Qed.

(** When [response.text()] fails the message is the fallback. *)
Lemma unreadable_body_message (rt : Runtime) (r : Response.t) :
  Response.text r = None -> deriveErrorMessage rt r = JStr unknownFormat.
Proof. intros H. unfold deriveErrorMessage. rewrite H. reflexivity. Qed.

(** C4, as the code has it.  The message of a body that was read is
    derived by the rules of [Derives]: the fallback when the text holds one
    of the two HTML markers, when it does not parse (or parses to null),
    and when [details.raw] of the parsed body is truthy and holds a marker
    or is neither a string nor an array; otherwise the [message] field if
    it is truthy, else the [error] field if it is truthy (stringified when
    it is no string), and when neither is truthy the message
    [Request failed with status: <status>]. *)
Theorem derived_message_rules (rt : Runtime) (r : Response.t)
    (errorBody : string) :
  Response.text r = Some errorBody ->
  Derives rt (Response.status r) errorBody (deriveErrorMessage rt r).
Proof.
  intros Htext. unfold deriveErrorMessage. rewrite Htext.
  change (includes "<!DOCTYPE html>" errorBody || includes "<html" errorBody)
    with (looksLikeHtml errorBody).
  destruct (looksLikeHtml errorBody) eqn:Hhtml; [now apply DerivesHtml |].
  destruct (JSON_parse rt errorBody) as [j |] eqn:Hparse;
    [| now apply DerivesUnparsable].
  unfold messageOfJson.
  destruct (isNullish j) eqn:Hnull; [now apply (DerivesNull _ _ _ j) |].
  destruct (truthy (detailsRaw j)) eqn:Hraw.
  - destruct (detailsRaw j) as [| | b | n | s | xs | o] eqn:Hr;
      cbn [callIncludes].
    1-4, 7: solve [apply (DerivesRawOther rt _ _ j); auto; rewrite Hr;
                   first [exact Hraw | cbn; discriminate | reflexivity]].
    + destruct (includes "<!DOCTYPE html>" s) eqn:H1.
      { apply (DerivesRawHtml rt _ _ j s); auto.
        unfold looksLikeHtml. rewrite H1. reflexivity. }
      destruct (includes "<html" s) eqn:H2.
      { apply (DerivesRawHtml rt _ _ j s); auto.
        unfold looksLikeHtml. rewrite H1, H2. reflexivity. }
      apply messageOrError_derives; auto.
      right; left. exists s. split; [exact Hr |].
      unfold looksLikeHtml. rewrite H1, H2. reflexivity.
    + match goal with
      | |- context [existsb ?f xs] => destruct (existsb f xs) eqn:H1
      end.
      { apply (DerivesRawList rt _ _ j xs); auto.
        left. now apply includes_in_array. }
      match goal with
      | |- context [existsb ?f xs] => destruct (existsb f xs) eqn:H2
      end.
      { apply (DerivesRawList rt _ _ j xs); auto.
        right. now apply includes_in_array. }
      apply messageOrError_derives; auto.
      right; right. exists xs. split; [exact Hr |]. split; intros Hin.
      * apply includes_in_array in Hin. rewrite Hin in H1. discriminate H1.
      * apply includes_in_array in Hin. rewrite Hin in H2. discriminate H2.
  - apply messageOrError_derives; auto. left. exact Hraw.
Qed.

Lemma not_in_array (needle : string) (xs : list JsValue) :
  ~ In (JStr needle) xs ->
  existsb (fun x => match x with
                    | JStr s => s =? needle
                    | _ => false
                    end) xs = false.
Proof.
  intros Hnot. apply not_true_is_false. intros E.
  apply includes_in_array in E. contradiction.
Qed.

Lemma messageOfJson_clean (rt : Runtime) (errorMessage errorJson : JsValue) :
  isNullish errorJson = false ->
  rawClean errorJson ->
  messageOfJson rt errorMessage errorJson
  = Some (messageOrError rt errorMessage errorJson).
Proof.
  intros Hnull Hclean. unfold messageOfJson. rewrite Hnull.
  destruct Hclean as [-> | [(s & -> & Hs) | (xs & -> & H1 & H2)]].
  - reflexivity.
  - unfold looksLikeHtml in Hs. apply orb_false_elim in Hs as [H1 H2].
    cbn [callIncludes]. rewrite H1, H2.
    destruct (truthy (JStr s)); reflexivity.
  - cbn [truthy callIncludes].
    rewrite (not_in_array _ _ H1), (not_in_array _ _ H2). reflexivity.
Qed.

(** The rules leave no choice: what they derive is what the code
    computes. *)
Lemma derives_only_derived (rt : Runtime) (r : Response.t)
    (errorBody : string) (m : JsValue) :
  Response.text r = Some errorBody ->
  Derives rt (Response.status r) errorBody m ->
  m = deriveErrorMessage rt r.
Proof.
  intros Htext Hd. unfold deriveErrorMessage. rewrite Htext.
  change (includes "<!DOCTYPE html>" errorBody || includes "<html" errorBody)
    with (looksLikeHtml errorBody).
  destruct Hd as [Hh | Hh Hp | j Hh Hp Hn | j raw Hh Hp Hn Hr Hraw
                  | j xs Hh Hp Hn Hr Hin | j Hh Hp Hn Ht Hty Harr
                  | j Hh Hp Hn Hc Hm | j e Hh Hp Hn Hc Hm He Hne
                  | j Hh Hp Hn Hc Hm He Hty | j Hh Hp Hn Hc Hm He];
    rewrite Hh; try reflexivity; rewrite Hp; try reflexivity.
  - unfold messageOfJson. rewrite Hn. reflexivity.
  - unfold messageOfJson. rewrite Hn, Hr. cbn [callIncludes].
    assert (Htruthy : truthy (JStr raw) = true).
    { destruct raw; [discriminate Hraw | reflexivity]. }
    rewrite Htruthy. unfold looksLikeHtml in Hraw.
    destruct (includes "<!DOCTYPE html>" raw); [reflexivity |].
    cbn [orb] in Hraw. rewrite Hraw. reflexivity.
  - unfold messageOfJson. rewrite Hn, Hr. cbn [truthy callIncludes].
    destruct Hin as [Hin | Hin]; apply includes_in_array in Hin.
    + rewrite Hin. reflexivity.
    + rewrite Hin.
      match goal with
      | |- context [if ?b then _ else _] => destruct b; reflexivity
      end.
  - unfold messageOfJson. rewrite Hn, Ht.
    destruct (detailsRaw j); try reflexivity.
    + exfalso. apply Hty. reflexivity.
    + discriminate Harr.
  - rewrite messageOfJson_clean by assumption.
    unfold messageOrError. rewrite Hm. reflexivity.
  - rewrite messageOfJson_clean by assumption.
    unfold messageOrError. rewrite Hm, He. cbn [truthy typeof].
    destruct e; [congruence | reflexivity].
  - rewrite messageOfJson_clean by assumption.
    unfold messageOrError. rewrite Hm, He.
    destruct (typeof (getProp j "error") =? "string") eqn:E; [| reflexivity].
    apply String.eqb_eq in E. contradiction.
  - rewrite messageOfJson_clean by assumption.
    unfold messageOrError. rewrite Hm, He. reflexivity.
Qed.

(** C4 at a 400 with the body [{"message":"bad field"}]. *)
Lemma derived_message_rules_witness :
  Response.text (Response.make 400 (Some badFieldBody)) = Some badFieldBody
  /\ Derives exampleRuntime 400 badFieldBody (JStr "bad field").
Proof.
  split; [reflexivity |].
  exact (derived_message_rules exampleRuntime
           (Response.make 400 (Some badFieldBody)) badFieldBody eq_refl).
Defined.

(** C4, as stated, fails: a body that parses and has neither field keeps
    the message made from the status, where the specification has the
    fallback. *)
Lemma empty_object_body_keeps_status_message :
  deriveErrorMessage exampleRuntime (Response.make 500 (Some "{}"))
  = JStr "Request failed with status: 500"
  /\ specMessage exampleRuntime "{}" = JStr unknownFormat
  /\ deriveErrorMessage exampleRuntime (Response.make 500 (Some "{}"))
     <> specMessage exampleRuntime "{}".
Proof.
  split; [reflexivity |]. split; [reflexivity |].
  cbv. intros H. discriminate H.
Qed.

(** *** Exceptions of [fetch] *)

(** C5.  An exception of [fetch] that is an [Error]: both request
    methods throw the connection error, with code [CONNECTION_ERROR] and
    the exception's message in [details.originalError], only when the
    exception is a TypeError whose message holds [fetch]; every other
    one, the FetchError of node-fetch for a refused connection among
    them, comes out as the generic API error with code
    [UNEXPECTED_ERROR], without a status and with the message in
    [details.originalError].  The specification, like the comment on
    [ConnectionError] in errors.ts, wants the connection error for every
    failure of the network. *)
Theorem fetch_exception_classification (rt : Runtime) (fetch : Fetch)
    (client : AlleAIClient) (endpoint : string) (body : JsValue)
    (formData : FormData) (isTypeError : bool) (msg : string) :
  (forall url init, fetch url init = Throw (NativeError isTypeError msg)) ->
  (isTypeError && includes "fetch" msg = true ->
   makeRequest rt fetch client endpoint body
   = Throw (Typed (ConnectionError couldNotConnect "CONNECTION_ERROR"
                     (JObj [("originalError", JStr msg)])))
   /\ makeFormDataRequest rt fetch client endpoint formData
      = Throw (Typed (ConnectionError couldNotConnect "CONNECTION_ERROR"
                        (JObj [("originalError", JStr msg)]))))
  /\ (isTypeError && includes "fetch" msg = false ->
      makeRequest rt fetch client endpoint body
      = Throw (Typed (APIError ("An unexpected error occurred: " ++ msg)
                        "UNEXPECTED_ERROR" None
                        (JObj [("originalError", JStr msg)])))
      /\ makeFormDataRequest rt fetch client endpoint formData
         = Throw (Typed (APIError ("An unexpected error occurred: " ++ msg)
                           "UNEXPECTED_ERROR" None
                           (JObj [("originalError", JStr msg)])))).
Proof.
  intros Hfetch.
  destruct (request_methods_on_response rt fetch client endpoint body
              formData (Throw (NativeError isTypeError msg)) Hfetch)
    as [-> ->].
  cbn [bindC tryRequest catchRequest].
  split; intros ->; split; reflexivity.
Qed.

(** C5 at a refused connection: node-fetch rejects with a FetchError,
    which is no TypeError, and the request method makes a generic API
    error of it, not a connection error. *)
Lemma fetch_exception_classification_witness :
  (forall (url : string) (init : RequestInit),
      (fun _ _ => Throw connectionRefused) url init
      = @Throw Response.t (NativeError false refusedMessage))
  /\ false && includes "fetch" refusedMessage = false
  /\ makeRequest exampleRuntime (fun _ _ => Throw connectionRefused)
       exampleClient "/chat/completions" (JObj chatRequest)
     = Throw (Typed (APIError
                       ("An unexpected error occurred: " ++ refusedMessage)
                       "UNEXPECTED_ERROR" None
                       (JObj [("originalError", JStr refusedMessage)])))
  /\ class (APIError ("An unexpected error occurred: " ++ refusedMessage)
              "UNEXPECTED_ERROR" None
              (JObj [("originalError", JStr refusedMessage)]))
     <> CConnectionError.
Proof.
  split; [reflexivity |]. split; [reflexivity |].
  split; [| discriminate].
  apply (proj2 (fetch_exception_classification exampleRuntime
                  (fun _ _ => Throw connectionRefused) exampleClient
                  "/chat/completions" (JObj chatRequest) [] false
                  refusedMessage (fun _ _ => eq_refl)) eq_refl).
Defined.

(** The TypeError [fetch failed] of a global [fetch] is what the guard
    lets through to the connection error. *)
Example fetch_failed_is_connection_error :
  makeRequest exampleRuntime
    (fun _ _ => Throw (NativeError true "fetch failed")) exampleClient
    "/chat/completions" (JObj chatRequest)
  = Throw (Typed (ConnectionError couldNotConnect "CONNECTION_ERROR"
                    (JObj [("originalError", JStr "fetch failed")]))).
Proof. reflexivity. Qed.

(** *** The order of the chat validator *)

Lemma firstOf_app (xs ys : list string) :
  firstOf (xs ++ ys) = bindC (firstOf xs) (fun _ => firstOf ys).
Proof. destruct xs; reflexivity. Qed.

Lemma rejectIf_firstOf (cond : bool) (message : string) :
  rejectIf cond message = firstOf (if cond then [message] else []).
Proof. destruct cond; reflexivity. Qed.

(** A loop that throws at the first element that fails reports the first
    violation of the whole list. *)
Lemma forEachFrom_collect {A} (f : A -> nat -> Completion unit)
    (g : A -> nat -> list string) (xs : list A) :
  (forall x i, f x i = firstOf (g x i)) ->
  forall i, forEachFrom f i xs = firstOf (collectFrom g i xs).
Proof.
  intros Hfg. induction xs as [| x xs IH]; intros i; cbn [forEachFrom collectFrom].
  - reflexivity.
  - rewrite firstOf_app, Hfg. destruct (firstOf (g x i)) as [[] |]; cbn [bindC].
    + apply IH.
    + reflexivity.
Qed.

Ltac not_an_object := cbn -[truthy]; rewrite ?orb_true_r; reflexivity.

Ltac by_truthiness :=
  cbn -[truthy];
  match goal with
  | |- context [truthy ?v] => destruct (truthy v); reflexivity
  end.

Lemma validateContentObject_first (content : JsValue) (path : string) :
  Chat.validateContentObject content path
  = firstOf (contentViolations content path).
Proof.
  unfold Chat.validateContentObject, contentViolations.
  destruct content as [| | b | n | s | xs | o]; try not_an_object.
  cbn. unfold hasKey, field.
  destruct (lookup "type" o) as [t |]; cbn; [| reflexivity].
  destruct (Chat.isValidType t); reflexivity.
Qed.

Lemma validateRole_first (key : string) (entry : JsObject) :
  Chat.validateRole key (JObj entry) = firstOf (roleViolations key entry).
Proof.
  unfold Chat.validateRole, roleViolations, Chat.inValue, getProp, hasKey,
    field, forEach.
  destruct (lookup key entry) as [v |]; [| reflexivity].
  destruct v as [| | b | n | s | contents | o];
    try reflexivity; try by_truthiness.
  cbn [andb truthy isArray negb rejectIf bindC elements].
  apply forEachFrom_collect. intros content i.
  apply validateContentObject_first.
Qed.

Lemma validateAssistants_first (entry : JsObject) :
  Chat.validateAssistants (JObj entry) = firstOf (assistantsViolations entry).
Proof.
  unfold Chat.validateAssistants, assistantsViolations, Chat.inValue, getProp,
    hasKey, field, forEach.
  destruct (lookup "assistants" entry) as [v |]; [| reflexivity].
  destruct v as [| | b | n | s | contents | o];
    try reflexivity; try by_truthiness.
  cbn [andb truthy typeof isArray negb orb rejectIf bindC String.eqb
       Ascii.eqb Bool.eqb].
  apply forEachFrom_collect. intros contents i.
  destruct contents as [| | b | n | s | cs | o']; try reflexivity.
  cbn [isArray negb rejectIf bindC elements].
  apply forEachFrom_collect. intros content j.
  apply validateContentObject_first.
Qed.

Lemma validateMessage_first (msg : JsValue) (index : nat) :
  Chat.validateMessage msg index = firstOf (entryViolations msg index).
Proof.
  unfold Chat.validateMessage, entryViolations.
  destruct msg as [| | b | n | s | xs | entry];
    try reflexivity; try not_an_object.
  cbn [truthy typeof String.eqb Ascii.eqb Bool.eqb negb orb rejectIf bindC
       Chat.inValue].
  destruct (hasKey "system" entry || hasKey "user" entry
            || hasKey "assistants" entry); cbn [negb rejectIf bindC];
    [| reflexivity].
  unfold Chat.validateMessageContent.
  rewrite !firstOf_app, !validateRole_first, validateAssistants_first.
  reflexivity.
Qed.

Lemma all_strings_by_typeof (ms : list JsValue) :
  forallb (fun model => typeof model =? "string") ms
  = forallb (fun model => match model with
                          | JStr _ => true
                          | _ => false
                          end) ms.
Proof.
  induction ms as [| m ms IH]; [reflexivity |].
  cbn [forallb]. rewrite IH. destruct m; reflexivity.
Qed.

Lemma checkModels_first (request : JsObject) :
  checkModels (field "models" request) = firstOf (modelsViolations request).
Proof.
  unfold modelsViolations.
  destruct (lookup "models" request) as [v |] eqn:Hv;
    [destruct v as [| | b | n | s | [| m ms] | o] |];
    try (rewrite (checkModels_bad request)
           by (unfold badModels; rewrite Hv; exact I);
         reflexivity).
  unfold field. rewrite Hv, checkModels_strings by discriminate.
  rewrite rejectIf_firstOf.
  replace (forallb (fun model => typeof model =? "string") (m :: ms))
    with (forallb (fun model => match model with
                                | JStr _ => true
                                | _ => false
                                end) (m :: ms)).
  - destruct (forallb _ (m :: ms)); reflexivity.
  - symmetry. apply all_strings_by_typeof.
Qed.

(** C6.  The chat validator reports the first violation of the request in
    the order [models], then [messages], its entries in sequence, and in an
    entry [system], [user], [assistants]: its outcome is the head of the
    list of all violations in that order, and success when the list is
    empty. *)
Theorem first_violation_reported (request : JsObject) :
  Chat.validateRequestParameters request = firstOf (violations request).
Proof.
  unfold Chat.validateRequestParameters, violations. cbv zeta.
  rewrite firstOf_app, checkModels_first.
  destruct (firstOf (modelsViolations request)) as [[] |]; cbn [bindC];
    [| reflexivity].
  unfold messagesViolations, field, forEach.
  destruct (lookup "messages" request) as [v |]; [| reflexivity].
  destruct v as [| | b | n | s | [| m ms] | o];
    try reflexivity; try not_an_object.
  cbn [truthy isArray elements length negb orb Nat.eqb rejectIf bindC].
  apply forEachFrom_collect. intros msg i. apply validateMessage_first.
Qed.

Example models_reported_before_messages :
  Chat.validateRequestParameters [("models", JArr []); ("messages", JNull)]
  = throwValidation modelsMessage.
Proof. reflexivity. Qed.

Example earlier_entry_reported :
  Chat.validateRequestParameters
    [("models", JArr [JStr "gpt-4o"]);
     ("messages",
      JArr [JObj [("user", JArr [textContent "hi"])];
            JObj [("tool", JArr [])];
            JNull])]
  = throwValidation
      "messages[1] must have at least one of: system, user, assistants".
Proof. reflexivity. Qed.

Example system_reported_before_user :
  Chat.validateRequestParameters
    [("models", JArr [JStr "gpt-4o"]);
     ("messages",
      JArr [JObj [("assistants", JArr []);
                  ("user", JStr "hi");
                  ("system", JArr [JObj [("type", JStr "pdf")]])]])]
  = throwValidation
      "system[0].type must be one of: text, audio_url, image_url, video_url".
Proof. reflexivity. Qed.

(** *** Typed errors in the outer layers *)

(** The request methods pass a typed error on as it is. *)
Lemma catchRequest_typed (rt : Runtime) (e : AlleAIError) :
  catchRequest rt (Typed e) = Typed e.
Proof. reflexivity. Qed.

Ltac unfold_operations :=
  cbn [perform validatorOf];
  unfold Chat.completions, Chat.combination, Chat.comparison, Chat.search,
    Image.generate, Image.edit, Audio.generate, Audio.tts, Audio.stt,
    Video.generate;
  run_op.

(** What a validator throws is what the operation throws, and the
    transport is not called. *)
Lemma validation_failure_unsent (rt : Runtime) (co : Collaborators)
    (op : Operation) (request : JsObject) (calls : list TransportCall)
    (error : Exn) :
  validatorOf rt op request = Throw error ->
  perform rt co op (mkWorld request calls)
  = (Throw error, mkWorld request calls).
Proof.
  destruct op; unfold_operations; intros H; try discriminate H;
    rewrite H; reflexivity.
Qed.

(** The chat, generate and tts operations have no handler of their own:
    once the request is accepted they call the transport once, and its
    outcome, a value or whatever it throws, is theirs. *)
Lemma accepted_request_sent_once (rt : Runtime) (co : Collaborators)
    (op : Operation) (request : JsObject) (calls : list TransportCall) :
  op <> ImageEdit -> op <> AudioStt ->
  validatorOf rt op request = Return tt ->
  exists endpoint body,
    perform rt co op (mkWorld request calls)
    = (co_makeRequest co endpoint body,
       mkWorld request (calls ++ [JsonCall endpoint body])%list).
Proof.
  intros Hedit Hstt.
  destruct op; try congruence; unfold_operations; intros H;
    rewrite ?H; do 2 eexists; reflexivity.
Qed.

(** [edit] turns whatever its [try] block throws into a validation error
    with a message of its own, a typed error of the transport included. *)
Lemma edit_wraps_thrown_errors (rt : Runtime) (co : Collaborators)
    (request : JsObject) (calls : list TransportCall) (file : ProcessedFile)
    (error : Exn) :
  Image.validateEdit request = Return tt ->
  co_processFile co (field "image_file" request) "image" = Return file ->
  (forall formData,
      co_makeFormDataRequest co "/image/edit" formData = Throw error) ->
  fst (Image.edit rt co (mkWorld request calls))
  = rethrowAsValidation rt "Failed to process image file: " error.
Proof.
  intros Hvalid Hfile Hsend. unfold Image.edit. run_op.
  rewrite Hvalid, Hfile. unfold callMakeFormDataRequest.
  rewrite Hsend. reflexivity.
Qed.

(** C3.  A 429 from the server during [edit] and [stt]: the request method
    throws a rate-limit error, and the operation throws a validation error
    instead, with another message, code [VALIDATION_ERROR] and no status.
    The specification wants the rate-limit error re-raised as it is, as
    the request methods do ([catchRequest_typed]). *)
Theorem edit_and_stt_rewrap_typed_errors :
  co_makeFormDataRequest (answering tooManyRequests) "/image/edit" []
  = Throw (Typed (RateLimitError "Rate limit exceeded" "RATE_LIMIT"
                    (JObj [("message", JStr "Rate limit exceeded");
                           ("status", ofZ 429)])))
  /\ fst (Image.edit exampleRuntime (answering tooManyRequests)
            (mkWorld editRequest []))
     = Throw (Typed (mkError CValidationError
                       "Failed to process image file: Rate limit exceeded"
                       "VALIDATION_ERROR" None JUndefined))
  /\ fst (Audio.stt exampleRuntime (answering tooManyRequests)
            (mkWorld sttRequest []))
     = Throw (Typed (mkError CValidationError " Rate limit exceeded"
                       "VALIDATION_ERROR" None JUndefined))
  /\ fst (Image.edit exampleRuntime (answering tooManyRequests)
            (mkWorld editRequest []))
     <> co_makeFormDataRequest (answering tooManyRequests) "/image/edit" [].
Proof. repeat split; try reflexivity. cbv. intros H. discriminate H. Qed.

(** *** The single-model constraint *)

Lemma checkModels_several (ms : list JsValue) :
  (1 < length ms)%nat ->
  checkModels (JArr ms)
  = if forallb (fun model => typeof model =? "string") ms
    then Return tt else throwValidation notAllStrings.
Proof.
  intros Hlen. rewrite checkModels_strings.
  - destruct (forallb _ ms); reflexivity.
  - intros ->. cbn in Hlen. lia.
Qed.

Ltac split_checks :=
  repeat match goal with
         | |- context [rejectIf ?c _] =>
             destruct c; cbn [rejectIf bindC throwValidation];
             try discriminate
         end.

(** C7.  Text-to-speech and speech-to-text with more than one model fail
    validation before anything is sent, with the message of the
    single-model check (or, when an element is no string, with the message
    about the elements), and neither is the message of the non-empty-array
    check.  With one model the single-model check lets the request
    through: whatever validation answers, it is not that message. *)
Theorem single_model_constraint (rt : Runtime) (co : Collaborators)
    (request : JsObject) (calls : list TransportCall) (ms : list JsValue) :
  field "models" request = JArr ms ->
  ((1 < length ms)%nat ->
   exists mtts mstt,
     Audio.tts co (mkWorld request calls)
     = (throwValidation mtts, mkWorld request calls)
     /\ Audio.stt rt co (mkWorld request calls)
        = (throwValidation mstt, mkWorld request calls)
     /\ mtts <> modelsMessage /\ mstt <> modelsMessage
     /\ (forallb (fun model => typeof model =? "string") ms = true ->
         mtts = Audio.ttsSingleModelMessage
         /\ mstt = Audio.sttSingleModelMessage))
  /\ (length ms = 1%nat ->
      Audio.validateTts request <> throwValidation Audio.ttsSingleModelMessage
      /\ Audio.validateStt request
         <> throwValidation Audio.sttSingleModelMessage).
Proof.
  intros Hmodels. split.
  - intros Hlen.
    unfold Audio.tts, Audio.stt, Audio.validateTts, Audio.validateStt.
    run_op. cbv zeta. rewrite Hmodels, (checkModels_several ms Hlen).
    cbn [elements].
    replace (1 <? length ms)%nat with true
      by (symmetry; apply Nat.ltb_lt; exact Hlen).
    destruct (forallb _ ms).
    + exists Audio.ttsSingleModelMessage, Audio.sttSingleModelMessage.
      repeat split; try reflexivity; discriminate.
    + exists notAllStrings, notAllStrings.
      repeat split; try reflexivity; discriminate.
  - intros Hlen.
    destruct ms as [| m [| m' ms']]; try discriminate Hlen.
    unfold Audio.validateTts, Audio.validateStt. cbv zeta.
    rewrite Hmodels, checkModels_strings by discriminate.
    cbn [elements length Nat.ltb Nat.leb].
    split; split_checks.
Qed.

(** C7 at a speech-to-text request with two models. *)
Lemma single_model_constraint_witness :
  let request :=
    [("models", JArr [JStr "whisper-1"; JStr "gpt-4o-transcribe"]);
     ("audio_file", JStr "./audio.mp3")] in
  field "models" request
  = JArr [JStr "whisper-1"; JStr "gpt-4o-transcribe"]
  /\ (1 < 2)%nat
  /\ exists mtts mstt,
       Audio.tts spy (mkWorld request [])
       = (throwValidation mtts, mkWorld request [])
       /\ Audio.stt exampleRuntime spy (mkWorld request [])
          = (throwValidation mstt, mkWorld request [])
       /\ mtts <> modelsMessage /\ mstt <> modelsMessage
       /\ (true = true ->
           mtts = Audio.ttsSingleModelMessage
           /\ mstt = Audio.sttSingleModelMessage).
Proof.
  cbv zeta. split; [reflexivity |]. split; [lia |].
  apply (proj1 (single_model_constraint exampleRuntime spy
                  [("models", JArr [JStr "whisper-1"; JStr "gpt-4o-transcribe"]);
                   ("audio_file", JStr "./audio.mp3")]
                  [] [JStr "whisper-1"; JStr "gpt-4o-transcribe"] eq_refl)).
  cbn. lia.
Defined.

(** *** Values of the wrong type in [video.generate] *)

(** On anything but a string the call of [split] throws a TypeError,
    whatever the runtime. *)
Lemma checkPair_non_string (rt : Runtime) (v : JsValue) (sep : ascii)
    (message : string) :
  (typeof v =? "string") = false ->
  exists msg, Video.checkPair rt v sep message = Throw (NativeError true msg).
Proof.
  destruct v; cbn; intros H; try discriminate H; eexists; reflexivity.
Qed.

(** C8.  [generate] of the video module with a number for [aspect_ratio],
    or for [dimension]: the validator calls [split] on it and a TypeError
    escapes, which is no typed error, where the specification wants a
    validation error.  The transport is not reached. *)
Theorem video_generate_throws_type_error :
  Video.validateGenerate exampleRuntime (videoRequest "aspect_ratio" (ofZ 169))
  = Throw (NativeError true "split is not a function")
  /\ Video.validateGenerate exampleRuntime
       (videoRequest "dimension" (ofZ 1280))
     = Throw (NativeError true "split is not a function")
  /\ Video.generate exampleRuntime spy
       (mkWorld (videoRequest "aspect_ratio" (ofZ 169)) [])
     = (Throw (NativeError true "split is not a function"),
        mkWorld (videoRequest "aspect_ratio" (ofZ 169)) [])
  /\ forall e : AlleAIError,
       Video.validateGenerate exampleRuntime
         (videoRequest "aspect_ratio" (ofZ 169))
       <> Throw (Typed e).
Proof. repeat split; try reflexivity. intros e H. discriminate H. Qed.

(** *** Validating twice, and the caller's object *)

Lemma readOnly_ret {A} (a : A) : Heap.ReadOnly (Heap.ret a).
Proof. intros h. reflexivity. Qed.

Lemma readOnly_bind {A B} (m : Heap.M A) (k : A -> Heap.M B) :
  Heap.ReadOnly m -> (forall a, Heap.ReadOnly (k a)) ->
  Heap.ReadOnly (Heap.bind m k).
Proof.
  intros Hm Hk h. unfold Heap.bind. specialize (Hm h).
  destruct (m h) as [[a | e] h']; cbn [snd] in Hm; subst h';
    [apply Hk | reflexivity].
Qed.

Lemma readOnly_load (r : Heap.Ref) : Heap.ReadOnly (Heap.load r).
Proof. intros h. reflexivity. Qed.

Lemma readOnly_rejectIf (cond : bool) (message : string) :
  Heap.ReadOnly (Heap.rejectIf cond message).
Proof. intros h. reflexivity. Qed.

Lemma readOnly_forEachFrom {A} (f : A -> nat -> Heap.M unit) (xs : list A) :
  (forall x i, Heap.ReadOnly (f x i)) ->
  forall i, Heap.ReadOnly (Heap.forEachFrom f i xs).
Proof.
  intros Hf. induction xs as [| x xs IH]; intros i; cbn [Heap.forEachFrom].
  - apply readOnly_ret.
  - apply readOnly_bind; [apply Hf | intros _; apply IH].
Qed.

(** Goals of the form [ReadOnly m], by the shape of [m]. *)
Ltac read_only :=
  repeat first
    [ apply readOnly_ret
    | apply readOnly_load
    | apply readOnly_rejectIf
    | apply readOnly_bind; [| intros ?]
    | apply readOnly_forEachFrom; intros ? ?
    | match goal with
      | |- Heap.ReadOnly (if ?b then _ else _) => destruct b
      | |- Heap.ReadOnly (match ?v with Heap.VRef _ => _ | _ => _ end) =>
          destruct v
      end ].

Lemma readOnly_isArray (v : Heap.Value) : Heap.ReadOnly (Heap.isArray v).
Proof. unfold Heap.isArray. read_only. Qed.

Lemma readOnly_elements (v : Heap.Value) : Heap.ReadOnly (Heap.elements v).
Proof. unfold Heap.elements. read_only. Qed.

Lemma readOnly_has (k : string) (v : Heap.Value) :
  Heap.ReadOnly (Heap.has k v).
Proof. unfold Heap.has. read_only. Qed.

Lemma readOnly_get (v : Heap.Value) (k : string) :
  Heap.ReadOnly (Heap.get v k).
Proof. unfold Heap.get. read_only. Qed.

Lemma readOnly_values (v : Heap.Value) : Heap.ReadOnly (Heap.values v).
Proof. unfold Heap.values. read_only. Qed.

Create HintDb read_only.

#[local] Hint Resolve readOnly_isArray readOnly_elements readOnly_has
  readOnly_get readOnly_values : read_only.










(** [store] is what the validator never does: it changes the heap. *)
Example store_changes_heap :
  snd (Heap.store 1 (Heap.Array []) chatHeap) 1 <> chatHeap 1
  /\ ~ Heap.ReadOnly (Heap.store 1 (Heap.Array [])).
Proof.
  split; [discriminate |].
  intros H. specialize (H chatHeap).
  apply (f_equal (fun h => h 1%nat)) in H. discriminate H.
Qed.































(** *** The messages list *)

Lemma messages_bad (request : JsObject) :
  badMessages request ->
  rejectIf (negb (truthy (field "messages" request))
            || negb (isArray (field "messages" request))
            || (length (elements (field "messages" request)) =? 0)%nat)
    "messages must be a non-empty array"
  = throwValidation "messages must be a non-empty array".
Proof.
  unfold badMessages, field.
  destruct (lookup "messages" request) as [[| | b | n | s | [| x xs] | o] |];
    intros H; try reflexivity; try contradiction; not_an_object.
Qed.

(** C10, as the code has it.  A chat request whose [models] pass the
    model-list check and whose [messages] field is missing, not an array
    or empty is rejected by completions, combination and search with
    [messages must be a non-empty array], and nothing is sent. *)
Theorem messages_must_be_nonempty_array (rt : Runtime) (co : Collaborators)
    (op : Operation) (request : JsObject) :
  In op [ChatCompletions; ChatCombination; ChatSearch] ->
  checkModels (field "models" request) = Return tt ->
  badMessages request ->
  rejectsUnsent (perform rt co op) "messages must be a non-empty array"
    request.
Proof.
  intros Hop Hmodels Hbad calls.
  assert (Hv : Chat.validateRequestParameters request
               = throwValidation "messages must be a non-empty array").
  { unfold Chat.validateRequestParameters. cbv zeta.
    rewrite Hmodels. cbn [bindC]. rewrite (messages_bad request Hbad).
    reflexivity. }
  cbn [In] in Hop.
  destruct Hop as [<- | [<- | [<- | []]]]; cbn [perform];
    unfold Chat.completions, Chat.combination, Chat.search; run_op;
    rewrite Hv; reflexivity.
Qed.

(** C10 at a search request without [messages]. *)
Lemma messages_must_be_nonempty_array_witness :
  In ChatSearch [ChatCompletions; ChatCombination; ChatSearch]
  /\ checkModels (field "models" [("models", JArr [JStr "gpt-4o"])])
     = Return tt
  /\ badMessages [("models", JArr [JStr "gpt-4o"])]
  /\ rejectsUnsent (perform exampleRuntime spy ChatSearch)
       "messages must be a non-empty array" [("models", JArr [JStr "gpt-4o"])].
Proof.
  split; [cbn; tauto |]. split; [reflexivity |]. split; [exact I |].
  apply (messages_must_be_nonempty_array exampleRuntime spy ChatSearch
           [("models", JArr [JStr "gpt-4o"])]);
    [cbn; tauto | reflexivity | exact I].
Defined.

(** C10, as stated, fails: when [models] is no good either, the message
    is the one of the model-list check. *)
Lemma bad_models_hide_bad_messages :
  badMessages [("models", JArr []); ("messages", JArr [])]
  /\ Chat.validateRequestParameters
       [("models", JArr []); ("messages", JArr [])]
     = throwValidation modelsMessage
  /\ ~ rejectsUnsent (perform exampleRuntime spy ChatCompletions)
         "messages must be a non-empty array"
         [("models", JArr []); ("messages", JArr [])].
Proof.
  split; [exact I |]. split; [reflexivity |].
  intros H. specialize (H []). cbv in H. discriminate H.
Qed.

(** *** Scenarios of the specification *)

(** A 400 with the body [{"message":"bad field"}] is an invalid-request
    error with that message. *)
Example bad_field_round_trip :
  handleErrorResponse exampleRuntime (Response.make 400 (Some badFieldBody))
  = Typed (InvalidRequestError "bad field" "INVALID_REQUEST"
             (JObj [("message", JStr "bad field"); ("status", ofZ 400)])).
Proof. reflexivity. Qed.

(** A body with a doctype has the fallback message at any status. *)
Lemma doctype_body_message (rt : Runtime) (status : Z) (errorBody : string) :
  includes "<!DOCTYPE html>" errorBody = true ->
  handleErrorResponse rt (Response.make status (Some errorBody))
  = Typed (classifiedError rt (Response.make status (Some errorBody))
             unknownFormat).
Proof.
  intros H. rewrite handleErrorResponse_classified.
  unfold deriveErrorMessage. cbn [Response.text].
  rewrite H. reflexivity.
Qed.

(** A success status with a body that is no JSON is a generic API error
    with code [INVALID_RESPONSE] and the status of the response. *)
Lemma undecodable_success_body (rt : Runtime) (r : Response.t) :
  Response.ok r = true ->
  Response.json rt r = None ->
  readResponse rt r
  = Throw (Typed (APIError "Server returned invalid JSON response"
                    "INVALID_RESPONSE" (Some (Response.status r))
                    (JObj [("message", JStr "Invalid JSON response")]))).
Proof.
  intros Hok Hjson. unfold readResponse. rewrite Hok, Hjson. reflexivity.
Qed.

Example audio_generate_accepts :
  Audio.validateGenerate [("models", JArr [JStr "m1"]); ("prompt", JStr "hello")]
  = Return tt.
Proof. reflexivity. Qed.

Example audio_generate_rejects_empty_models :
  Audio.validateGenerate [("models", JArr []); ("prompt", JStr "hello")]
  = throwValidation modelsMessage.
Proof. reflexivity. Qed.

Example chat_request_sent_once :
  Chat.completions spy (mkWorld chatRequest [])
  = (Return (JObj []),
     mkWorld chatRequest [JsonCall "/chat/completions" (JObj chatRequest)]).
Proof. reflexivity. Qed.

(* ------------------------------------------------------------------ *)
(** *** What each operation accepts *)
(* ------------------------------------------------------------------ *)

Lemma rejectIf_ok (cond : bool) (message : string) :
  rejectIf cond message = Return tt <-> cond = false.
Proof. destruct cond; cbn; split; intros H; try reflexivity; discriminate H. Qed.

Lemma bindC_ok (c : Completion unit) (k : Completion unit) :
  bindC c (fun _ => k) = Return tt <-> c = Return tt /\ k = Return tt.
Proof.
  destruct c as [[] | e]; cbn; split.
  - intros H; split; [reflexivity | exact H].
  - intros [_ H]; exact H.
  - intros H; discriminate H.
  - intros [H _]; discriminate H.
Qed.

(** *** White space *)

Lemma dropPrefix_some (p s rest : string) :
  dropPrefix p s = Some rest <-> s = p ++ rest.
Proof.
  revert s. induction p as [| a p IH]; intros s; cbn.
  - split; [intros H; injection H as ->; reflexivity | intros ->; reflexivity].
  - destruct s as [| b s]; [split; discriminate |].
    destruct (Ascii.eqb_spec a b) as [-> | Hab].
    + rewrite IH. split; [intros ->; reflexivity | intros H].
      injection H as ->. reflexivity.
    + split; [discriminate | intros H]. injection H as <- _. contradiction.
Qed.

Lemma length_append (p s : string) :
  String.length (p ++ s) = (String.length p + String.length s)%nat.
Proof. induction p as [| a p IH]; cbn; [reflexivity | rewrite IH; reflexivity]. Qed.

(** The head that [dropWhiteSpace] removes is a white-space character. *)
Lemma dropWhiteSpace_some (s rest : string) :
  dropWhiteSpace s = Some rest ->
  exists w, In w whiteSpaces /\ s = w ++ rest.
Proof.
  unfold dropWhiteSpace. induction whiteSpaces as [| w ws IH]; cbn.
  - discriminate.
  - destruct (dropPrefix w s) as [r |] eqn:Hw.
    + intros H. injection H as ->. exists w. split; [left; reflexivity |].
      apply dropPrefix_some. exact Hw.
    + intros H. destruct (IH H) as (w' & Hin & Heq). exists w'. auto.
Qed.

(** No white-space character is the empty string or the head of
    another: the one at the head of a string is the one removed. *)
Lemma dropWhiteSpace_head (w rest : string) :
  In w whiteSpaces -> dropWhiteSpace (w ++ rest) = Some rest.
Proof.
  intros Hin. cbn in Hin.
  repeat destruct Hin as [<- | Hin]; try reflexivity; contradiction.
Qed.

Lemma whiteSpace_length (w : string) :
  In w whiteSpaces -> (1 <= String.length w)%nat.
Proof.
  intros Hin. cbn in Hin.
  repeat destruct Hin as [<- | Hin]; cbn; try lia; contradiction.
Qed.

Lemma blank_head (w rest : string) :
  In w whiteSpaces -> Blank (w ++ rest) <-> Blank rest.
Proof.
  intros Hin. split; [| apply BlankMore; exact Hin].
  intros H. inversion H as [Hempty | w' s' Hin' Hs' Heq].
  - pose proof (whiteSpace_length w Hin) as Hlen.
    pose proof (f_equal String.length Hempty) as Hl.
    rewrite length_append in Hl. cbn in Hl. lia.
  - pose proof (dropWhiteSpace_head w' s' Hin') as H1.
    rewrite Heq, (dropWhiteSpace_head w rest Hin) in H1.
    injection H1 as <-. exact Hs'.
Qed.

Lemma trimStartFrom_empty (steps : nat) (s : string) :
  (String.length s <= steps)%nat ->
  trimStartFrom steps s = EmptyString <-> Blank s.
Proof.
  revert s. induction steps as [| steps IH]; intros s Hlen.
  - destruct s; [| cbn in Hlen; lia]. cbn. split; [constructor | reflexivity].
  - cbn [trimStartFrom]. destruct (dropWhiteSpace s) as [rest |] eqn:Hdrop.
    + destruct (dropWhiteSpace_some s rest Hdrop) as (w & Hin & ->).
      rewrite (blank_head w rest Hin). apply IH.
      pose proof (whiteSpace_length w Hin). rewrite length_append in Hlen. lia.
    + split; [intros ->; constructor |].
      intros H. inversion H as [Hempty | w s' Hin Hs' Heq];
        [reflexivity |].
      rewrite <- Heq, (dropWhiteSpace_head w s' Hin) in Hdrop.
      discriminate Hdrop.
Qed.

(** [trim] leaves nothing exactly of the strings of white space. *)
Lemma trimStart_empty (s : string) : trimStart s = EmptyString <-> Blank s.
Proof. apply trimStartFrom_empty. apply le_n. Qed.

Lemma trimIsEmpty_blank (s : string) : trimIsEmpty s = true <-> Blank s.
Proof. unfold trimIsEmpty. rewrite String.eqb_eq. apply trimStart_empty. Qed.

Lemma trimIsEmpty_false (s : string) : trimIsEmpty s = false <-> ~ Blank s.
Proof.
  rewrite <- trimIsEmpty_blank. destruct (trimIsEmpty s); split; congruence.
Qed.

(** What [trimStart] leaves has no white space at its head. *)
Lemma trimStartFrom_head (steps : nat) (s : string) :
  (String.length s <= steps)%nat ->
  dropWhiteSpace (trimStartFrom steps s) = None.
Proof.
  revert s. induction steps as [| steps IH]; intros s Hlen.
  - destruct s; [reflexivity | cbn in Hlen; lia].
  - cbn [trimStartFrom]. destruct (dropWhiteSpace s) as [rest |] eqn:Hdrop;
      [| exact Hdrop].
    destruct (dropWhiteSpace_some s rest Hdrop) as (w & Hin & ->).
    apply IH. pose proof (whiteSpace_length w Hin).
    rewrite length_append in Hlen. lia.
Qed.

Lemma trimEnd_empty (s : string) :
  trimEnd s = EmptyString <-> trimIsEmpty s = true.
Proof.
  destruct s as [| c s]; cbn [trimEnd]; [split; reflexivity |].
  destruct (trimIsEmpty (String c s)); split; congruence.
Qed.

(** [s.trim()] is empty exactly when [trimIsEmpty] says so. *)
Lemma trim_empty (s : string) :
  trim s = EmptyString <-> trimIsEmpty s = true.
Proof.
  unfold trim. rewrite trimEnd_empty. unfold trimIsEmpty at 2.
  rewrite String.eqb_eq. split.
  - intros H. apply trimIsEmpty_blank in H.
    inversion H as [Hempty | w s' Hin Hs' Heq]; [reflexivity |].
    pose proof (trimStartFrom_head (String.length s) s (le_n _)) as Hhead.
    fold (trimStart s) in Hhead.
    rewrite <- Heq, (dropWhiteSpace_head w s' Hin) in Hhead.
    discriminate Hhead.
  - intros ->. reflexivity.
Qed.

Lemma notNonEmptyString_false (v : JsValue) :
  notNonEmptyString v = false <-> NonBlank v.
Proof.
  unfold notNonEmptyString, NonBlank. split.
  - intros H. apply orb_false_elim in H as [H Htrim].
    apply orb_false_elim in H as [_ Htype].
    destruct v; try discriminate Htype.
    eexists; split; [reflexivity |]. apply trimIsEmpty_false. exact Htrim.
  - intros (s & -> & Hc). pose proof (proj2 (trimIsEmpty_false s) Hc) as Ht.
    cbn [truthy typeof]. rewrite Ht.
    destruct s as [| a s]; [exfalso; apply Hc; constructor |]. reflexivity.
Qed.

(** A string that is nothing but a no-break space, U+00A0, is turned
    away like an empty one. *)
Example no_break_space_prompt_rejected :
  Image.validateGenerate
    [("models", JArr [JStr "dall-e-3"]); ("prompt", JStr (utf8 160))]
  = throwValidation "prompt must be a non-empty string"
  /\ Video.get_video_status (JStr (utf8 160 ++ utf8 8232 ++ utf8 65279))
     = throwValidation "request_id must be a non-empty string"
  /\ trim (utf8 160 ++ "/srv/app/photo.png" ++ utf8 12288)
     = "/srv/app/photo.png".
Proof. repeat split; reflexivity. Qed.

Lemma checkModels_ok (v : JsValue) :
  checkModels v = Return tt <-> ModelList v.
Proof.
  unfold ModelList. split.
  - intros H. destruct v as [| | b | n | s | [| m ms] | o];
      try (exfalso; revert H; unfold checkModels; cbn -[truthy];
           rewrite ?orb_true_r; cbn; discriminate).
    rewrite checkModels_strings in H by discriminate.
    apply rejectIf_ok, negb_false_iff in H.
    exists m, ms. split; [reflexivity |].
    apply Forall_forall. intros x Hin.
    rewrite forallb_forall in H. specialize (H x Hin).
    destruct (typeof_string x H) as [s ->]. eexists; reflexivity.
  - intros (m & ms & -> & Hall).
    rewrite checkModels_strings by discriminate.
    apply rejectIf_ok, negb_false_iff, forallb_forall.
    intros x Hin. rewrite Forall_forall in Hall.
    destruct (Hall x Hin) as [s ->]. reflexivity.
Qed.

Lemma isInteger_iff (v : JsValue) :
  (typeof v =? "number") && isInteger v = true <-> IsInteger v.
Proof.
  unfold IsInteger. split.
  - intros H. apply andb_prop in H as [_ H].
    destruct v as [| | | [| |q] | | |]; try discriminate H.
    cbn in H. apply Z.eqb_eq in H.
    exists q, (Qnum q / Zpos (Qden q))%Z. split; [reflexivity |].
    unfold Qeq. cbn. rewrite Z.mul_1_r.
    rewrite Z.mul_comm. apply Z_div_exact_full_2; [lia | exact H].
  - intros (q & z & -> & Hq). cbn. apply Z.eqb_eq.
    unfold Qeq in Hq. cbn in Hq. rewrite Z.mul_1_r in Hq. rewrite Hq.
    apply Z.mod_mul. lia.
Qed.

Lemma integerFrom_iff (k : Z) (v : JsValue) :
  negb (typeof v =? "number") || negb (isInteger v) || ltZ v k = false
  <-> IntegerFrom k v.
Proof.
  unfold IntegerFrom. split.
  - intros H. apply orb_false_elim in H as [H Hlt].
    apply orb_false_elim in H as [Ht Hi].
    apply negb_false_iff in Ht, Hi.
    destruct (proj1 (isInteger_iff v)) as (q & z & -> & Hq).
    { rewrite Ht, Hi. reflexivity. }
    exists q, z. split; [reflexivity |]. split; [exact Hq |].
    cbn in Hlt. apply negb_false_iff, Qle_bool_iff in Hlt.
    rewrite Hq in Hlt. rewrite Zle_Qle. exact Hlt.
  - intros (q & z & -> & Hq & Hk).
    pose proof (proj2 (isInteger_iff (JNum (Finite q)))) as Hi.
    rewrite andb_true_iff in Hi. destruct Hi as [Ht Hi].
    { exists q, z. split; [reflexivity | exact Hq]. }
    rewrite Ht, Hi. cbn [negb orb ltZ]. apply negb_false_iff, Qle_bool_iff.
    rewrite Hq, <- Zle_Qle. exact Hk.
Qed.

Lemma notBelowZero_iff (v : JsValue) :
  negb (typeof v =? "number") || leZ v 0 = false <-> NotBelowZero v.
Proof.
  unfold NotBelowZero. split.
  - intros H. apply orb_false_elim in H as [Ht Hle].
    destruct v as [| | | [| neg | q] | | |]; try discriminate Ht.
    + left; reflexivity.
    + right; left. cbn in Hle. subst. reflexivity.
    + right; right. exists q. split; [reflexivity |].
      cbn in Hle. apply Qnot_le_lt. intros Hq.
      apply Qle_bool_iff in Hq. change (inject_Z 0) with 0%Q in Hle.
      rewrite Hq in Hle. discriminate Hle.
  - intros [-> | [-> | (q & -> & Hq)]]; try reflexivity.
    cbn. destruct (Qle_bool q (inject_Z 0)) eqn:E; [| reflexivity].
    apply Qle_bool_iff in E. change (inject_Z 0) with 0%Q in E.
    exfalso. exact (Qlt_not_le _ _ Hq E).
Qed.

Lemma objectTyped_iff (v : JsValue) :
  (typeof v =? "object") = true <-> ObjectTyped v.
Proof.
  unfold ObjectTyped. split.
  - destruct v; cbn; intros H; try discriminate H;
      [left; reflexivity | right; left; eexists; reflexivity
       | right; right; eexists; reflexivity].
  - intros [-> | [[xs ->] | [o ->]]]; reflexivity.
Qed.

Lemma withDefault_defined (v d : JsValue) :
  isUndefined d = false -> isUndefined (withDefault v d) = false.
Proof. destruct v; cbn; auto. Qed.

Lemma nullable_iff (v : JsValue) (check : bool) (P : Prop) :
  isUndefined v = false ->
  (check = false <-> P) ->
  negb (isNull v) && negb (isUndefined v) && check = false
  <-> v = JNull \/ P.
Proof.
  intros Hu Hc. rewrite Hu. cbn [negb]. rewrite andb_true_r. split.
  - intros H. destruct v; cbn in H; try (right; apply Hc; exact H).
    left; reflexivity.
  - intros [-> | HP]; [reflexivity |].
    apply Hc in HP. rewrite HP. apply andb_false_r.
Qed.

Lemma isString_iff (v : JsValue) :
  negb (typeof v =? "string") = false <-> IsString v.
Proof.
  unfold IsString. rewrite negb_false_iff. split.
  - apply typeof_string.
  - intros [s ->]. reflexivity.
Qed.

Lemma isInteger_check_iff (v : JsValue) :
  negb (typeof v =? "number") || negb (isInteger v) = false <-> IsInteger v.
Proof.
  rewrite <- isInteger_iff, orb_false_iff, !negb_false_iff, andb_true_iff.
  reflexivity.
Qed.

Lemma object_not_null_iff (v : JsValue) :
  negb (typeof v =? "object") || isNull v = false
  <-> (exists xs, v = JArr xs) \/ (exists o, v = JObj o).
Proof.
  split.
  - destruct v; cbn; intros H; try discriminate H;
      [left | right]; eexists; reflexivity.
  - intros [[xs ->] | [o ->]]; reflexivity.
Qed.

(** X1. [image.generate] lets a request through its checks exactly when
    [models] is a non-empty array of strings, [prompt] is a string with a
    character that is no white space, [width] and [height] (1024 when left
    out) are integers of at least 64, [n] (1 when left out) is an integer
    of at least 1, [seed] is left out, null or an integer, [style_preset]
    is left out, null or a string, and [model_specific_params] (an empty
    object when left out) is an array or an object. *)
Theorem image_generate_accepts_iff (request : JsObject) :
  Image.validateGenerate request = Return tt
  <-> ModelList (field "models" request)
      /\ NonBlank (field "prompt" request)
      /\ IntegerFrom 64 (withDefault (field "width" request) (ofZ 1024))
      /\ IntegerFrom 64 (withDefault (field "height" request) (ofZ 1024))
      /\ IntegerFrom 1 (withDefault (field "n" request) (ofZ 1))
      /\ (withDefault (field "seed" request) JNull = JNull
          \/ IsInteger (withDefault (field "seed" request) JNull))
      /\ (withDefault (field "style_preset" request) JNull = JNull
          \/ IsString (withDefault (field "style_preset" request) JNull))
      /\ ((exists xs, withDefault (field "model_specific_params" request)
                        (JObj []) = JArr xs)
          \/ (exists o, withDefault (field "model_specific_params" request)
                          (JObj []) = JObj o)).
Proof.
  unfold Image.validateGenerate. cbv zeta.
  rewrite !bindC_ok, !rejectIf_ok, checkModels_ok, notNonEmptyString_false.
  rewrite (nullable_iff _ _ _ (withDefault_defined _ JNull eq_refl)
             (isInteger_check_iff _)).
  rewrite (nullable_iff _ _ _ (withDefault_defined _ JNull eq_refl)
             (isString_iff _)).
  rewrite !withDefault_defined by reflexivity. cbn [negb andb].
  rewrite !integerFrom_iff, object_not_null_iff.
  tauto.
Qed.

Lemma object_default_iff (v : JsValue) :
  negb (isUndefined (withDefault v (JObj [])))
  && negb (typeof (withDefault v (JObj [])) =? "object") = false
  <-> ObjectTyped (withDefault v (JObj [])).
Proof.
  rewrite withDefault_defined by reflexivity. cbn [negb andb].
  rewrite negb_false_iff. apply objectTyped_iff.
Qed.

Lemma single_model_iff (v : JsValue) :
  checkModels v = Return tt /\ (1 <? length (elements v))%nat = false
  <-> SingleModel v.
Proof.
  rewrite checkModels_ok. unfold ModelList, SingleModel. split.
  - intros [(m & ms & -> & Hall) Hlen]. cbn in Hlen.
    destruct ms as [| m' ms]; [| discriminate Hlen].
    inversion Hall as [| ? ? [s ->] _]. exists s. reflexivity.
  - intros [m ->]. split; [| reflexivity].
    exists (JStr m), []. split; [reflexivity |].
    constructor; [eexists; reflexivity | constructor].
Qed.

(** X2. [image.edit] lets a request through its checks exactly when [models]
    is a non-empty array of strings and [prompt] and [image_file] are
    strings with a character that is no white space. *)
Theorem image_edit_accepts_iff (request : JsObject) :
  Image.validateEdit request = Return tt
  <-> ModelList (field "models" request)
      /\ NonBlank (field "prompt" request)
      /\ NonBlank (field "image_file" request).
Proof.
  unfold Image.validateEdit. cbv zeta.
  rewrite !bindC_ok, !rejectIf_ok, checkModels_ok, !notNonEmptyString_false.
  tauto.
Qed.

(** X3. [audio.generate] lets a request through its checks exactly when
    [models] is a non-empty array of strings, [prompt] is a string with a
    character that is no white space, and [model_specific_params] (an
    empty object when left out) has [typeof] ["object"]: null and arrays
    pass as objects do. *)
Theorem audio_generate_accepts_iff (request : JsObject) :
  Audio.validateGenerate request = Return tt
  <-> ModelList (field "models" request)
      /\ NonBlank (field "prompt" request)
      /\ ObjectTyped (withDefault (field "model_specific_params" request)
                        (JObj [])).
Proof.
  unfold Audio.validateGenerate. cbv zeta.
  rewrite !bindC_ok, !rejectIf_ok, checkModels_ok, notNonEmptyString_false,
    object_default_iff.
  tauto.
Qed.

Lemma voice_iff (v : JsValue) :
  truthy v && negb (typeof v =? "string") = false
  <-> truthy v = false \/ IsString v.
Proof.
  rewrite andb_false_iff, isString_iff. reflexivity.
Qed.

(** X4. [audio.tts] lets a request through its checks exactly when [models]
    is an array of one string, [prompt] is a string with a character that
    is no white space, [voice] (["nova"] when left out) is falsy or a
    string, and [model_specific_params] (an empty object when left out) is
    null, an array or an object. *)
Theorem tts_accepts_iff (request : JsObject) :
  Audio.validateTts request = Return tt
  <-> SingleModel (field "models" request)
      /\ NonBlank (field "prompt" request)
      /\ (truthy (withDefault (field "voice" request) (JStr "nova")) = false
          \/ IsString (withDefault (field "voice" request) (JStr "nova")))
      /\ ObjectTyped (withDefault (field "model_specific_params" request)
                        (JObj [])).
Proof.
  unfold Audio.validateTts. cbv zeta.
  rewrite !bindC_ok, !rejectIf_ok, notNonEmptyString_false,
    object_default_iff, voice_iff, <- single_model_iff.
  tauto.
Qed.

(** X5. [audio.stt] lets a request through its checks exactly when [models]
    is an array of one string, [audio_file] is a string with a character
    that is no white space, and [model_specific_params] (an empty object
    when left out) is null, an array or an object. *)
Theorem stt_accepts_iff (request : JsObject) :
  Audio.validateStt request = Return tt
  <-> SingleModel (field "models" request)
      /\ NonBlank (field "audio_file" request)
      /\ ObjectTyped (withDefault (field "model_specific_params" request)
                        (JObj [])).
Proof.
  unfold Audio.validateStt. cbv zeta.
  rewrite !bindC_ok, !rejectIf_ok, notNonEmptyString_false,
    object_default_iff, <- single_model_iff.
  tauto.
Qed.

Lemma checkPair_ok (rt : Runtime) (v : JsValue) (sep : ascii)
    (message : string) :
  Video.checkPair rt v sep message = Return tt <-> PairText rt sep v.
Proof.
  unfold Video.checkPair, PairText. split.
  - destruct v as [| | b | n | s | xs | o]; cbn [Video.callSplit bindC];
      try discriminate.
    rewrite rejectIf_ok, !orb_false_iff, !String.eqb_neq.
    intros [[[H0 H1] H2] H3]. exists s. auto.
  - intros (s & -> & H0 & H1 & H2 & H3). cbn [Video.callSplit bindC].
    rewrite rejectIf_ok, !orb_false_iff, !String.eqb_neq. auto.
Qed.

Lemma boolean_iff (v : JsValue) :
  negb (typeof v =? "boolean") = false <-> exists b, v = JBool b.
Proof.
  rewrite negb_false_iff. split.
  - destruct v; cbn; intros H; try discriminate H. eexists; reflexivity.
  - intros [b ->]. reflexivity.
Qed.

Lemma optional_iff (v : JsValue) (check : bool) (P : Prop) :
  (check = false <-> P) ->
  negb (isUndefined v) && check = false <-> v = JUndefined \/ P.
Proof.
  intros Hc. split.
  - destruct v; cbn [isUndefined negb andb]; intros H;
      try (right; apply Hc; exact H). left; reflexivity.
  - intros [-> | HP]; [reflexivity |]. apply Hc in HP. rewrite HP.
    apply andb_false_r.
Qed.

Lemma optional_pair_iff (rt : Runtime) (v : JsValue) (sep : ascii)
    (message : string) :
  (if negb (isUndefined v) then Video.checkPair rt v sep message
   else Return tt) = Return tt
  <-> v = JUndefined \/ PairText rt sep v.
Proof.
  destruct (isUndefined v) eqn:Hu; cbn [negb].
  - destruct v; try discriminate Hu. split; [left; reflexivity | reflexivity].
  - rewrite checkPair_ok. split; [right; assumption |].
    intros [-> | H]; [discriminate Hu | exact H].
Qed.

(** X6. The checks of [video.generate] end without an exception exactly when
    [models] is a non-empty array of strings, [prompt] is a string with a
    character that is no white space, [duration] and [fps] (6 and 24 when
    left out) are numbers that are not [<= 0] (NaN and plus infinity
    pass), [loop] (false when left out) is a boolean, [aspect_ratio]
    (["16:9"] when left out) and [dimension], if given, are strings whose
    first two pieces around [:] and [x] are not empty and are numbers,
    [seed] is left out or an integer, and [model_specific_params] (an
    empty object when left out) is null, an array or an object. *)
Theorem video_generate_accepts_iff (rt : Runtime) (request : JsObject) :
  Video.validateGenerate rt request = Return tt
  <-> ModelList (field "models" request)
      /\ NonBlank (field "prompt" request)
      /\ NotBelowZero (withDefault (field "duration" request) (ofZ 6))
      /\ (exists b, withDefault (field "loop" request) (JBool false) = JBool b)
      /\ PairText rt ":" (withDefault (field "aspect_ratio" request)
                            (JStr "16:9"))
      /\ NotBelowZero (withDefault (field "fps" request) (ofZ 24))
      /\ (field "dimension" request = JUndefined
          \/ PairText rt "x" (field "dimension" request))
      /\ (field "seed" request = JUndefined
          \/ IsInteger (field "seed" request))
      /\ ObjectTyped (withDefault (field "model_specific_params" request)
                        (JObj [])).
Proof.
  unfold Video.validateGenerate. cbv zeta.
  rewrite !bindC_ok, !rejectIf_ok, checkModels_ok, notNonEmptyString_false,
    object_default_iff, !optional_pair_iff.
  rewrite (optional_iff _ _ _ (isInteger_check_iff _)).
  rewrite !withDefault_defined by reflexivity. cbn [negb andb].
  rewrite !notBelowZero_iff, boolean_iff.
  assert (Hdef : withDefault (field "aspect_ratio" request) (JStr "16:9")
                 <> JUndefined).
  { intros H. pose proof (withDefault_defined (field "aspect_ratio" request)
                            (JStr "16:9") eq_refl) as Hu.
    rewrite H in Hu. discriminate Hu. }
  tauto.
Qed.

(** *** The chat validator, in full *)

Lemma forEachFrom_ok {A} (f : A -> nat -> Completion unit) (P : A -> Prop)
    (xs : list A) :
  (forall x i, f x i = Return tt <-> P x) ->
  forall i, forEachFrom f i xs = Return tt <-> Forall P xs.
Proof.
  intros Hf. induction xs as [| x xs IH]; intros i; cbn [forEachFrom].
  - split; [constructor | reflexivity].
  - rewrite bindC_ok, Hf, IH. split.
    + intros [Hx Hxs]. constructor; assumption.
    + intros H. inversion H. split; assumption.
Qed.

Lemma isValidType_iff (t : JsValue) :
  Chat.isValidType t = true <-> exists s, t = JStr s /\ In s Chat.validTypes.
Proof.
  split.
  - destruct t; cbn [Chat.isValidType]; try discriminate.
    rewrite existsb_exists. intros (x & Hin & Hx).
    apply String.eqb_eq in Hx. subst. eexists; split; [reflexivity | exact Hin].
  - intros (s & -> & Hin). cbn [Chat.isValidType]. apply existsb_exists.
    exists s. split; [exact Hin | apply String.eqb_refl].
Qed.

Lemma validateContentObject_ok (content : JsValue) (path : string) :
  Chat.validateContentObject content path = Return tt <-> ValidContent content.
Proof.
  unfold Chat.validateContentObject, ValidContent.
  rewrite bindC_ok, !rejectIf_ok, negb_false_iff, isValidType_iff. split.
  - intros [Hobj (s & Ht & Hin)].
    destruct content as [| | b | n | s' | xs | o];
      try (revert Hobj; cbn -[truthy]; rewrite ?orb_true_r; discriminate).
    cbn [getProp] in Ht. unfold field in Ht.
    destruct (lookup "type" o) as [t |] eqn:Hl; [| discriminate Ht].
    subst t. exists o, s. auto.
  - intros (o & t & -> & Hl & Hin). split.
    + cbn. unfold hasKey. rewrite Hl. reflexivity.
    + exists t. split; [| exact Hin]. cbn [getProp]. unfold field.
      rewrite Hl. reflexivity.
Qed.

Lemma hasKey_field_truthy (key : string) (entry : JsObject) :
  hasKey key entry && truthy (field key entry) = truthy (field key entry).
Proof.
  unfold hasKey, field. destruct (lookup key entry); reflexivity.
Qed.

Lemma validateRole_ok (key : string) (entry : JsObject) :
  Chat.validateRole key (JObj entry) = Return tt <-> ValidRole key entry.
Proof.
  unfold Chat.validateRole, ValidRole, forEach.
  cbn [Chat.inValue getProp]. rewrite hasKey_field_truthy.
  destruct (truthy (field key entry)) eqn:Ht.
  - rewrite bindC_ok, rejectIf_ok, negb_false_iff.
    rewrite (forEachFrom_ok _ ValidContent)
      by (intros; apply validateContentObject_ok).
    split.
    + intros [Harr Hall]. right.
      destruct (field key entry); try discriminate Harr.
      eexists; split; [reflexivity | exact Hall].
    + intros [H | (contents & Heq & Hall)]; [discriminate H |].
      rewrite Heq. split; [reflexivity | exact Hall].
  - split; [left; reflexivity | reflexivity].
Qed.

Lemma validateAssistants_ok (entry : JsObject) :
  Chat.validateAssistants (JObj entry) = Return tt <-> ValidAssistants entry.
Proof.
  unfold Chat.validateAssistants, ValidAssistants, forEach.
  cbn [Chat.inValue getProp]. rewrite hasKey_field_truthy.
  destruct (truthy (field "assistants" entry)) eqn:Ht.
  - rewrite bindC_ok, rejectIf_ok.
    rewrite (forEachFrom_ok _ (fun contents =>
               exists cs, contents = JArr cs /\ Forall ValidContent cs)).
    + split.
      * intros [Hobj Hall]. right.
        destruct (field "assistants" entry);
          try discriminate Hobj; try discriminate Ht.
        eexists; split; [reflexivity | exact Hall].
      * intros [H | (o & Heq & Hall)]; [discriminate H |].
        rewrite Heq. split; [reflexivity | exact Hall].
    + intros contents i. rewrite bindC_ok, rejectIf_ok, negb_false_iff.
      unfold forEach.
      rewrite (forEachFrom_ok _ ValidContent)
        by (intros; apply validateContentObject_ok).
      split.
      * intros [Harr Hall]. destruct contents; try discriminate Harr.
        eexists; split; [reflexivity | exact Hall].
      * intros (cs & -> & Hall). split; [reflexivity | exact Hall].
  - split; [left; reflexivity | reflexivity].
Qed.

Lemma validateMessage_ok (msg : JsValue) (index : nat) :
  Chat.validateMessage msg index = Return tt <-> ValidEntry msg.
Proof.
  unfold Chat.validateMessage, Chat.validateMessageContent, ValidEntry.
  rewrite !bindC_ok, !rejectIf_ok. split.
  - intros (Hobj & Hkey & Hs & Hu & Ha).
    destruct msg as [| | b | n | s | xs | entry];
      try (revert Hobj; cbn -[truthy]; rewrite ?orb_true_r; discriminate);
      try discriminate Hkey.
    exists entry. split; [reflexivity |].
    apply validateRole_ok in Hs, Hu. apply validateAssistants_ok in Ha.
    cbn [Chat.inValue] in Hkey. apply negb_false_iff in Hkey.
    rewrite !orb_true_iff in Hkey. tauto.
  - intros (entry & -> & Hkey & Hs & Hu & Ha).
    apply validateRole_ok in Hs, Hu. apply validateAssistants_ok in Ha.
    repeat split; try assumption; try reflexivity.
    cbn [Chat.inValue]. apply negb_false_iff. rewrite !orb_true_iff. tauto.
Qed.

(** X7. [validateRequestParameters] of the chat module accepts a request
    exactly when [models] is a non-empty array of strings and [messages]
    is a non-empty array whose every entry is an object (no array) with at
    least one of the keys [system], [user] and [assistants], whose
    [system] and [user] are falsy or arrays of content objects, and whose
    [assistants] is falsy or an object all of whose values are arrays of
    content objects; a content object is an object whose [type] is one of
    the four kinds. *)
Theorem chat_accepts_iff (request : JsObject) :
  Chat.validateRequestParameters request = Return tt
  <-> ModelList (field "models" request)
      /\ exists msg msgs,
           field "messages" request = JArr (msg :: msgs)
           /\ Forall ValidEntry (msg :: msgs).
Proof.
  unfold Chat.validateRequestParameters, forEach. cbv zeta.
  rewrite !bindC_ok, rejectIf_ok, checkModels_ok.
  rewrite (forEachFrom_ok _ ValidEntry) by (intros; apply validateMessage_ok).
  split.
  - intros (Hm & Hne & Hall). split; [exact Hm |].
    destruct (field "messages" request) as [| | b | n | s | [| msg msgs] | o];
      try (revert Hne; cbn -[truthy]; rewrite ?orb_true_r; discriminate).
    exists msg, msgs. split; [reflexivity | exact Hall].
  - intros (Hm & msg & msgs & Heq & Hall). rewrite Heq.
    repeat split; [exact Hm | exact Hall].
Qed.

(** *** Only validation errors *)

Lemma rejectIf_only (cond : bool) (message : string) :
  OnlyValidation (rejectIf cond message).
Proof. destruct cond; [right; eexists; reflexivity | left; reflexivity]. Qed.

Lemma bindC_only (c k : Completion unit) :
  OnlyValidation c -> OnlyValidation k -> OnlyValidation (bindC c (fun _ => k)).
Proof.
  intros [-> | [m ->]] Hk; [exact Hk |]. right. exists m. reflexivity.
Qed.

Lemma forEachFrom_only {A} (f : A -> nat -> Completion unit) (xs : list A) :
  (forall x i, OnlyValidation (f x i)) ->
  forall i, OnlyValidation (forEachFrom f i xs).
Proof.
  intros Hf. induction xs as [| x xs IH]; intros i; cbn [forEachFrom].
  - left; reflexivity.
  - apply bindC_only; [apply Hf | apply IH].
Qed.

Lemma checkModels_only (models : JsValue) : OnlyValidation (checkModels models).
Proof. apply bindC_only; apply rejectIf_only. Qed.

Ltac only_validation :=
  repeat first
    [ apply bindC_only
    | apply rejectIf_only
    | apply checkModels_only
    | apply forEachFrom_only; intros ].

Lemma validateContentObject_only (content : JsValue) (path : string) :
  OnlyValidation (Chat.validateContentObject content path).
Proof. unfold Chat.validateContentObject. only_validation. Qed.

Lemma validateRole_only (key : string) (msg : JsValue) :
  OnlyValidation (Chat.validateRole key msg).
Proof.
  unfold Chat.validateRole, forEach.
  destruct (Chat.inValue key msg && truthy (getProp msg key));
    [| left; reflexivity].
  only_validation; try apply validateContentObject_only.
Qed.

Lemma validateAssistants_only (msg : JsValue) :
  OnlyValidation (Chat.validateAssistants msg).
Proof.
  unfold Chat.validateAssistants, forEach.
  destruct (Chat.inValue "assistants" msg && truthy (getProp msg "assistants"));
    [| left; reflexivity].
  only_validation; try apply validateContentObject_only.
Qed.

Lemma chat_only (request : JsObject) :
  OnlyValidation (Chat.validateRequestParameters request).
Proof.
  unfold Chat.validateRequestParameters, forEach. cbv zeta.
  apply bindC_only; [apply checkModels_only |].
  apply bindC_only; [apply rejectIf_only |].
  apply forEachFrom_only. intros msg i.
  unfold Chat.validateMessage, Chat.validateMessageContent.
  repeat apply bindC_only;
    auto using rejectIf_only, validateRole_only, validateAssistants_only.
Qed.

Lemma checkPair_only (rt : Runtime) (s : string) (sep : ascii)
    (message : string) :
  OnlyValidation (Video.checkPair rt (JStr s) sep message).
Proof. unfold Video.checkPair. cbn [Video.callSplit bindC]. apply rejectIf_only. Qed.

(** X8. The checks of every operation end in success or in an error made by
    [new ValidationError(message)]; for [video.generate] this needs
    [aspect_ratio] to be a string and [dimension] to be left out or a
    string. *)
Theorem validators_throw_validation_errors (rt : Runtime) (op : Operation)
    (request : JsObject) :
  (op = VideoGenerate ->
   IsString (withDefault (field "aspect_ratio" request) (JStr "16:9"))
   /\ (field "dimension" request = JUndefined
       \/ IsString (field "dimension" request))) ->
  OnlyValidation (validatorOf rt op request).
Proof.
  intros Hvideo. destruct op; cbn [validatorOf];
    try apply chat_only; try (left; reflexivity);
    try (unfold Image.validateGenerate, Image.validateEdit,
           Audio.validateGenerate, Audio.validateTts, Audio.validateStt;
         cbv zeta; only_validation; fail).
  destruct (Hvideo eq_refl) as [[a Ha] Hd].
  unfold Video.validateGenerate. cbv zeta. rewrite Ha. cbn [isUndefined negb].
  only_validation; try apply checkPair_only.
  destruct Hd as [-> | [d ->]]; cbn [isUndefined negb];
    [left; reflexivity | apply checkPair_only].
Qed.

Lemma validators_throw_validation_errors_witness :
  (VideoGenerate = VideoGenerate ->
   IsString (withDefault (field "aspect_ratio" (videoRequest "fps" (JStr "24")))
               (JStr "16:9"))
   /\ (field "dimension" (videoRequest "fps" (JStr "24")) = JUndefined
       \/ IsString (field "dimension" (videoRequest "fps" (JStr "24")))))
  /\ OnlyValidation
       (validatorOf exampleRuntime VideoGenerate
          (videoRequest "fps" (JStr "24"))).
Proof.
  assert (H : VideoGenerate = VideoGenerate ->
              IsString (withDefault
                          (field "aspect_ratio"
                             (videoRequest "fps" (JStr "24")))
                          (JStr "16:9"))
              /\ (field "dimension" (videoRequest "fps" (JStr "24"))
                  = JUndefined
                  \/ IsString (field "dimension"
                                 (videoRequest "fps" (JStr "24"))))).
  { intros _. split; [exists "16:9"; reflexivity | left; reflexivity]. }
  split; [exact H |].
  exact (validators_throw_validation_errors exampleRuntime VideoGenerate
           (videoRequest "fps" (JStr "24")) H).
Defined.

(** X9. [get_video_status] answers a request id that is a string with a
    character that is no white space with the fixed object that says the
    feature is not available, and throws the validation error for every
    other value. *)
Theorem get_video_status_answers (requestId : JsValue) :
  (NonBlank requestId /\ Video.get_video_status requestId = Return notAvailable)
  \/ (~ NonBlank requestId
      /\ Video.get_video_status requestId
         = throwValidation "request_id must be a non-empty string").
Proof.
  unfold Video.get_video_status.
  destruct (notNonEmptyString requestId) eqn:H.
  - right. split; [| reflexivity].
    intros Hn. apply notNonEmptyString_false in Hn. congruence.
  - left. split; [apply notNonEmptyString_false; exact H | reflexivity].
Qed.

(* ------------------------------------------------------------------ *)
(** *** The request methods *)

Lemma makeRequest_unfold (rt : Runtime) (fetch : Fetch) (client : AlleAIClient)
    (endpoint : string) (body : JsValue) :
  makeRequest rt fetch client endpoint body
  = tryRequest rt (bindC (fetch (requestUrl client endpoint)
                            (jsonInit rt client body))
                     (readResponse rt)).
Proof. reflexivity. Qed.

Lemma makeFormDataRequest_unfold (rt : Runtime) (fetch : Fetch)
    (client : AlleAIClient) (endpoint : string) (formData : FormData) :
  makeFormDataRequest rt fetch client endpoint formData
  = tryRequest rt (bindC (fetch (requestUrl client endpoint)
                            (formInit rt client formData))
                     (readResponse rt)).
Proof. reflexivity. Qed.

(** X11. When [fetch] returns a response with a status from 200 to 299, both
    request methods return its body parsed as JSON, and throw the APIError
    with code [INVALID_RESPONSE] and the response's status when the body
    is no JSON. *)
Theorem success_response_decoded (rt : Runtime) (fetch : Fetch)
    (client : AlleAIClient) (endpoint : string) (body : JsValue)
    (formData : FormData) (r : Response.t) :
  Response.ok r = true ->
  (fetch (requestUrl client endpoint) (jsonInit rt client body) = Return r ->
   makeRequest rt fetch client endpoint body
   = match Response.json rt r with
     | Some data => Return data
     | None => Throw (Typed (invalidResponse (Response.status r)))
     end)
  /\ (fetch (requestUrl client endpoint) (formInit rt client formData)
      = Return r ->
      makeFormDataRequest rt fetch client endpoint formData
      = match Response.json rt r with
        | Some data => Return data
        | None => Throw (Typed (invalidResponse (Response.status r)))
        end).
Proof.
  intros Hok. rewrite makeRequest_unfold, makeFormDataRequest_unfold.
  split; intros ->; cbn [bindC]; unfold readResponse; rewrite Hok;
    cbn [negb]; destruct (Response.json rt r); reflexivity.
Qed.

Lemma success_response_decoded_witness :
  Response.ok okEmpty = true
  /\ makeRequest exampleRuntime (fun _ _ => Return okEmpty) exampleClient
       "/chat/completions" (JObj chatRequest) = Return (JObj [])
  /\ makeFormDataRequest exampleRuntime (fun _ _ => Return okEmpty)
       exampleClient "/image/edit" (editForm editRequest exampleFile)
     = Return (JObj []).
Proof.
  split; [reflexivity |]. split.
  - exact (proj1 (success_response_decoded exampleRuntime
                    (fun _ _ => Return okEmpty) exampleClient
                    "/chat/completions" (JObj chatRequest) [] okEmpty
                    eq_refl) eq_refl).
  - exact (proj2 (success_response_decoded exampleRuntime
                    (fun _ _ => Return okEmpty) exampleClient
                    "/image/edit" JNull (editForm editRequest exampleFile)
                    okEmpty eq_refl) eq_refl).
Defined.




(* ------------------------------------------------------------------ *)
(** *** From an accepted request to the transport *)

(** X13. Every operation that sends JSON, once its checks pass, calls
    [makeRequest] exactly once, on its own endpoint, and its outcome is
    what [makeRequest] answers; the four chat operations send the
    caller's request object itself. *)
Theorem accepted_request_reaches_endpoint (rt : Runtime) (co : Collaborators)
    (op : Operation) (request : JsObject) (calls : list TransportCall) :
  op <> ImageEdit -> op <> AudioStt ->
  validatorOf rt op request = Return tt ->
  exists body,
    perform rt co op (mkWorld request calls)
    = (co_makeRequest co (endpointOf op) body,
       mkWorld request (calls ++ [JsonCall (endpointOf op) body]))
    /\ (In op [ChatCompletions; ChatCombination; ChatComparison; ChatSearch]
        -> body = JObj request).
Proof.
  intros Hedit Hstt.
  destruct op; try congruence; unfold_operations; intros H;
    rewrite ?H; eexists; (split; [reflexivity |]);
    cbn [In]; intros Hin; try reflexivity;
    repeat destruct Hin as [Hin | Hin]; try discriminate Hin;
    try contradiction.
Qed.

Lemma accepted_request_reaches_endpoint_witness :
  ChatSearch <> ImageEdit /\ ChatSearch <> AudioStt
  /\ validatorOf exampleRuntime ChatSearch chatRequest = Return tt
  /\ exists body,
       perform exampleRuntime spy ChatSearch (mkWorld chatRequest [])
       = (co_makeRequest spy "/ai/web-search" body,
          mkWorld chatRequest [JsonCall "/ai/web-search" body])
       /\ (In ChatSearch
             [ChatCompletions; ChatCombination; ChatComparison; ChatSearch]
           -> body = JObj chatRequest).
Proof.
  split; [discriminate |]. split; [discriminate |]. split; [reflexivity |].
  apply (accepted_request_reaches_endpoint exampleRuntime spy ChatSearch
           chatRequest []); [discriminate | discriminate | reflexivity].
Defined.

Lemma lookup_none_field (key : string) (request : JsObject) :
  lookup key request = None -> field key request = JUndefined.
Proof. unfold field. intros ->. reflexivity. Qed.

(** X14. [image.generate] on a request with valid [models] and [prompt] and
    none of the optional keys sends one body to [/image/generate], with
    the eight keys in the order of the source and the defaults filled in:
    width and height 1024, n 1, style_preset and seed null, and an empty
    object of parameters. *)
Theorem image_generate_fills_defaults (co : Collaborators)
    (request : JsObject) (calls : list TransportCall) :
  ModelList (field "models" request) ->
  NonBlank (field "prompt" request) ->
  (forall key, In key imageOptionalKeys -> lookup key request = None) ->
  Image.generate co (mkWorld request calls)
  = (co_makeRequest co "/image/generate"
       (JObj [("models", field "models" request);
              ("prompt", field "prompt" request);
              ("width", ofZ 1024); ("height", ofZ 1024); ("n", ofZ 1);
              ("style_preset", JNull); ("seed", JNull);
              ("model_specific_params", JObj [])]),
     mkWorld request
       (calls
        ++ [JsonCall "/image/generate"
              (JObj [("models", field "models" request);
                     ("prompt", field "prompt" request);
                     ("width", ofZ 1024); ("height", ofZ 1024); ("n", ofZ 1);
                     ("style_preset", JNull); ("seed", JNull);
                     ("model_specific_params", JObj [])])])).
Proof.
  intros Hmodels Hprompt Habsent.
  assert (Hf : forall key, In key imageOptionalKeys ->
                           field key request = JUndefined).
  { intros key Hin. apply lookup_none_field, Habsent, Hin. }
  unfold Image.generate, Image.validateGenerate. run_op. cbv zeta.
  unfold callMakeRequest. cbn [callerRequest transportCalls].
  rewrite (Hf "width"), (Hf "height"), (Hf "n"), (Hf "style_preset"),
    (Hf "seed"), (Hf "model_specific_params") by (cbn; auto 10).
  rewrite (proj2 (checkModels_ok _) Hmodels).
  rewrite (proj2 (notNonEmptyString_false _) Hprompt).
  reflexivity.
Qed.

Lemma image_generate_fills_defaults_witness :
  ModelList (field "models" minimalRequest)
  /\ NonBlank (field "prompt" minimalRequest)
  /\ (forall key, In key imageOptionalKeys -> lookup key minimalRequest = None)
  /\ transportCalls (snd (Image.generate spy (mkWorld minimalRequest [])))
     = [JsonCall "/image/generate"
          (JObj [("models", JArr [JStr "dall-e-3"]);
                 ("prompt", JStr "A beautiful landscape at sunset");
                 ("width", ofZ 1024); ("height", ofZ 1024); ("n", ofZ 1);
                 ("style_preset", JNull); ("seed", JNull);
                 ("model_specific_params", JObj [])])].
Proof.
  assert (Hm : ModelList (field "models" minimalRequest)).
  { exists (JStr "dall-e-3"), []. split; [reflexivity |].
    constructor; [exists "dall-e-3"; reflexivity | constructor]. }
  assert (Hp : NonBlank (field "prompt" minimalRequest)).
  { apply notNonEmptyString_false. reflexivity. }
  assert (Ha : forall key, In key imageOptionalKeys ->
                           lookup key minimalRequest = None).
  { intros key Hin. cbn in Hin.
    repeat destruct Hin as [<- | Hin]; try reflexivity; contradiction. }
  split; [exact Hm |]. split; [exact Hp |]. split; [exact Ha |].
  rewrite (image_generate_fills_defaults spy minimalRequest [] Hm Hp Ha).
  reflexivity.
Defined.

(** X15. [video.generate] on a request with valid [models] and [prompt] and
    none of the optional keys sends one body to [/video/generate], with
    duration 6, loop false, aspect_ratio ["16:9"], fps 24, an empty object
    of parameters, and [dimension], [resolution] and [seed] left
    undefined; the runtime has to read ["16"] and ["9"] as numbers. *)
Theorem video_generate_fills_defaults (rt : Runtime) (co : Collaborators)
    (request : JsObject) (calls : list TransportCall) :
  ModelList (field "models" request) ->
  NonBlank (field "prompt" request) ->
  (forall key, In key videoOptionalKeys -> lookup key request = None) ->
  numberIsNaN rt "16" = false ->
  numberIsNaN rt "9" = false ->
  Video.generate rt co (mkWorld request calls)
  = (co_makeRequest co "/video/generate"
       (JObj [("models", field "models" request);
              ("prompt", field "prompt" request);
              ("duration", ofZ 6); ("loop", JBool false);
              ("aspect_ratio", JStr "16:9"); ("fps", ofZ 24);
              ("dimension", JUndefined); ("resolution", JUndefined);
              ("seed", JUndefined); ("model_specific_params", JObj [])]),
     mkWorld request
       (calls
        ++ [JsonCall "/video/generate"
              (JObj [("models", field "models" request);
                     ("prompt", field "prompt" request);
                     ("duration", ofZ 6); ("loop", JBool false);
                     ("aspect_ratio", JStr "16:9"); ("fps", ofZ 24);
                     ("dimension", JUndefined); ("resolution", JUndefined);
                     ("seed", JUndefined);
                     ("model_specific_params", JObj [])])])).
Proof.
  intros Hmodels Hprompt Habsent H16 H9.
  assert (Hf : forall key, In key videoOptionalKeys ->
                           field key request = JUndefined).
  { intros key Hin. apply lookup_none_field, Habsent, Hin. }
  unfold Video.generate, Video.validateGenerate. run_op. cbv zeta.
  unfold callMakeRequest. cbn [callerRequest transportCalls].
  rewrite (Hf "duration"), (Hf "loop"), (Hf "aspect_ratio"), (Hf "fps"),
    (Hf "dimension"), (Hf "resolution"), (Hf "seed"),
    (Hf "model_specific_params") by (cbn; auto 10).
  rewrite (proj2 (checkModels_ok _) Hmodels).
  rewrite (proj2 (notNonEmptyString_false _) Hprompt).
  unfold Video.checkPair. cbn. rewrite H16, H9. reflexivity.
Qed.

Lemma video_generate_fills_defaults_witness :
  ModelList (field "models" minimalRequest)
  /\ NonBlank (field "prompt" minimalRequest)
  /\ (forall key, In key videoOptionalKeys -> lookup key minimalRequest = None)
  /\ numberIsNaN exampleRuntime "16" = false
  /\ numberIsNaN exampleRuntime "9" = false
  /\ transportCalls
       (snd (Video.generate exampleRuntime spy (mkWorld minimalRequest [])))
     = [JsonCall "/video/generate"
          (JObj [("models", JArr [JStr "dall-e-3"]);
                 ("prompt", JStr "A beautiful landscape at sunset");
                 ("duration", ofZ 6); ("loop", JBool false);
                 ("aspect_ratio", JStr "16:9"); ("fps", ofZ 24);
                 ("dimension", JUndefined); ("resolution", JUndefined);
                 ("seed", JUndefined); ("model_specific_params", JObj [])])].
Proof.
  assert (Hm : ModelList (field "models" minimalRequest)).
  { exists (JStr "dall-e-3"), []. split; [reflexivity |].
    constructor; [exists "dall-e-3"; reflexivity | constructor]. }
  assert (Hp : NonBlank (field "prompt" minimalRequest)).
  { apply notNonEmptyString_false. reflexivity. }
  assert (Ha : forall key, In key videoOptionalKeys ->
                           lookup key minimalRequest = None).
  { intros key Hin. cbn in Hin.
    repeat destruct Hin as [<- | Hin]; try reflexivity; contradiction. }
  split; [exact Hm |]. split; [exact Hp |]. split; [exact Ha |].
  split; [reflexivity |]. split; [reflexivity |].
  rewrite (video_generate_fills_defaults exampleRuntime spy minimalRequest []
             Hm Hp Ha eq_refl eq_refl).
  reflexivity.
Defined.

(** *** [edit] and [stt] after validation *)

(** [edit] once the request is accepted: nothing is sent unless
    [processFile] returns a file; then the form goes out once, and what the
    transport answers is returned; every error goes through the [catch]
    block. *)
Lemma edit_run (rt : Runtime) (co : Collaborators)
    (request : JsObject) (calls : list TransportCall) :
  Image.validateEdit request = Return tt ->
  Image.edit rt co (mkWorld request calls)
  = match co_processFile co (field "image_file" request) "image" with
    | Throw error => (editFailure rt error, mkWorld request calls)
    | Return file =>
        (match co_makeFormDataRequest co "/image/edit"
                 (editForm request file) with
         | Return data => Return data
         | Throw error => editFailure rt error
         end,
         mkWorld request
           (calls ++ [FormCall "/image/edit" (editForm request file)]))
    end.
Proof.
  intros Hvalid. unfold Image.edit. run_op. rewrite Hvalid.
  destruct (co_processFile co _ _) as [file | error]; [| reflexivity].
  unfold callMakeFormDataRequest. cbn [callerRequest transportCalls].
  fold (editForm request file).
  destruct (co_makeFormDataRequest co _ _); reflexivity.
Qed.

Lemma appendModels_length (index : nat) (models : list JsValue) :
  length (appendModels index models) = length models.
Proof.
  revert index. induction models as [| m ms IH]; intros index; cbn;
    [reflexivity | rewrite IH; reflexivity].
Qed.

Lemma appendModels_nth (index i : nat) (models : list JsValue) (m : JsValue) :
  nth_error models i = Some m ->
  nth_error (appendModels index models) i
  = Some ("models[" ++ decimal (Z.of_nat (index + i)) ++ "]", FormField m).
Proof.
  revert index i. induction models as [| m' ms IH]; intros index i H.
  - destruct i; discriminate H.
  - destruct i as [| i]; cbn in H |- *.
    + injection H as ->. rewrite Nat.add_0_r. reflexivity.
    + rewrite (IH (S index) i H). rewrite Nat.add_succ_r. reflexivity.
Qed.

Lemma editForm_fields (request : JsObject) (file : ProcessedFile)
    (models : list JsValue) :
  field "models" request = JArr models ->
  length (editForm request file) = (length models + 2)%nat
  /\ (forall i m,
         nth_error models i = Some m ->
         nth_error (editForm request file) i
         = Some ("models[" ++ decimal (Z.of_nat i) ++ "]", FormField m))
  /\ nth_error (editForm request file) (length models)
     = Some ("image_file", FormFile (buffer file) (filename file))
  /\ nth_error (editForm request file) (S (length models))
     = Some ("prompt", FormField (field "prompt" request)).
Proof.
  intros Hm. unfold editForm. rewrite Hm. cbn [elements].
  repeat split.
  - rewrite length_app, appendModels_length. reflexivity.
  - intros i m Hi. rewrite nth_error_app1.
    + apply (appendModels_nth 0 i models m Hi).
    + rewrite appendModels_length. apply nth_error_Some. congruence.
  - rewrite nth_error_app2; rewrite appendModels_length; [| lia].
    rewrite Nat.sub_diag. reflexivity.
  - rewrite nth_error_app2; rewrite appendModels_length; [| lia].
    replace (S (length models) - length models)%nat with 1%nat by lia.
    reflexivity.
Qed.

(** X16. When [image.edit] has accepted a request and [processFile] has
    returned a file, the one thing it hands to [makeFormDataRequest], on
    [/image/edit], is a form with one field [models[i]] for each model,
    in the order of the array and numbered from 0, then the file under
    [image_file] with its name, then the prompt, and nothing else. *)
Theorem edit_form_fields (rt : Runtime) (co : Collaborators)
    (request : JsObject) (calls : list TransportCall) (file : ProcessedFile)
    (models : list JsValue) :
  Image.validateEdit request = Return tt ->
  co_processFile co (field "image_file" request) "image" = Return file ->
  field "models" request = JArr models ->
  exists form,
    transportCalls (snd (Image.edit rt co (mkWorld request calls)))
    = (calls ++ [FormCall "/image/edit" form])%list
    /\ length form = (length models + 2)%nat
    /\ (forall i m,
           nth_error models i = Some m ->
           nth_error form i
           = Some ("models[" ++ decimal (Z.of_nat i) ++ "]", FormField m))
    /\ nth_error form (length models)
       = Some ("image_file", FormFile (buffer file) (filename file))
    /\ nth_error form (S (length models))
       = Some ("prompt", FormField (field "prompt" request)).
Proof.
  intros Hvalid Hfile Hm. exists (editForm request file).
  split; [| apply editForm_fields; exact Hm].
  rewrite (edit_run rt co request calls Hvalid), Hfile. reflexivity.
Qed.

Lemma edit_form_fields_witness :
  Image.validateEdit editRequest = Return tt
  /\ co_processFile spy (field "image_file" editRequest) "image"
     = Return exampleFile
  /\ field "models" editRequest = JArr [JStr "dall-e-3"]
  /\ exists form,
       transportCalls
         (snd (Image.edit exampleRuntime spy (mkWorld editRequest [])))
       = [FormCall "/image/edit" form]
       /\ length form = 3%nat
       /\ nth_error form 0
          = Some ("models[0]", FormField (JStr "dall-e-3"))
       /\ nth_error form 1 = Some ("image_file", FormFile [] "input.jpg")
       /\ nth_error form 2
          = Some ("prompt", FormField (JStr "Add a sunset background")).
Proof.
  split; [reflexivity |]. split; [reflexivity |]. split; [reflexivity |].
  destruct (edit_form_fields exampleRuntime spy editRequest [] exampleFile
              [JStr "dall-e-3"] eq_refl eq_refl eq_refl)
    as (form & Hcalls & Hlen & Hmodels & Hfile & Hprompt).
  exists form. split; [exact Hcalls |]. split; [exact Hlen |].
  split; [exact (Hmodels 0%nat (JStr "dall-e-3") eq_refl) |].
  split; [exact Hfile | exact Hprompt].
Defined.

(** [stt] once the request is accepted, likewise; the parameters are
    counted after the file has been read. *)
Lemma stt_run (rt : Runtime) (co : Collaborators)
    (request : JsObject) (calls : list TransportCall) :
  Audio.validateStt request = Return tt ->
  Audio.stt rt co (mkWorld request calls)
  = match co_processFile co (field "audio_file" request) "audio" with
    | Throw error => (sttFailure rt error, mkWorld request calls)
    | Return file =>
        match Audio.keysLength
                (withDefault (field "model_specific_params" request)
                   (JObj [])) with
        | Throw error => (sttFailure rt error, mkWorld request calls)
        | Return count =>
            (match co_makeFormDataRequest co "/audio/stt"
                     (sttForm rt request file count) with
             | Return data => Return data
             | Throw error => sttFailure rt error
             end,
             mkWorld request
               (calls
                ++ [FormCall "/audio/stt" (sttForm rt request file count)]))
        end
    end.
Proof.
  intros Hvalid. unfold Audio.stt. run_op. rewrite Hvalid.
  destruct (co_processFile co _ _) as [file | error]; [| reflexivity].
  destruct (Audio.keysLength _) as [count | error]; [| reflexivity].
  unfold callMakeFormDataRequest. cbn [callerRequest transportCalls].
  fold (sttForm rt request file count).
  destruct (co_makeFormDataRequest co _ _); reflexivity.
Qed.

(** X17. [audio.stt] with one model, a file name and [model_specific_params:
    null] passes the checks and then sends nothing: when [processFile]
    throws, its error goes through the [catch] block; when it returns a
    file, [Object.keys(null)] throws inside the [try] block and the
    operation ends in a validation error. *)
Theorem stt_null_parameters_never_sent (rt : Runtime) (co : Collaborators)
    (request : JsObject) (calls : list TransportCall) :
  SingleModel (field "models" request) ->
  NonBlank (field "audio_file" request) ->
  field "model_specific_params" request = JNull ->
  Audio.validateStt request = Return tt
  /\ match co_processFile co (field "audio_file" request) "audio" with
     | Throw error =>
         Audio.stt rt co (mkWorld request calls)
         = (sttFailure rt error, mkWorld request calls)
     | Return _ =>
         exists reason,
           Audio.stt rt co (mkWorld request calls)
           = (throwValidation (" " ++ reason), mkWorld request calls)
     end.
Proof.
  intros Hm Hf Hnull.
  assert (Hvalid : Audio.validateStt request = Return tt).
  { unfold Audio.validateStt. cbv zeta. rewrite Hnull.
    destruct (proj2 (single_model_iff _) Hm) as [-> ->].
    rewrite (proj2 (notNonEmptyString_false _) Hf). reflexivity. }
  split; [exact Hvalid |].
  unfold Audio.stt. run_op. rewrite Hvalid, Hnull. cbn [withDefault].
  destruct (co_processFile co _ _) as [file | error];
    [eexists |]; reflexivity.
Qed.

Lemma stt_null_parameters_never_sent_witness :
  SingleModel (field "models" nullParamsRequest)
  /\ NonBlank (field "audio_file" nullParamsRequest)
  /\ field "model_specific_params" nullParamsRequest = JNull
  /\ Audio.validateStt nullParamsRequest = Return tt
  /\ exists reason,
       Audio.stt exampleRuntime spy (mkWorld nullParamsRequest [])
       = (throwValidation (" " ++ reason), mkWorld nullParamsRequest []).
Proof.
  assert (Hm : SingleModel (field "models" nullParamsRequest)).
  { exists "gpt-4o-transcribe". reflexivity. }
  assert (Hf : NonBlank (field "audio_file" nullParamsRequest)).
  { apply notNonEmptyString_false. reflexivity. }
  split; [exact Hm |]. split; [exact Hf |]. split; [reflexivity |].
  exact (stt_null_parameters_never_sent exampleRuntime spy nullParamsRequest
           [] Hm Hf eq_refl).
Defined.

(* ------------------------------------------------------------------ *)
(** *** utils.ts: [processFile] *)
(* ------------------------------------------------------------------ *)

Section FileProcessing.

Import Utils.

(** The local branch on its own. *)
Lemma fromLocal_done (h : Host) (filePath : string) (type : FileType)
    (t t' : list HostCall) (file : File) :
  fromLocal h filePath type t = (Done file, t') ->
  filepath file = resolve h (cwd h) (trim filePath)
  /\ filename file = basename h (filepath file)
  /\ supports type (toLowerCase (extname h (filepath file))) = true
  /\ t' = (t ++ [Stat (filepath file); ReadFile (filepath file)])%list
  /\ (exists stats,
         stat h t (filepath file) = Done stats
         /\ isFile stats = true /\ (size stats <= MAX_FILE_SIZE)%Z)
  /\ readFile h (t ++ [Stat (filepath file)])%list (filepath file)
     = Done (buffer file).
Proof.
  intros H. unfold fromLocal, Utils.catch, Utils.bind, call, Utils.fail,
    Utils.ret in H. cbv zeta in H.
  destruct (stat h t _) as [stats | e] eqn:Hstat.
  - destruct (isFile stats) eqn:Hfile; cbn [negb] in H;
      [| discriminate H].
    destruct (MAX_FILE_SIZE <? size stats)%Z eqn:Hsize; [discriminate H |].
    destruct (supports type _) eqn:Hsup; cbn [negb] in H;
      [| discriminate H].
    destruct (readFile h _ _) as [bytes | e] eqn:Hread.
    + injection H as <- <-. cbn [filepath filename buffer].
      rewrite <- app_assoc. cbn [app].
      repeat split; try assumption; try reflexivity.
      exists stats. split; [assumption |]. split; [assumption |].
      apply Z.ltb_ge. exact Hsize.
    + cbn [errorCode] in H.
      destruct (errorCode e) as [code |]; [destruct (code =? "ENOENT") |];
        discriminate H.
  - destruct (errorCode e) as [code |]; [destruct (code =? "ENOENT") |];
      discriminate H.
Qed.

Lemma fromUrl_done (h : Host) (url : Url) (type : FileType)
    (t t' : list HostCall) (file : File) :
  fromUrl h url type t = (Done file, t') ->
  supports type (toLowerCase (extname h (pathname url))) = true
  /\ filename file = basename h (pathname url)
  /\ filepath file = tempPathOf h t url
  /\ t' = (t ++ downloadCalls h t url)%list
  /\ (exists stats,
         stat h (t ++ firstn 2 (downloadCalls h t url))%list
           (tempPathOf h t url) = Done stats
         /\ (size stats <= MAX_FILE_SIZE)%Z)
  /\ readFile h (t ++ firstn 3 (downloadCalls h t url))%list
       (tempPathOf h t url) = Done (buffer file).
Proof.
  intros H. unfold fromUrl, Utils.bind, call, Utils.fail, Utils.ret, clock in H.
  cbv zeta in H. fold (tempDirOf h) in H.
  destruct (supports type _) eqn:Hsup; cbn [negb] in H; [| discriminate H].
  destruct (mkdir h t _) as [[] | e]; [| discriminate H].
  fold (tempPathOf h t url) in H.
  destruct (download h _ _ _) as [[] | e]; [| discriminate H].
  repeat rewrite <- app_assoc in H. cbn [app] in H.
  destruct (stat h _ _) as [stats | e] eqn:Hstat; [| discriminate H].
  destruct (MAX_FILE_SIZE <? size stats)%Z eqn:Hsize.
  { destruct (unlink h _ _); discriminate H. }
  destruct (readFile h _ _) as [bytes | e] eqn:Hread; [| discriminate H].
  destruct (unlink h _ _) as [[] | e]; [| discriminate H].
  injection H as <- <-. cbn [filepath filename buffer].
  repeat rewrite <- app_assoc. cbn [app]. unfold downloadCalls. cbn [firstn].
  do 4 (split; [reflexivity |]). split; [| reflexivity].
  exists stats. split; [reflexivity | apply Z.ltb_ge; exact Hsize].
Qed.

Lemma bind_extends {A B} (m : IO A) (k : A -> IO B) :
  (forall t r t', m t = (r, t') -> exists l, t' = (t ++ l)%list) ->
  (forall a t r t', k a t = (r, t') -> exists l, t' = (t ++ l)%list) ->
  forall t r t', Utils.bind m k t = (r, t') -> exists l, t' = (t ++ l)%list.
Proof.
  intros Hm Hk t r t' H. unfold Utils.bind in H.
  destruct (m t) as [[a | e] t1] eqn:E; destruct (Hm _ _ _ E) as [l1 ->].
  - destruct (Hk _ _ _ _ H) as [l2 ->]. exists (l1 ++ l2)%list.
    rewrite app_assoc. reflexivity.
  - injection H as _ <-. exists l1. reflexivity.
Qed.

Lemma call_extends {A} (answer : list HostCall -> Result A) (c : HostCall) :
  forall t r t', call answer c t = (r, t') -> exists l, t' = (t ++ l)%list.
Proof. intros t r t' H. injection H as _ <-. exists [c]. reflexivity. Qed.

Lemma pure_extends {A} (x : Result A) :
  forall (t : list HostCall) r t',
    (x, t) = (r, t') -> exists l, t' = (t ++ l)%list.
Proof.
  intros t r t' H. injection H as _ <-. exists []. rewrite app_nil_r.
  reflexivity.
Qed.

Lemma clock_extends (h : Host) :
  forall t r t', clock h t = (r, t') -> exists l, t' = (t ++ l)%list.
Proof.
  intros t r t' H. injection H as _ <-. exists []. rewrite app_nil_r.
  reflexivity.
Qed.

Lemma fromUrl_extends (h : Host) (url : Url) (type : FileType) :
  forall t r t', fromUrl h url type t = (r, t') ->
                 exists l, t' = (t ++ l)%list.
Proof.
  unfold fromUrl. cbv zeta.
  destruct (negb (supports type _)); [apply pure_extends |].
  repeat first
    [ apply bind_extends; [| intros ?]
    | apply call_extends
    | apply pure_extends
    | apply clock_extends
    | match goal with
      | |- context [if ?b then _ else _] => destruct b
      end ].
Qed.

(** How [processFile] comes to return a file: from the download, or from
    the local branch, entered at once or after a TypeError of the
    download branch. *)
Lemma processFile_done (h : Host) (filePath : string) (type : FileType)
    (t t' : list HostCall) (file : File) :
  processFile h filePath type t = (Done file, t') ->
  (exists url,
      newURL h filePath = Some url
      /\ fromUrl h url type t = (Done file, t'))
  \/ (exists pre,
         fromLocal h filePath type (t ++ pre)%list = (Done file, t')
         /\ (newURL h filePath = None -> pre = [])).
Proof.
  intros H. unfold processFile, Utils.catch in H.
  destruct (newURL h filePath) as [url |] eqn:Hurl.
  - destruct (fromUrl h url type t) as [[f | e] t1] eqn:Hu.
    + injection H as <- <-. left. exists url. split; [reflexivity | exact Hu].
    + destruct (isTypeError e); cbn [negb] in H; [| discriminate H].
      destruct (fromUrl_extends h url type _ _ _ Hu) as [pre ->].
      right. exists pre. split; [exact H | discriminate].
  - cbn [Utils.fail isTypeError negb] in H. right. exists [].
    rewrite app_nil_r. split; [exact H | reflexivity].
Qed.

(** A file from either branch has been checked. *)
Lemma fromUrl_checked (h : Host) (filePath : string) (url : Url)
    (type : FileType) (t t' : list HostCall) (file : File) :
  newURL h filePath = Some url ->
  fromUrl h url type t = (Done file, t') ->
  Checked h type filePath file.
Proof.
  intros Hurl H.
  apply fromUrl_done in H as (Hsup & Hname & Hpath & _ & Hstat & Hread).
  unfold Checked. rewrite Hpath. split; [| split].
  - destruct Hstat as (stats & Hs & Hsize). eauto.
  - eauto.
  - left. exists url. auto.
Qed.

Lemma fromLocal_checked (h : Host) (filePath : string) (type : FileType)
    (t t' : list HostCall) (file : File) :
  fromLocal h filePath type t = (Done file, t') ->
  Checked h type filePath file.
Proof.
  intros H.
  apply fromLocal_done in H as (Hpath & Hname & Hsup & _ & Hstat & Hread).
  unfold Checked. split; [| split].
  - destruct Hstat as (stats & Hs & _ & Hsize). eauto.
  - eauto.
  - right. auto.
Qed.

(** X18. A file that [processFile] returns has been checked: [fs.stat]
    reported a size within 20MB for its path, its bytes are what
    [fs.readFile] gave for that path, and the extension of the URL's path
    (for a download) or of the resolved local path is one the type
    supports. *)
Theorem returned_file_is_checked (h : Host) (filePath : string)
    (type : FileType) (t t' : list HostCall) (file : File) :
  processFile h filePath type t = (Done file, t') ->
  Checked h type filePath file.
Proof.
  intros H. apply processFile_done in H as [(url & Hurl & H) | (pre & H & _)];
    eauto using fromUrl_checked, fromLocal_checked.
Qed.

Lemma returned_file_is_checked_witness :
  Utils.processFile exampleHost "/srv/app/photo.png" Utils.image []
  = (Utils.Done (Utils.mkFile [] "photo.png" "/srv/app/photo.png"),
     [Utils.Stat "/srv/app/photo.png"; Utils.ReadFile "/srv/app/photo.png"])
  /\ Checked exampleHost Utils.image "/srv/app/photo.png"
       (Utils.mkFile [] "photo.png" "/srv/app/photo.png").
Proof.
  split; [reflexivity |].
  apply (returned_file_is_checked exampleHost "/srv/app/photo.png"
           Utils.image []
           [Utils.Stat "/srv/app/photo.png";
            Utils.ReadFile "/srv/app/photo.png"]).
  reflexivity.
Defined.

(** X19. The calls of a [processFile] that returns a file: for a download,
    mkdir of the temp directory, the download, stat, read and unlink of
    the temporary path, so the temporary copy is removed before the file
    is returned; for a local file, one stat and one read of the path, and
    nothing before them when the argument is no URL. *)
Theorem returned_file_calls (h : Host) (filePath : string)
    (type : FileType) (t t' : list HostCall) (file : File) :
  processFile h filePath type t = (Done file, t') ->
  (exists url,
      newURL h filePath = Some url
      /\ filepath file = tempPathOf h t url
      /\ t' = (t ++ downloadCalls h t url)%list)
  \/ (exists pre,
         t' = (t ++ pre
               ++ [Stat (filepath file); ReadFile (filepath file)])%list
         /\ (newURL h filePath = None -> pre = [])).
Proof.
  intros H. apply processFile_done in H as [(url & Hurl & H) | (pre & H & Hp)].
  - apply fromUrl_done in H as (_ & _ & Hpath & Ht & _). left. eauto.
  - apply fromLocal_done in H as (_ & _ & _ & Ht & _). right.
    exists pre. split; [| exact Hp]. rewrite Ht, <- app_assoc. reflexivity.
Qed.

Lemma returned_file_calls_witness :
  Utils.processFile exampleHost "https://example.com/cat.png" Utils.image []
  = (Utils.Done (Utils.mkFile [] "cat.png"
                   "/srv/app/temp/1750000000000-cat.png"),
     [Utils.Mkdir "/srv/app/temp";
      Utils.Download "https://example.com/cat.png"
        "/srv/app/temp/1750000000000-cat.png";
      Utils.Stat "/srv/app/temp/1750000000000-cat.png";
      Utils.ReadFile "/srv/app/temp/1750000000000-cat.png";
      Utils.Unlink "/srv/app/temp/1750000000000-cat.png"])
  /\ downloadCalls exampleHost [] catUrl
     = [Utils.Mkdir "/srv/app/temp";
        Utils.Download "https://example.com/cat.png"
          "/srv/app/temp/1750000000000-cat.png";
        Utils.Stat "/srv/app/temp/1750000000000-cat.png";
        Utils.ReadFile "/srv/app/temp/1750000000000-cat.png";
        Utils.Unlink "/srv/app/temp/1750000000000-cat.png"]
  /\ ((exists url,
          Utils.newURL exampleHost "https://example.com/cat.png" = Some url
          /\ Utils.filepath (Utils.mkFile [] "cat.png"
                               "/srv/app/temp/1750000000000-cat.png")
             = tempPathOf exampleHost [] url
          /\ downloadCalls exampleHost [] catUrl
             = ([] ++ downloadCalls exampleHost [] url)%list)
      \/ (exists pre,
             downloadCalls exampleHost [] catUrl
             = ([] ++ pre
                ++ [Utils.Stat
                      (Utils.filepath
                         (Utils.mkFile [] "cat.png"
                            "/srv/app/temp/1750000000000-cat.png"));
                    Utils.ReadFile
                      (Utils.filepath
                         (Utils.mkFile [] "cat.png"
                            "/srv/app/temp/1750000000000-cat.png"))])%list
             /\ (Utils.newURL exampleHost "https://example.com/cat.png" = None
                 -> pre = []))).
Proof.
  split; [reflexivity |]. split; [reflexivity |].
  apply (returned_file_calls exampleHost "https://example.com/cat.png"
           Utils.image [] (downloadCalls exampleHost [] catUrl)).
  reflexivity.
Defined.

(** X20. A URL whose extension the type does not support is refused before
    anything is touched: no directory is made and nothing is downloaded,
    and the error names the extension, the type and the supported
    extensions. *)
Theorem unsupported_url_untouched (h : Host) (filePath : string)
    (type : FileType) (t : list HostCall) (url : Url) :
  newURL h filePath = Some url ->
  supports type (toLowerCase (extname h (pathname url))) = false ->
  processFile h filePath type t
  = (Failed (plainError
               (unsupportedMessage "URL file type"
                  (toLowerCase (extname h (pathname url))) type)),
     t).
Proof.
  intros Hurl Hsup. unfold processFile, Utils.catch. rewrite Hurl.
  unfold fromUrl. cbv zeta. rewrite Hsup. reflexivity.
Qed.

Lemma unsupported_url_untouched_witness :
  Utils.newURL exampleHost "https://example.com/cat.png" = Some catUrl
  /\ Utils.supports Utils.audio
       (Utils.toLowerCase
          (Utils.extname exampleHost (Utils.pathname catUrl))) = false
  /\ Utils.processFile exampleHost "https://example.com/cat.png" Utils.audio []
     = (Utils.Failed
          (Utils.plainError
             "URL file type '.png' not supported for audio. Supported types: .mp3, .wav, .ogg, .m4a, .aac"),
        []).
Proof.
  split; [reflexivity |]. split; [reflexivity |].
  exact (unsupported_url_untouched exampleHost "https://example.com/cat.png"
           Utils.audio [] catUrl eq_refl eq_refl).
Defined.

(** X21. For an argument that is no URL, [processFile] only reads: whatever
    the outcome, its calls are one stat of the resolved path, followed by
    at most one read of it; nothing is created, downloaded or removed. *)
Theorem local_path_only_read (h : Host) (filePath : string)
    (type : FileType) (t t' : list HostCall) (r : Result File) :
  newURL h filePath = None ->
  processFile h filePath type t = (r, t') ->
  t' = (t ++ [Stat (resolve h (cwd h) (trim filePath))])%list
  \/ t' = (t ++ [Stat (resolve h (cwd h) (trim filePath));
                 ReadFile (resolve h (cwd h) (trim filePath))])%list.
Proof.
  intros Hurl H. unfold processFile, Utils.catch in H. rewrite Hurl in H.
  cbn [Utils.fail isTypeError negb] in H.
  unfold fromLocal, Utils.catch, Utils.bind, call, Utils.fail, Utils.ret in H.
  cbv zeta in H.
  repeat match type of H with
         | context [match ?x with Done _ => _ | Failed _ => _ end] =>
             destruct x
         | context [if ?b then _ else _] => destruct b
         | context [match ?x with Some _ => _ | None => _ end] => destruct x
         end;
    injection H as _ <-; rewrite <- ?app_assoc; cbn [app]; auto.
Qed.

Lemma local_path_only_read_witness :
  Utils.newURL exampleHost "/srv/app/photo.png" = None
  /\ Utils.processFile exampleHost "/srv/app/photo.png" Utils.audio
       [Utils.Mkdir "/srv/app/temp"]
     = (Utils.Failed
          (Utils.plainError
             "File type '.png' not supported for audio. Supported types: .mp3, .wav, .ogg, .m4a, .aac"),
        [Utils.Mkdir "/srv/app/temp"; Utils.Stat "/srv/app/photo.png"])
  /\ ([Utils.Mkdir "/srv/app/temp"; Utils.Stat "/srv/app/photo.png"]
      = ([Utils.Mkdir "/srv/app/temp"]
         ++ [Utils.Stat
               (Utils.resolve exampleHost (Utils.cwd exampleHost)
                  (trim "/srv/app/photo.png"))])%list
      \/ [Utils.Mkdir "/srv/app/temp"; Utils.Stat "/srv/app/photo.png"]
         = ([Utils.Mkdir "/srv/app/temp"]
            ++ [Utils.Stat
                  (Utils.resolve exampleHost (Utils.cwd exampleHost)
                     (trim "/srv/app/photo.png"));
                Utils.ReadFile
                  (Utils.resolve exampleHost (Utils.cwd exampleHost)
                     (trim "/srv/app/photo.png"))])%list).
Proof.
  split; [reflexivity |]. split; [reflexivity |].
  apply (local_path_only_read exampleHost "/srv/app/photo.png" Utils.audio
           [Utils.Mkdir "/srv/app/temp"]
           [Utils.Mkdir "/srv/app/temp"; Utils.Stat "/srv/app/photo.png"]
           (Utils.Failed
              (Utils.plainError
                 "File type '.png' not supported for audio. Supported types: .mp3, .wav, .ogg, .m4a, .aac")));
    reflexivity.
Defined.

(** X22. When the argument is no URL and [fs.stat] fails with code [ENOENT],
    [processFile] throws a plain error [File not found:] followed by the
    path as the caller wrote it, after that one call. *)
Theorem missing_file_reported (h : Host) (filePath : string)
    (type : FileType) (t : list HostCall) (e : HostError) :
  newURL h filePath = None ->
  stat h t (resolve h (cwd h) (trim filePath)) = Failed e ->
  errorCode e = Some "ENOENT" ->
  processFile h filePath type t
  = (Failed (plainError ("File not found: " ++ filePath)),
     (t ++ [Stat (resolve h (cwd h) (trim filePath))])%list).
Proof.
  intros Hurl Hstat Hcode. unfold processFile, Utils.catch. rewrite Hurl.
  cbn [Utils.fail isTypeError negb].
  unfold fromLocal, Utils.catch, Utils.bind, call. cbv zeta.
  rewrite Hstat, Hcode. reflexivity.
Qed.

Lemma missing_file_reported_witness :
  Utils.newURL exampleHost " /srv/app/missing.png" = None
  /\ Utils.stat exampleHost []
       (Utils.resolve exampleHost (Utils.cwd exampleHost)
          (trim " /srv/app/missing.png")) = Utils.Failed notFound
  /\ Utils.errorCode notFound = Some "ENOENT"
  /\ Utils.processFile exampleHost " /srv/app/missing.png" Utils.image []
     = (Utils.Failed (Utils.plainError "File not found:  /srv/app/missing.png"),
        [Utils.Stat "/srv/app/missing.png"]).
Proof.
  split; [reflexivity |]. split; [reflexivity |]. split; [reflexivity |].
  exact (missing_file_reported exampleHost " /srv/app/missing.png"
           Utils.image [] notFound eq_refl eq_refl eq_refl).
Defined.

(** X23. A download that [fs.stat] reports as larger than 20MB is removed
    again and never read: the calls end with the unlink of the temporary
    path, and the error gives the size. *)
Theorem oversize_download_removed (h : Host) (filePath : string)
    (type : FileType) (t : list HostCall) (url : Url) (stats : Stats) :
  newURL h filePath = Some url ->
  supports type (toLowerCase (extname h (pathname url))) = true ->
  mkdir h t (tempDirOf h) = Done tt ->
  download h (t ++ firstn 1 (downloadCalls h t url))%list (href url)
    (tempPathOf h t url) = Done tt ->
  stat h (t ++ firstn 2 (downloadCalls h t url))%list (tempPathOf h t url)
  = Done stats ->
  (MAX_FILE_SIZE < size stats)%Z ->
  unlink h (t ++ firstn 3 (downloadCalls h t url))%list (tempPathOf h t url)
  = Done tt ->
  processFile h filePath type t
  = (Failed (plainError (tooLargeMessage h stats)),
     (t ++ firstn 3 (downloadCalls h t url)
      ++ [Unlink (tempPathOf h t url)])%list).
Proof.
  intros Hurl Hsup Hmkdir Hdown Hstat Hsize Hunlink.
  unfold processFile, Utils.catch. rewrite Hurl.
  unfold fromUrl, Utils.bind, call, clock, Utils.fail, Utils.ret. cbv zeta.
  rewrite Hsup. cbn [negb]. fold (tempDirOf h). rewrite Hmkdir.
  fold (tempPathOf h t url). cbn [firstn downloadCalls] in *.
  rewrite Hdown. rewrite <- !app_assoc. cbn [app]. rewrite Hstat.
  apply Z.ltb_lt in Hsize. rewrite Hsize.
  rewrite <- !app_assoc. cbn [app]. rewrite Hunlink. reflexivity.
Qed.

Lemma oversize_download_removed_witness :
  (Utils.MAX_FILE_SIZE < 31457280)%Z
  /\ Utils.processFile (exampleHostWith 31457280 true)
       "https://example.com/cat.png" Utils.image []
     = (Utils.Failed
          (Utils.plainError "File size (30.00MB) exceeds max limit (20MB)"),
        [Utils.Mkdir "/srv/app/temp";
         Utils.Download "https://example.com/cat.png"
           "/srv/app/temp/1750000000000-cat.png";
         Utils.Stat "/srv/app/temp/1750000000000-cat.png";
         Utils.Unlink "/srv/app/temp/1750000000000-cat.png"]).
Proof.
  split; [reflexivity |].
  exact (oversize_download_removed (exampleHostWith 31457280 true)
           "https://example.com/cat.png" Utils.image [] catUrl
           (Utils.mkStats 31457280 true) eq_refl eq_refl eq_refl eq_refl
           eq_refl eq_refl eq_refl).
Defined.

(** X24. When the download went through and [fs.readFile] then fails with an
    error that is no TypeError, [processFile] rethrows that error and its
    calls end with the read: the temporary copy is not removed. *)
Theorem unread_download_left_behind (h : Host) (filePath : string)
    (type : FileType) (t : list HostCall) (url : Url) (stats : Stats)
    (e : HostError) :
  newURL h filePath = Some url ->
  supports type (toLowerCase (extname h (pathname url))) = true ->
  mkdir h t (tempDirOf h) = Done tt ->
  download h (t ++ firstn 1 (downloadCalls h t url))%list (href url)
    (tempPathOf h t url) = Done tt ->
  stat h (t ++ firstn 2 (downloadCalls h t url))%list (tempPathOf h t url)
  = Done stats ->
  (size stats <= MAX_FILE_SIZE)%Z ->
  readFile h (t ++ firstn 3 (downloadCalls h t url))%list
    (tempPathOf h t url) = Failed e ->
  isTypeError e = false ->
  processFile h filePath type t
  = (Failed e, (t ++ firstn 4 (downloadCalls h t url))%list).
Proof.
  intros Hurl Hsup Hmkdir Hdown Hstat Hsize Hread Hte.
  unfold processFile, Utils.catch. rewrite Hurl.
  unfold fromUrl, Utils.bind, call, clock, Utils.fail, Utils.ret. cbv zeta.
  rewrite Hsup. cbn [negb]. fold (tempDirOf h). rewrite Hmkdir.
  fold (tempPathOf h t url). cbn [firstn downloadCalls] in *.
  rewrite Hdown. rewrite <- !app_assoc. cbn [app]. rewrite Hstat.
  apply Z.ltb_ge in Hsize. rewrite Hsize.
  rewrite <- !app_assoc. cbn [app]. rewrite Hread.
  cbn [isTypeError]. rewrite Hte. reflexivity.
Qed.

Lemma unread_download_left_behind_witness :
  Utils.readFile (exampleHostWith 512 false)
    [Utils.Mkdir "/srv/app/temp";
     Utils.Download "https://example.com/cat.png"
       "/srv/app/temp/1750000000000-cat.png";
     Utils.Stat "/srv/app/temp/1750000000000-cat.png"]
    "/srv/app/temp/1750000000000-cat.png" = Utils.Failed notFound
  /\ Utils.isTypeError notFound = false
  /\ Utils.processFile (exampleHostWith 512 false)
       "https://example.com/cat.png" Utils.image []
     = (Utils.Failed notFound,
        [Utils.Mkdir "/srv/app/temp";
         Utils.Download "https://example.com/cat.png"
           "/srv/app/temp/1750000000000-cat.png";
         Utils.Stat "/srv/app/temp/1750000000000-cat.png";
         Utils.ReadFile "/srv/app/temp/1750000000000-cat.png"]).
Proof.
  split; [reflexivity |]. split; [reflexivity |].
  refine (unread_download_left_behind (exampleHostWith 512 false)
            "https://example.com/cat.png" Utils.image [] catUrl
            (Utils.mkStats 512 true) notFound eq_refl eq_refl eq_refl eq_refl
            eq_refl _ eq_refl eq_refl).
  discriminate.
Defined.

End FileProcessing.

(* ------------------------------------------------------------------ *)
(** *** [edit] and [stt] on top of [processFile] *)

Lemma nonBlank_string (v : JsValue) : NonBlank v -> exists path, v = JStr path.
Proof. intros (s & -> & _). exists s. reflexivity. Qed.

Lemma validateEdit_file (request : JsObject) :
  Image.validateEdit request = Return tt ->
  NonBlank (field "image_file" request).
Proof.
  unfold Image.validateEdit. cbv zeta.
  rewrite !bindC_ok, !rejectIf_ok, !notNonEmptyString_false. tauto.
Qed.

Lemma validateStt_file (request : JsObject) :
  Audio.validateStt request = Return tt ->
  NonBlank (field "audio_file" request).
Proof.
  unfold Audio.validateStt. cbv zeta.
  rewrite !bindC_ok, !rejectIf_ok, !notNonEmptyString_false. tauto.
Qed.

(** What the modules get from [processFile] has been checked. *)
Lemma imported_done (h : Utils.Host) (before : list Utils.HostCall)
    (path : string) (type : Utils.FileType) (file : Utils.File) :
  fst (Utils.processFile h path type before) = Utils.Done file ->
  Checked h type path file.
Proof.
  destruct (Utils.processFile h path type before) as [r t'] eqn:H.
  cbn [fst]. intros ->.
  apply processFile_done in H as [(url & Hurl & H) | (pre & H & _)];
    eauto using fromUrl_checked, fromLocal_checked.
Qed.

(** X25. [image.edit] with the [processFile] of utils.ts: once the checks
    pass, [image_file] is a string; if [processFile] fails on it nothing
    is sent and the error's message comes back in a validation error; if
    it returns a file, that file has been checked as an image, and one
    form with its bytes and name goes to [/image/edit]. *)
Theorem edit_sends_checked_files (rt : Runtime) (h : Utils.Host)
    (before : list Utils.HostCall) (co : Collaborators) (request : JsObject)
    (calls : list TransportCall) :
  co_processFile co = importedProcessFile h before ->
  Image.validateEdit request = Return tt ->
  exists path,
    field "image_file" request = JStr path
    /\ match fst (Utils.processFile h path Utils.image before) with
       | Utils.Failed e =>
           Image.edit rt co (mkWorld request calls)
           = (editFailure rt
                (NativeError (Utils.isTypeError e) (Utils.errorMessage e)),
              mkWorld request calls)
       | Utils.Done file =>
           Checked h Utils.image path file
           /\ transportCalls (snd (Image.edit rt co (mkWorld request calls)))
              = (calls
                 ++ [FormCall "/image/edit"
                       (editForm request
                          (mkFile (Utils.buffer file)
                             (Utils.filename file)))])%list
       end.
Proof.
  intros Hco Hvalid.
  destruct (nonBlank_string _ (validateEdit_file request Hvalid))
    as [path Hpath].
  exists path. split; [exact Hpath |].
  rewrite (edit_run rt co request calls Hvalid), Hco, Hpath.
  unfold importedProcessFile. cbn [String.eqb Ascii.eqb Bool.eqb].
  destruct (fst (Utils.processFile h path Utils.image before))
    as [file | e] eqn:Hp.
  - split; [apply (imported_done h before), Hp | reflexivity].
  - reflexivity.
Qed.

Lemma edit_sends_checked_files_witness :
  co_processFile hostSpy = importedProcessFile exampleHost []
  /\ Image.validateEdit localEditRequest = Return tt
  /\ Utils.processFile exampleHost "/srv/app/photo.png" Utils.image []
     = (Utils.Done (Utils.mkFile [] "photo.png" "/srv/app/photo.png"),
        [Utils.Stat "/srv/app/photo.png"; Utils.ReadFile "/srv/app/photo.png"])
  /\ Checked exampleHost Utils.image "/srv/app/photo.png"
       (Utils.mkFile [] "photo.png" "/srv/app/photo.png")
  /\ transportCalls
       (snd (Image.edit exampleRuntime hostSpy (mkWorld localEditRequest [])))
     = [FormCall "/image/edit"
          [("models[0]", FormField (JStr "dall-e-3"));
           ("image_file", FormFile [] "photo.png");
           ("prompt", FormField (JStr "Add a sunset background"))]].
Proof.
  split; [reflexivity |]. split; [reflexivity |]. split; [reflexivity |].
  destruct (edit_sends_checked_files exampleRuntime exampleHost [] hostSpy
              localEditRequest [] eq_refl eq_refl) as (path & Hpath & H).
  injection Hpath as <-. exact H.
Defined.

(** X26. [audio.stt] with the [processFile] of utils.ts: once the checks
    pass, [audio_file] is a string; if [processFile] fails on it nothing
    is sent and the error's message comes back in a validation error; if
    it returns a file, that file has been checked as audio, and one form
    with its bytes and name goes to [/audio/stt], unless counting the
    keys of the parameters throws, when nothing is sent. *)
Theorem stt_sends_checked_files (rt : Runtime) (h : Utils.Host)
    (before : list Utils.HostCall) (co : Collaborators) (request : JsObject)
    (calls : list TransportCall) :
  co_processFile co = importedProcessFile h before ->
  Audio.validateStt request = Return tt ->
  exists path,
    field "audio_file" request = JStr path
    /\ match fst (Utils.processFile h path Utils.audio before) with
       | Utils.Failed e =>
           Audio.stt rt co (mkWorld request calls)
           = (sttFailure rt
                (NativeError (Utils.isTypeError e) (Utils.errorMessage e)),
              mkWorld request calls)
       | Utils.Done file =>
           Checked h Utils.audio path file
           /\ transportCalls (snd (Audio.stt rt co (mkWorld request calls)))
              = match Audio.keysLength
                        (withDefault (field "model_specific_params" request)
                           (JObj [])) with
                | Return count =>
                    (calls
                     ++ [FormCall "/audio/stt"
                           (sttForm rt request
                              (mkFile (Utils.buffer file)
                                 (Utils.filename file)) count)])%list
                | Throw _ => calls
                end
       end.
Proof.
  intros Hco Hvalid.
  destruct (nonBlank_string _ (validateStt_file request Hvalid))
    as [path Hpath].
  exists path. split; [exact Hpath |].
  rewrite (stt_run rt co request calls Hvalid), Hco, Hpath.
  unfold importedProcessFile. cbn [String.eqb Ascii.eqb Bool.eqb].
  destruct (fst (Utils.processFile h path Utils.audio before))
    as [file | e] eqn:Hp.
  - split; [apply (imported_done h before), Hp |].
    destruct (Audio.keysLength _) as [count | error]; reflexivity.
  - reflexivity.
Qed.

Lemma stt_sends_checked_files_witness :
  co_processFile hostSpy = importedProcessFile exampleHost []
  /\ Audio.validateStt localSttRequest = Return tt
  /\ Utils.processFile exampleHost "/srv/app/speech.mp3" Utils.audio []
     = (Utils.Done (Utils.mkFile [] "speech.mp3" "/srv/app/speech.mp3"),
        [Utils.Stat "/srv/app/speech.mp3";
         Utils.ReadFile "/srv/app/speech.mp3"])
  /\ transportCalls
       (snd (Audio.stt exampleRuntime hostSpy (mkWorld localSttRequest [])))
     = [FormCall "/audio/stt"
          [("models[0]", FormField (JStr "gpt-4o-transcribe"));
           ("audio_file", FormFile [] "speech.mp3")]].
Proof.
  split; [reflexivity |]. split; [reflexivity |]. split; [reflexivity |].
  destruct (stt_sends_checked_files exampleRuntime exampleHost [] hostSpy
              localSttRequest [] eq_refl eq_refl) as (path & Hpath & H).
  injection Hpath as <-. exact (proj2 H).
Defined.

(* ------------------------------------------------------------------ *)
(** *** [authenticate] *)

(** X27. [authenticate] returns a value exactly when the key and the base URL
    are not empty, [fetch] on [<baseUrl>/auth] returned a response with a
    status from 200 to 299, and the value is that response's body parsed
    as JSON, with a truthy [token]; in every other case it throws. *)
Theorem authenticate_returns_iff (rt : Runtime) (fetch : Fetch)
    (jsonError : Response.t -> Exn) (apiKey baseUrl : string)
    (data : JsValue) :
  Authentication.authenticate rt fetch jsonError apiKey baseUrl = Return data
  <-> apiKey <> EmptyString /\ baseUrl <> EmptyString
      /\ exists response,
           fetch (baseUrl ++ "/auth") (Authentication.authInit rt apiKey)
           = Return response
           /\ Response.ok response = true
           /\ Response.json rt response = Some data
           /\ truthy (getProp data "token") = true.
Proof.
  unfold Authentication.authenticate.
  destruct (String.eqb_spec apiKey EmptyString) as [Hk | Hk].
  { split; [discriminate | intros [H _]; contradiction]. }
  destruct (String.eqb_spec baseUrl EmptyString) as [Hb | Hb].
  { split; [discriminate | intros (_ & H & _); contradiction]. }
  destruct (fetch _ _) as [response | error]; cbn [bindC].
  - destruct (Response.ok response) eqn:Hok; cbn [negb].
    + destruct (Response.json rt response) as [d |] eqn:Hjson.
      * destruct (isNullish d) eqn:Hn.
        { split; [discriminate |].
          intros (_ & _ & r & Hr & _ & Hd & Ht).
          injection Hr as <-. rewrite Hjson in Hd. injection Hd as <-.
          destruct d; discriminate. }
        destruct (truthy (getProp d "token")) eqn:Ht; cbn [negb].
        { split.
          - intros H. injection H as <-.
            repeat split; try assumption. exists response. auto.
          - intros (_ & _ & r & Hr & _ & Hd & _).
            injection Hr as <-. rewrite Hjson in Hd. injection Hd as <-.
            reflexivity. }
        split; [discriminate |].
        intros (_ & _ & r & Hr & _ & Hd & Ht').
        injection Hr as <-. rewrite Hjson in Hd. injection Hd as <-.
        congruence.
      * split; [discriminate |].
        intros (_ & _ & r & Hr & _ & Hd & _).
        injection Hr as <-. congruence.
    + split; [discriminate |].
      intros (_ & _ & r & Hr & Hok' & _). injection Hr as <-. congruence.
  - split; [discriminate |]. intros (_ & _ & r & Hr & _). discriminate Hr.
Qed.
